(** * Reboot scheduler service: a shallow embedding of [reboot.go]

  The development follows the source file top-down:
  - machine integers and [time.Duration];
  - the parts of Go's [time] package that [calculateSleepDuration] calls
    ([time.Parse] with layout 15:04, [time.Date], [Time.Sub], the civil
    calendar and zone lookup of a [*time.Location]);
  - the file system operations, the output of the standard logger and
    [loadConfig];
  - [calculateSleepDuration] and [reboot];
  - [RebootService.Execute] as a labelled transition system over the two
    goroutines it runs (the control loop and the timer goroutine). *)

From Stdlib Require Import ZArith Lia Bool List String Ascii.
From stdpp Require Import base gmap strings.
Import ListNotations.
Open Scope Z_scope.

(** ** Machine integers *)

Module GoInt.

(** Go's [int] on the 64-bit Windows targets, and [time.Duration]
    (an [int64] count of nanoseconds). *)
Definition minInt64 : Z := - 2 ^ 63.
Definition maxInt64 : Z := 2 ^ 63 - 1.

(** Two's complement wrap-around: the [int64] that is congruent to [z]
    modulo 2^64. Go's [+], [-] and [*] on [int], [int64] and [uint64] all
    compute modulo 2^64. *)
Definition wrap64 (z : Z) : Z := (z + 2 ^ 63) mod 2 ^ 64 - 2 ^ 63.

Definition add64 (a b : Z) : Z := wrap64 (a + b).
Definition sub64 (a b : Z) : Z := wrap64 (a - b).
Definition mul64 (a b : Z) : Z := wrap64 (a * b).

(** Clamping to the [int64] range, as [Time.Sub] does for a [Duration]. *)
Definition sat64 (z : Z) : Z :=
  if z <? minInt64 then minInt64
  else if maxInt64 <? z then maxInt64
  else z.

Definition inInt64 (z : Z) : Prop := minInt64 <= z <= maxInt64.

End GoInt.

(** ** The civil calendar of package [time] *)

Module Calendar.
Import GoInt.

Definition secondsPerDay : Z := 86400.
Definition secondsPerHour : Z := 3600.
Definition secondsPerMinute : Z := 60.
Definition nanosPerSecond : Z := 1000000000.

Definition isLeap (year : Z) : bool :=
  (year mod 4 =? 0) && (negb (year mod 100 =? 0) || (year mod 400 =? 0)).

(** [daysBefore[m]]: days in a non-leap year before month [m+1]. *)
Definition daysBefore (m : Z) : Z :=
  match m with
  | 0 => 0 | 1 => 31 | 2 => 59 | 3 => 90 | 4 => 120 | 5 => 151
  | 6 => 181 | 7 => 212 | 8 => 243 | 9 => 273 | 10 => 304 | 11 => 334
  | _ => 365
  end.

(** [daysIn(m, year)]: the length of month [m] (1..12) of [year]. *)
Definition daysIn (m year : Z) : Z :=
  if (m =? 2) && isLeap year then 29
  else daysBefore m - daysBefore (m - 1).

(** Days from 1970-01-01 to January 1 of [year] (proleptic Gregorian).
    Package [time] counts the days from the year -292277022399 in a
    [uint64]; this is that count less the days before 1970, as an integer
    that does not wrap. [time.Date] below takes it modulo 2^64. *)
Definition daysSinceEpoch (year : Z) : Z :=
  let y := year - 1 in
  365 * y + y / 4 - y / 100 + y / 400 - 719162.

(** [norm hi lo base]: carry [lo] into [hi] so that [0 <= lo < base];
    the operands are [int]s. *)
Definition norm (hi lo base : Z) : Z * Z :=
  let '(hi, lo) :=
    if lo <? 0 then
      let n := add64 (Z.quot (sub64 (sub64 0 lo) 1) base) 1 in
      (sub64 hi n, add64 lo (mul64 n base))
    else (hi, lo) in
  if base <=? lo then
    let n := Z.quot lo base in (add64 hi n, sub64 lo (mul64 n base))
  else (hi, lo).

(** Day number (days since 1970-01-01) of a civil date whose month is in
    1..12; [day] is unrestricted, which is what lets [time.Date] roll an
    out-of-range day over into other months and years. *)
Definition dayNumber (year month day : Z) : Z :=
  daysSinceEpoch year
  + daysBefore (month - 1)
  + (if isLeap year && (3 <=? month) then 1 else 0)
  + (day - 1).

(** Wall-clock seconds (seconds since 1970-01-01T00:00:00 read as if the
    zone were UTC) of the date and time handed to [time.Date], as an
    integer that does not wrap; [time.Date] computes this count modulo
    2^64. *)
Definition wallSeconds (year month day hour min sec : Z) : Z :=
  let '(year, m) := norm year (month - 1) 12 in
  let month := m + 1 in
  let '(min, sec) := norm min sec 60 in
  let '(hour, min) := norm hour min 60 in
  let '(day, hour) := norm day hour 24 in
  dayNumber year month day * secondsPerDay
  + (hour * secondsPerHour + min * secondsPerMinute + sec).

(** From a day number back to the year and the zero-based day of the
    year, by 400-, 100-, 4- and 1-year cycles. *)
Definition yearDay (days : Z) : Z * Z :=
  let d := days + 719162 in
  let n400 := d / 146097 in
  let d := d - 146097 * n400 in
  let n100 := d / 36524 in
  let n100 := n100 - Z.shiftr n100 2 in
  let d := d - 36524 * n100 in
  let n4 := d / 1461 in
  let d := d - 1461 * n4 in
  let n1 := d / 365 in
  let n1 := n1 - Z.shiftr n1 2 in
  let d := d - 365 * n1 in
  (400 * n400 + 100 * n100 + 4 * n4 + n1 + 1, d).

(** Month (1..12) and day of the month from the day of the year. *)
Definition monthDay (leap : bool) (yday : Z) : Z * Z :=
  if leap && (yday =? 31 + 29 - 1) then (2, 29)
  else
    let day := if leap && (31 + 29 - 1 <? yday) then yday - 1 else yday in
    let month := day / 31 in
    let e := daysBefore (month + 1) in
    if e <=? day then (month + 2, day - e + 1)
    else (month + 1, day - daysBefore month + 1).

(** The civil date (year, month, day) of a day number. *)
Definition civil (days : Z) : Z * Z * Z :=
  let '(year, yday) := yearDay days in
  let '(month, day) := monthDay (isLeap year) yday in
  (year, month, day).

End Calendar.

(** ** Locations (time zones) *)

Module Zone.
Import GoInt.

(** A zone transition: from UTC second [when] on, [offset] seconds east
    of UTC apply. *)
Record zoneTrans : Type := { when : Z; offset : Z }.

(** A location: the offset in force before the first transition and the
    transitions in increasing order of [when]. *)
Record Location : Type := { zone0 : Z; tx : list zoneTrans }.

Definition alpha : Z := - 2 ^ 63.
Definition omega : Z := 2 ^ 63 - 1.

(** [lookup l sec] = (offset in force at UTC second [sec], start and end
    of the period in which that offset applies). *)
Fixpoint lookupFrom (off start : Z) (ts : list zoneTrans) (sec : Z)
  : Z * Z * Z :=
  match ts with
  | [] => (off, start, omega)
  | t :: rest =>
      if sec <? when t then (off, start, when t)
      else lookupFrom (offset t) (when t) rest sec
  end.

Definition lookup (l : Location) (sec : Z) : Z * Z * Z :=
  lookupFrom (zone0 l) alpha (tx l) sec.

Definition offsetAt (l : Location) (sec : Z) : Z := fst (fst (lookup l sec)).

(** The offset [time.Date] subtracts from wall-clock seconds [unix]: it
    looks the wall-clock value up as if it were UTC and looks again when
    the adjusted instant falls outside the period found. *)
Definition dateOffset (l : Location) (unix : Z) : Z :=
  let '(off, start, stop) := lookup l unix in
  if off =? 0 then 0
  else
    let utc := sub64 unix off in
    if (utc <? start) || (stop <=? utc) then offsetAt l utc else off.

Definition UTC : Location := {| zone0 := 0; tx := [] |}.

(** Every offset of the location is at most [b] seconds either way. *)
Definition offsetsWithin (b : Z) (l : Location) : Prop :=
  - b <= zone0 l <= b /\ Forall (fun t => - b <= offset t <= b) (tx l).

End Zone.

(** ** Instants, [time.Date], [Time.Sub], [time.Parse] *)

Module GoTime.
Import GoInt Calendar Zone.

(** A [time.Time]: seconds and nanoseconds since the Unix epoch, and the
    location in which its calendar fields are read. Go keeps the seconds
    since the year 1 in an [int64]; [unixTime] below is the constructor
    that wraps them. The reading of the clock, [time.Now()], is an instant
    of the model's clock as it is. *)
Record Time : Type := { unixSec : Z; nsec : Z; loc : Location }.

(** Seconds from the start of the year 1 to the Unix epoch. *)
Definition unixToInternal : Z := 62135596800.

(** [unixTime(sec, nsec)] in a location: the [int64] stored is
    [sec + unixToInternal]. *)
Definition unixTime (sec ns : Z) (l : Location) : Time :=
  {| unixSec := add64 sec unixToInternal - unixToInternal;
     nsec := ns; loc := l |}.

Definition unixNano (t : Time) : Z := unixSec t * nanosPerSecond + nsec t.

(** Seconds since 1970-01-01T00:00:00 on the wall clock of [loc t]. *)
Definition wallOf (t : Time) : Z := unixSec t + offsetAt (loc t) (unixSec t).

Definition localDay (t : Time) : Z := wallOf t / secondsPerDay.

Definition Year (t : Time) : Z := fst (fst (civil (localDay t))).
Definition Month (t : Time) : Z := snd (fst (civil (localDay t))).
Definition Day (t : Time) : Z := snd (civil (localDay t)).
Definition Hour (t : Time) : Z := (wallOf t mod secondsPerDay) / secondsPerHour.
Definition Minute (t : Time) : Z := (wallOf t mod secondsPerHour) / secondsPerMinute.
Definition Second (t : Time) : Z := wallOf t mod secondsPerMinute.

(** Nanoseconds elapsed since local midnight. *)
Definition clockOfDay (t : Time) : Z :=
  (wallOf t mod secondsPerDay) * nanosPerSecond + nsec t.

(** [time.Date(year, month, day, hour, min, sec, nsec, loc)]. The count
    of seconds is formed in 64-bit arithmetic, so it is [wallSeconds]
    modulo 2^64, read as an [int64] (for every year from -292277022399
    on, where Go's count of days starts); so is the instant after the zone
    adjustment. *)
Definition Date (year month day hour min sec ns : Z) (l : Location) : Time :=
  let '(sec, ns) := norm sec ns nanosPerSecond in
  let unix := wrap64 (wallSeconds year month day hour min sec) in
  unixTime (sub64 unix (dateOffset l unix)) ns l.

(** [time.Date] does not wrap around for the wall-clock reading [wall] in
    location [l]: the reading, the instant after the zone adjustment and
    the seconds since the year 1 that the [Time] stores each fit an
    [int64]. *)
Definition dateFits (l : Location) (wall : Z) : Prop :=
  inInt64 wall /\
  inInt64 (wall - dateOffset l wall) /\
  inInt64 (wall - dateOffset l wall + unixToInternal).

(** [t.Sub(u)]: the duration [t - u], clamped to the range of
    [Duration]. *)
Definition Sub (t u : Time) : Z := sat64 (unixNano t - unixNano u).

(** [t.Add(d)]. *)
Definition Add (t : Time) (d : Z) : Time :=
  let n := unixNano t + d in
  {| unixSec := n / nanosPerSecond; nsec := n mod nanosPerSecond; loc := loc t |}.

Definition isDigit (c : ascii) : bool :=
  (48 <=? Z.of_nat (nat_of_ascii c)) && (Z.of_nat (nat_of_ascii c) <=? 57).

Definition digitVal (c : ascii) : Z := Z.of_nat (nat_of_ascii c) - 48.

(** [getnum s fixed]: a one- or two-digit number at the head of [s];
    with [fixed] two digits are required. *)
Definition getnum (s : string) (fixed : bool) : option (Z * string) :=
  match s with
  | String c0 rest =>
      if isDigit c0 then
        match rest with
        | String c1 rest' =>
            if isDigit c1 then Some (digitVal c0 * 10 + digitVal c1, rest')
            else if fixed then None else Some (digitVal c0, rest)
        | EmptyString => if fixed then None else Some (digitVal c0, rest)
        end
      else None
  | EmptyString => None
  end.

(** [time.Parse("15:04", value)], reduced to the hour and minute of the
    result (the only fields the caller reads): an hour of one or two
    digits below 24, a colon, a minute of exactly two digits below 60 and
    nothing after it. *)
Definition parseClock (value : string) : option (Z * Z) :=
  match getnum value false with
  | Some (hour, String c value) =>
      if (hour <? 0) || (24 <=? hour) then None
      else if negb (Ascii.eqb c ":") then None
      else
        match getnum value true with
        | Some (min, EmptyString) =>
            if (min <? 0) || (60 <=? min) then None else Some (hour, min)
        | _ => None
        end
  | _ => None
  end.

End GoTime.

(** ** The process state the helper functions act on *)

Module Sys.

(** The global [config] struct (line 20). *)
Record Config : Type := { AfterDays : Z; At : string }.

Definition zeroConfig : Config := {| AfterDays := 0; At := "" |}.

(** What the functions hand to package [log]. *)
Inductive LogLine : Type :=
| Println (msg : string)
| PrintRebootAt (unixNanos : Z)
| Fatalf (msg : string).

(** The files the program touches, with the paths the operating system
    refuses to create or write ([noWrite]) or to read ([noRead]).
    [files] holds the text of each file that exists; [appended] holds the
    lines the standard logger has written at the end of a file since. The
    bytes of a file are its text followed by those lines, each as package
    [log] prints it (with the date and time in front). *)
Record FS : Type := {
  files : gmap string string;
  appended : gmap string (list LogLine);
  noWrite : gset string;
  noRead : gset string
}.

(** The lines the logger has appended to the file at [path]. *)
Definition journal (f : FS) (path : string) : list LogLine :=
  match appended f !! path with Some ls => ls | None => [] end.

(** A writer behind the standard logger: standard error (the default of
    package [log]), standard output (which takes what is written or, as in
    a process without a console, fails), a log file that is open, and a log
    file that has been closed. *)
Inductive Writer : Type :=
| Stderr
| Stdout (works : bool)
| LogFile (path : string)
| ClosedFile.

Record Sys : Type := {
  fs : FS;
  config : Config;
  logged : list LogLine;
  (** the writers set by [log.SetOutput], as [io.MultiWriter] holds them *)
  logOut : list Writer;
  (** how many times the command [shutdown /r /t 10] has been run *)
  shutdownRuns : nat
}.

(** The outcome of a call: a value, or [log.Fatalf] (the message is
    logged and the process exits with status 1). *)
Inductive Result (A : Type) : Type :=
| Ok (a : A)
| Fatal (msg : string).
Arguments Ok {A} a.
Arguments Fatal {A} msg.

(** Sequential code over [Sys] that may end in [log.Fatalf]. *)
Definition M (A : Type) : Type := Sys -> Sys * Result A.

Definition ret {A} (a : A) : M A := fun s => (s, Ok a).

Definition bind {A B} (m : M A) (k : A -> M B) : M B :=
  fun s =>
    match m s with
    | (s', Ok a) => k a s'
    | (s', Fatal msg) => (s', Fatal msg)
    end.

Definition setFS (f : FS) (s : Sys) : Sys :=
  {| fs := f; config := config s; logged := logged s; logOut := logOut s;
     shutdownRuns := shutdownRuns s |}.

Definition setConfig (c : Config) (s : Sys) : Sys :=
  {| fs := fs s; config := c; logged := logged s; logOut := logOut s;
     shutdownRuns := shutdownRuns s |}.

Definition setLogOut (out : list Writer) (s : Sys) : Sys :=
  {| fs := fs s; config := config s; logged := logged s; logOut := out;
     shutdownRuns := shutdownRuns s |}.

(** One more line at the end of the file at [path]. *)
Definition appendLine (path : string) (l : LogLine) (f : FS) : FS :=
  {| files := files f;
     appended := <[path := journal f path ++ [l]]> (appended f);
     noWrite := noWrite f; noRead := noRead f |}.

(** [io.MultiWriter(writers...).Write]: the line goes to each writer in
    turn, and the first writer that fails ends the write. *)
Fixpoint writeLog (out : list Writer) (l : LogLine) (f : FS) : FS :=
  match out with
  | [] => f
  | Stderr :: rest => writeLog rest l f
  | Stdout works :: rest => if works then writeLog rest l f else f
  | LogFile path :: rest => writeLog rest l (appendLine path l f)
  | ClosedFile :: _ => f
  end.

(** A line handed to the standard logger: it is written to the output
    set at that moment. *)
Definition addLog (l : LogLine) (s : Sys) : Sys :=
  {| fs := writeLog (logOut s) l (fs s); config := config s;
     logged := logged s ++ [l]; logOut := logOut s;
     shutdownRuns := shutdownRuns s |}.

Definition countShutdown (s : Sys) : Sys :=
  {| fs := fs s; config := config s; logged := logged s; logOut := logOut s;
     shutdownRuns := S (shutdownRuns s) |}.

(** [log.SetOutput(io.MultiWriter(writers...))]. *)
Definition setOutput (out : list Writer) : M unit :=
  fun s => (setLogOut out s, Ok tt).

(** [logFile.Close()] for the file opened at [path]: the logger keeps
    the writer, and writes to it fail from now on. *)
Definition closeWriter (path : string) (wr : Writer) : Writer :=
  match wr with
  | LogFile p => if String.eqb p path then ClosedFile else wr
  | _ => wr
  end.

Definition closeLogFile (path : string) : M unit :=
  fun s => (setLogOut (map (closeWriter path) (logOut s)) s, Ok tt).

Definition logPrintln (msg : string) : M unit :=
  fun s => (addLog (Println msg) s, Ok tt).

Definition logFatalf {A} (msg : string) : M A :=
  fun s => (addLog (Fatalf msg) s, Fatal msg).

Definition getConfig : M Config := fun s => (s, Ok (config s)).

Definition putConfig (c : Config) : M unit := fun s => (setConfig c s, Ok tt).

(** [os.OpenFile(path, O_APPEND|O_CREATE|O_WRONLY, 0644)]. *)
Definition openAppend (path : string) (f : FS) : option FS :=
  if decide (path ∈ noWrite f) then None
  else
    Some {| files := match files f !! path with
                     | Some _ => files f
                     | None => <[path := ""%string]> (files f)
                     end;
            appended := appended f;
            noWrite := noWrite f; noRead := noRead f |}.

(** [os.Stat(path)] followed by [os.IsNotExist(err)]. *)
Definition isNotExist (path : string) (f : FS) : bool :=
  match files f !! path with Some _ => false | None => true end.

(** [os.WriteFile(path, data, 0644)]. *)
Definition writeFile (path data : string) (f : FS) : option FS :=
  if decide (path ∈ noWrite f) then None
  else Some {| files := <[path := data]> (files f);
               appended := delete path (appended f);
               noWrite := noWrite f; noRead := noRead f |}.

(** [os.ReadFile(path)]. The program reads [config.yaml] only, a file it
    never makes the logger write to: what is read is the text. *)
Definition readFile (path : string) (f : FS) : option string :=
  if decide (path ∈ noRead f) then None else files f !! path.

(** An operation on the file system that fails with [log.Fatalf]. *)
Definition fsUpdate (op : FS -> option FS) (failure : string) : M unit :=
  fun s =>
    match op (fs s) with
    | Some f => (setFS f s, Ok tt)
    | None => logFatalf failure s
    end.

Definition fsRead (op : FS -> option string) (failure : string) : M string :=
  fun s =>
    match op (fs s) with
    | Some d => (s, Ok d)
    | None => logFatalf failure s
    end.

End Sys.

Declare Scope go_scope.
Notation "x <- m ;; k" := (Sys.bind m (fun x => k))
  (at level 100, m at next level, right associativity) : go_scope.
Notation "m ;;; k" := (Sys.bind m (fun _ => k))
  (at level 100, right associativity) : go_scope.
Open Scope go_scope.

(** ** The program *)

Module Reboot.
Import GoInt Calendar Zone GoTime Sys.

(** What [yaml.Unmarshal(data, &config)] does with a document: it decodes
    into [config] in place, so the fields that decode are stored (the
    others keep their values) also when it returns an error; whether it
    returns one depends on the document alone, the target being a struct
    of an [int] and a [string]. *)
Record Decoded : Type := {
  stores : Config -> Config;
  failed : bool
}.

(** What the program takes from outside its source: the YAML decoder, the
    machine's local time zone ([time.Local]), and whether the process has a
    standard output that can be written to (a service started by the
    service control manager has none). *)
Record World : Type := {
  yamlUnmarshal : string -> Decoded;
  Local : Location;
  stdoutWorks : bool
}.

Definition LF : string := String (ascii_of_nat 10) EmptyString.
Definition QUOTE : string := String (ascii_of_nat 34) EmptyString.

(** [filepath.Join(exePath + "reboot_log.txt")],
    [filepath.Join(exePath, "config.yaml")] and
    [filepath.Join(exePath, "service_log.txt")] with [exePath = "C:/"]. *)
Definition logFilePath : string := "C:\reboot_log.txt".
Definition configPath : string := "C:\config.yaml".
Definition serviceLogPath : string := "C:\service_log.txt".

(** Line 41. *)
Definition defaultConfig : string :=
  ("after_days: 300" ++ LF ++ "at: " ++ QUOTE ++ "23:50" ++ QUOTE)%string.

(** Lines 27-58. From line 37 on the logger writes to standard output
    and to the log file; the deferred [logFile.Close()] of line 34 runs
    when the function returns, and not after a [log.Fatalf]. *)
Definition loadConfig (w : World) : M unit :=
  fsUpdate (openAppend logFilePath) "Failed to open log file" ;;;
  setOutput [Stdout (stdoutWorks w); LogFile logFilePath] ;;;
  notExist <- (fun s => (s, Ok (isNotExist configPath (fs s)))) ;;
  (if notExist : bool then
     fsUpdate (writeFile configPath defaultConfig)
              "Failed to create default config file" ;;;
     logPrintln "Default config.yaml created."
   else ret tt) ;;;
  data <- fsRead (readFile configPath) "Failed to read config file" ;;
  c <- getConfig ;;
  putConfig (stores (yamlUnmarshal w data) c) ;;;
  (if failed (yamlUnmarshal w data)
   then logFatalf "Failed to parse config file"
   else ret tt) ;;;
  closeLogFile logFilePath.

(** The instant [restartDateTime] of line 68. *)
Definition restartDateTime (c : Config) (now : Time) (hour min : Z) : Time :=
  Date (Year now) (Month now) (add64 (Day now) (AfterDays c))
       hour min 0 0 (loc now).

(** The wall-clock reading that line 68 asks of [time.Date], in seconds
    since 1970-01-01T00:00:00 on the local clock: the local day of [now],
    less its day of the month, plus the day argument, at [hour]:[min]:00.
    The properties of [restartDateTime] are stated with it. *)
Definition restartWall (c : Config) (now : Time) (hour min : Z) : Z :=
  (localDay now - Day now + add64 (Day now) (AfterDays c)) * secondsPerDay
  + hour * secondsPerHour + min * secondsPerMinute.

(** Lines 61-70; [now] is the value of [time.Now()]. *)
Definition calculateSleepDuration (now : Time) : M Z :=
  c <- getConfig ;;
  match parseClock (At c) with
  | None => logFatalf "Failed to parse time"
  | Some (hour, min) => ret (Sub (restartDateTime c now hour min) now)
  end.

(** Lines 73-81; [ok] tells whether [cmd.Run()] returned no error. *)
Definition reboot (ok : bool) : M unit :=
  logPrintln "Rebooting system..." ;;;
  (fun s => (countShutdown s, Ok tt)) ;;;
  if ok then logPrintln "System reboot initiated successfully."
  else logFatalf "Failed to execute shutdown command".

End Reboot.

(** ** [RebootService.Execute] and the process around it *)

Module Service.
Import GoInt Calendar Zone GoTime Sys Reboot.

(** Package [svc]: commands, states and status reports. *)
Inductive Cmd : Type :=
| Stop | Pause | Continue | Interrogate | Shutdown | OtherCmd (code : Z).

Inductive SvcState : Type :=
| Stopped | StartPending | StopPending | Running
| ContinuePending | PausePending | Paused.

Record Status : Type := { State : SvcState; Accepts : Z }.

Record ChangeRequest : Type := { Cmd_ : Cmd; CurrentStatus : Status }.

Definition AcceptStop : Z := 1.
Definition AcceptShutdown : Z := 4.

(** Line 88. *)
Definition cmdsAccepted : Z := Z.lor AcceptStop AcceptShutdown.

(** An unbuffered channel as far as a receiver can tell: a receive
    proceeds when the channel is closed or a sender is waiting. *)
Record Chan : Type := { closed : bool; senders : nat }.

Definition makeChan : Chan := {| closed := false; senders := 0 |}.

Definition recvReady (c : Chan) : bool := closed c || (0 <? senders c)%nat.

(** Where the goroutine that runs [Execute] stands. *)
Inductive MainPC : Type :=
| M_OpenLog             (* lines 91-100 *)
| M_StartPending        (* line 103 *)
| M_LogStarting         (* line 105 *)
| M_LoadConfig          (* line 108 *)
| M_Spawn               (* lines 111-124: make(chan), go func *)
| M_ReportRunning       (* line 127 *)
| M_Loop                (* lines 130-143 *)
| M_ReportStopPending   (* line 146 *)
| M_LogStopping         (* line 147 *)
| M_Returned (svcSpecificEC : bool) (exitCode : Z).  (* lines 94, 148 *)

(** Where the goroutine started at line 112 stands. *)
Inductive TimerPC : Type :=
| G_NotStarted
| G_Calc                      (* line 113 *)
| G_LogPlan (d : Z)           (* line 114 *)
| G_NewTimer (d : Z)          (* line 117 *)
| G_Select (deadline : Z)     (* lines 118-123 *)
| G_Reboot                    (* line 120, timer branch taken *)
| G_Finished.

Record Process : Type := {
  sys : Sys;
  clock : Z;                  (* nanoseconds since the Unix epoch *)
  mainpc : MainPC;
  timerpc : TimerPC;
  done : Chan;                (* line 111 *)
  statuses : list Status;     (* what was sent on [status], oldest first *)
  exited : option Z           (* exit status once the process is gone *)
}.

Definition setSys (x : Sys) (s : Process) : Process :=
  {| sys := x; clock := clock s; mainpc := mainpc s; timerpc := timerpc s;
     done := done s; statuses := statuses s; exited := exited s |}.

Definition setClock (t : Z) (s : Process) : Process :=
  {| sys := sys s; clock := t; mainpc := mainpc s; timerpc := timerpc s;
     done := done s; statuses := statuses s; exited := exited s |}.

Definition setMain (pc : MainPC) (s : Process) : Process :=
  {| sys := sys s; clock := clock s; mainpc := pc; timerpc := timerpc s;
     done := done s; statuses := statuses s; exited := exited s |}.

Definition setTimer (pc : TimerPC) (s : Process) : Process :=
  {| sys := sys s; clock := clock s; mainpc := mainpc s; timerpc := pc;
     done := done s; statuses := statuses s; exited := exited s |}.

Definition setDone (c : Chan) (s : Process) : Process :=
  {| sys := sys s; clock := clock s; mainpc := mainpc s; timerpc := timerpc s;
     done := c; statuses := statuses s; exited := exited s |}.

Definition sendStatus (st : Status) (s : Process) : Process :=
  {| sys := sys s; clock := clock s; mainpc := mainpc s; timerpc := timerpc s;
     done := done s; statuses := statuses s ++ [st]; exited := exited s |}.

Definition exit (code : Z) (s : Process) : Process :=
  {| sys := sys s; clock := clock s; mainpc := mainpc s; timerpc := timerpc s;
     done := done s; statuses := statuses s; exited := Some code |}.

(** Run a piece of sequential code; [log.Fatalf] ends the process with
    status 1. *)
Definition runM {A} (m : M A) (k : A -> Process -> Process) (s : Process) : Process :=
  match m (sys s) with
  | (x, Ok a) => k a (setSys x s)
  | (x, Fatal _) => exit 1 (setSys x s)
  end.

(** [time.Now()]. *)
Definition timeNow (w : World) (s : Process) : Time :=
  {| unixSec := clock s / nanosPerSecond;
     nsec := clock s mod nanosPerSecond;
     loc := Local w |}.

(** The status the service manager holds as current: the last one the
    service reported. Package [svc] puts it into every request. *)
Definition lastStatus (s : Process) : Status :=
  List.last (statuses s) {| State := Stopped; Accepts := 0 |}.

(** The body of [case c := <-req] (lines 133-139). *)
Definition handleRequest (c : ChangeRequest) (s : Process) : Process :=
  match Cmd_ c with
  | Interrogate => sendStatus (CurrentStatus c) s
  | Stop | Shutdown => setMain M_ReportStopPending s
  | _ => s
  end.

(** The next statement of [Execute] when it is not blocked. *)
Definition mainStep (w : World) (s : Process) : option Process :=
  match mainpc s with
  | M_OpenLog =>
      match openAppend serviceLogPath (fs (sys s)) with
      | None => Some (setMain (M_Returned false 1) s)
      | Some f =>
          Some (setMain M_StartPending
                  (setSys (setLogOut [LogFile serviceLogPath]
                                     (setFS f (sys s))) s))
      end
  | M_StartPending =>
      Some (setMain M_LogStarting
              (sendStatus {| State := StartPending; Accepts := 0 |} s))
  | M_LogStarting =>
      Some (runM (logPrintln "Service is starting.")
                 (fun _ => setMain M_LoadConfig) s)
  | M_LoadConfig => Some (runM (loadConfig w) (fun _ => setMain M_Spawn) s)
  | M_Spawn =>
      Some (setMain M_ReportRunning (setTimer G_Calc (setDone makeChan s)))
  | M_ReportRunning =>
      Some (setMain M_Loop
              (sendStatus {| State := Running; Accepts := cmdsAccepted |} s))
  | M_Loop => None
  | M_ReportStopPending =>
      Some (setMain M_LogStopping
              (sendStatus {| State := StopPending; Accepts := 0 |} s))
  | M_LogStopping =>
      Some (runM (logPrintln "Service is stopping.")
                 (fun _ => setMain (M_Returned false 0)) s)
  | M_Returned _ _ => None
  end.

(** The deadline of [time.NewTimer(d)] created at time [now]: a timer
    with [d <= 0] is due at once. *)
Definition timerDeadline (now d : Z) : Z := if d <=? 0 then now else now + d.

(** The next statement of the timer goroutine when it is not blocked. *)
Definition timerStep (w : World) (s : Process) : option Process :=
  match timerpc s with
  | G_Calc =>
      Some (runM (calculateSleepDuration (timeNow w s))
                 (fun d => setTimer (G_LogPlan d)) s)
  | G_LogPlan d =>
      Some (setTimer (G_NewTimer d)
              (setSys (addLog (PrintRebootAt (unixNano (Add (timeNow w s) d)))
                              (sys s)) s))
  | G_NewTimer d => Some (setTimer (G_Select (timerDeadline (clock s) d)) s)
  | _ => None
  end.

(** What can happen next. *)
Inductive Label : Type :=
| LTick (dt : Z)        (* time passes *)
| LMain                 (* [Execute] runs its next statement *)
| LReq (c : Cmd)        (* the loop receives a request from [req] *)
| LMainDone             (* the loop receives from [done] (line 140) *)
| LTimer                (* the timer goroutine runs its next statement *)
| LFire                 (* its select receives from [timer.C] (line 119) *)
| LTimerDone            (* its select receives from [done] (line 121) *)
| LReboot (ok : bool)   (* [reboot()], with the outcome of [cmd.Run()] *)
| LExit.                (* [Execute] has returned and the process ends *)

Definition step (w : World) (l : Label) (s : Process) : option Process :=
  match exited s with
  | Some _ => None
  | None =>
      match l with
      | LTick dt => if 0 <? dt then Some (setClock (clock s + dt) s) else None
      | LMain => mainStep w s
      | LReq c =>
          match mainpc s with
          | M_Loop =>
              Some (handleRequest
                      {| Cmd_ := c; CurrentStatus := lastStatus s |} s)
          | _ => None
          end
      | LMainDone =>
          match mainpc s with
          | M_Loop =>
              if recvReady (done s) then Some (setMain M_ReportStopPending s)
              else None
          | _ => None
          end
      | LTimer => timerStep w s
      | LFire =>
          match timerpc s with
          | G_Select deadline =>
              if deadline <=? clock s then Some (setTimer G_Reboot s) else None
          | _ => None
          end
      | LTimerDone =>
          match timerpc s with
          | G_Select _ =>
              if recvReady (done s) then Some (setTimer G_Finished s)
              else None
          | _ => None
          end
      | LReboot ok =>
          match timerpc s with
          | G_Reboot =>
              Some (runM (reboot ok) (fun _ => id) (setTimer G_Finished s))
          | _ => None
          end
      | LExit =>
          match mainpc s with
          | M_Returned _ _ => Some (exit 0 s)
          | _ => None
          end
      end
  end.

(** A run: the labels are taken in order; [None] when one of them is not
    enabled. *)
Fixpoint run (w : World) (ls : list Label) (s : Process) : option Process :=
  match ls with
  | [] => Some s
  | l :: ls' =>
      match step w l s with
      | Some s' => run w ls' s'
      | None => None
      end
  end.

(** The process as [svc.Run] enters [Execute]; the logger still writes to
    standard error. *)
Definition initial (f : FS) (t0 : Z) : Process :=
  {| sys := {| fs := f; config := zeroConfig; logged := [];
               logOut := [Stderr]; shutdownRuns := 0 |};
     clock := t0; mainpc := M_OpenLog; timerpc := G_NotStarted;
     done := makeChan; statuses := []; exited := None |}.

(** Calls of the Reboot Invoker so far. *)
Definition rebootCalls (s : Process) : nat := shutdownRuns (sys s).

(** *** What holds in every reachable state *)

Definition startPending : Status := {| State := StartPending; Accepts := 0 |}.
Definition running : Status := {| State := Running; Accepts := cmdsAccepted |}.
Definition stopPending : Status := {| State := StopPending; Accepts := 0 |}.

(** Whether the [go] statement of line 112 has been executed. *)
Definition goStarted (pc : MainPC) : bool :=
  match pc with
  | M_OpenLog | M_StartPending | M_LogStarting | M_LoadConfig | M_Spawn => false
  | M_Returned _ code => code =? 0
  | _ => true
  end.

(** Whether [loadConfig] has returned. *)
Definition configLoaded (pc : MainPC) : bool :=
  match pc with
  | M_Spawn => true
  | _ => goStarted pc
  end.

(** Whether [Execute] has left its loop. *)
Definition leftLoop (pc : MainPC) : bool :=
  match pc with
  | M_ReportStopPending | M_LogStopping => true
  | M_Returned _ code => code =? 0
  | _ => false
  end.

(** The status reports that belong to each point of [Execute]. *)
Definition reported (pc : MainPC) (sts : list Status) : Prop :=
  match pc with
  | M_OpenLog | M_StartPending => sts = []
  | M_LogStarting | M_LoadConfig | M_Spawn | M_ReportRunning =>
      sts = [startPending]
  | M_Loop | M_ReportStopPending =>
      exists n, sts = startPending :: repeat running (S n)
  | M_LogStopping =>
      exists n, sts = startPending :: repeat running (S n) ++ [stopPending]
  | M_Returned _ code =>
      if code =? 0
      then exists n, sts = startPending :: repeat running (S n) ++ [stopPending]
      else sts = []
  end.

Record Inv (s : Process) : Prop := {
  inv_done : done s = makeChan;
  inv_not_started : goStarted (mainpc s) = false -> timerpc s = G_NotStarted;
  inv_started : goStarted (mainpc s) = true -> timerpc s <> G_NotStarted;
  inv_calls :
    rebootCalls s = match timerpc s with G_Finished => 1%nat | _ => 0%nat end;
  inv_reported : reported (mainpc s) (statuses s);
  inv_parse :
    parseClock (At (config (sys s))) = None ->
    timerpc s = G_NotStarted \/ timerpc s = G_Calc
}.

Definition isStopRequest (l : Label) : bool :=
  match l with
  | LReq Stop | LReq Shutdown => true
  | _ => false
  end.

Definition isRequest (l : Label) : bool :=
  match l with
  | LReq _ => true
  | _ => false
  end.

End Service.

(** ** Concrete worlds and inputs for the examples *)

Module Examples.
Import GoInt Calendar Zone GoTime Sys Reboot Service.

Fixpoint lines (s : string) : list string :=
  match s with
  | EmptyString => [EmptyString]
  | String c rest =>
      if Ascii.eqb c (ascii_of_nat 10) then EmptyString :: lines rest
      else
        match lines rest with
        | l :: ls => String c l :: ls
        | [] => [String c EmptyString]
        end
  end.

Fixpoint stripPrefix (p s : string) : option string :=
  match p with
  | EmptyString => Some s
  | String a p' =>
      match s with
      | String b s' => if Ascii.eqb a b then stripPrefix p' s' else None
      | EmptyString => None
      end
  end.

Fixpoint digits (s : string) (acc : Z) : option Z :=
  match s with
  | EmptyString => Some acc
  | String c rest =>
      if isDigit c then digits rest (acc * 10 + digitVal c) else None
  end.

Definition parseInt (s : string) : option Z :=
  match s with
  | EmptyString => None
  | String "-" (String c rest) => option_map Z.opp (digits (String c rest) 0)
  | _ => digits s 0
  end.

Fixpoint dropFinalQuote (s : string) : option string :=
  match s with
  | EmptyString => None
  | String c EmptyString =>
      if Ascii.eqb c (ascii_of_nat 34) then Some EmptyString else None
  | String c rest => option_map (String c) (dropFinalQuote rest)
  end.

Definition unquote (s : string) : string :=
  match s with
  | String c rest =>
      if Ascii.eqb c (ascii_of_nat 34) then
        match dropFinalQuote rest with Some inner => inner | None => s end
      else s
  | EmptyString => s
  end.

(** The fields a list of lines stores, and whether a value of
    [after_days] was not an [int]: that field is then left as it is and
    decoding goes on, as [yaml.Unmarshal] does after a type error. *)
Fixpoint decodeLines (ls : list string) (c : Config) : Config * bool :=
  match ls with
  | [] => (c, false)
  | l :: rest =>
      match stripPrefix "after_days: " l with
      | Some v =>
          match parseInt v with
          | Some n =>
              if (minInt64 <=? n) && (n <=? maxInt64)
              then decodeLines rest {| AfterDays := n; At := At c |}
              else (fst (decodeLines rest c), true)
          | None => (fst (decodeLines rest c), true)
          end
      | None =>
          match stripPrefix "at: " l with
          | Some v =>
              decodeLines rest {| AfterDays := AfterDays c; At := unquote v |}
          | None => decodeLines rest c
          end
      end
  end.

(** A decoder for flat documents with the two keys of [config.yaml]. It
    takes the place of [yaml.Unmarshal] in the concrete runs below. *)
Definition flatYaml (data : string) : Decoded :=
  {| stores := fun c => fst (decodeLines (lines data) c);
     failed := snd (decodeLines (lines data) zeroConfig) |}.

(** Central European time around 2024: UTC+1, and UTC+2 from
    2024-03-31T01:00Z to 2024-10-27T01:00Z. *)
Definition berlin : Location :=
  {| zone0 := 3600;
     tx := [ {| when := wallSeconds 2024 3 31 1 0 0; offset := 7200 |};
             {| when := wallSeconds 2024 10 27 1 0 0; offset := 3600 |} ] |}.

Definition worldUTC : World :=
  {| yamlUnmarshal := flatYaml; Local := UTC; stdoutWorks := true |}.
Definition worldBerlin : World :=
  {| yamlUnmarshal := flatYaml; Local := berlin; stdoutWorks := true |}.

(** The UTC instant of a civil date and time. *)
Definition utc (year month day hour min sec : Z) : Time :=
  Date year month day hour min sec 0 UTC.

Definition configText (days : string) (at_ : string) : string :=
  ("after_days: " ++ days ++ LF ++ "at: " ++ QUOTE ++ at_ ++ QUOTE)%string.

Definition emptyFS : FS :=
  {| files := ∅; appended := ∅; noWrite := ∅; noRead := ∅ |}.

Definition fsWithConfig (text : string) : FS :=
  {| files := {[ configPath := text ]}; appended := ∅;
     noWrite := ∅; noRead := ∅ |}.

Definition sysWith (f : FS) (c : Config) : Sys :=
  {| fs := f; config := c; logged := []; logOut := [Stderr];
     shutdownRuns := 0 |}.

(** The worked example of the fire-time calculation, in location [l]:
    at 2024-01-01T10:00:00 with 300 days and 23:50 the duration returned
    leads to 2024-10-27T23:50:00. *)
Definition fireTimeExample (l : Location) : Prop :=
  let now := Date 2024 1 1 10 0 0 0 l in
  let s := sysWith emptyFS {| AfterDays := 300; At := "23:50" |} in
  let fire := Add now (match snd (calculateSleepDuration now s) with
                       | Ok d => d
                       | Fatal _ => 0
                       end) in
  (Year now, Month now, Day now, Hour now, Minute now, Second now, nsec now)
  = (2024, 1, 1, 10, 0, 0, 0) /\
  calculateSleepDuration now s
  = (s, Ok (unixNano (Date 2024 10 27 23 50 0 0 l) - unixNano now)) /\
  (Year fire, Month fire, Day fire, Hour fire, Minute fire, Second fire,
   nsec fire)
  = (2024, 10, 27, 23, 50, 0, 0).

(** [Execute] up to the control loop, and the timer goroutine up to its
    select. *)
Definition startup : list Label :=
  [LMain; LMain; LMain; LMain; LMain; LMain; LTimer; LTimer; LTimer].

Definition second : Z := 1000000000.
Definition millisecond : Z := 1000000.

End Examples.

(** ** What the timer goroutine has planned *)

Module Plan.
Import GoInt Calendar Zone GoTime Sys Reboot Service.

(** The value of [time.Now()] when the clock shows [t] nanoseconds. *)
Definition timeAt (w : World) (t : Z) : Time :=
  {| unixSec := t / nanosPerSecond;
     nsec := t mod nanosPerSecond;
     loc := Local w |}.

(** What [calculateSleepDuration] returns when called at clock [t] with
    configuration [c]; [None] when it ends in [log.Fatalf]. *)
Definition plannedWait (w : World) (c : Config) (t : Z) : option Z :=
  match parseClock (At c) with
  | Some (hour, min) =>
      Some (Sub (restartDateTime c (timeAt w t) hour min) (timeAt w t))
  | None => None
  end.

(** The wait computed at some moment [tc] since the start [t0] has
    wholly elapsed. *)
Definition waitElapsed (w : World) (t0 : Z) (s : Process) : Prop :=
  exists tc d,
    t0 <= tc <= clock s /\
    plannedWait w (config (sys s)) tc = Some d /\
    tc + d <= clock s.

(** How far the timer goroutine has come, against the clock. *)
Definition planInv (w : World) (t0 : Z) (s : Process) : Prop :=
  t0 <= clock s /\
  match timerpc s with
  | G_LogPlan d | G_NewTimer d =>
      exists tc, t0 <= tc <= clock s /\
                 plannedWait w (config (sys s)) tc = Some d
  | G_Select deadline =>
      exists tc d, t0 <= tc <= clock s /\
                   plannedWait w (config (sys s)) tc = Some d /\
                   tc + d <= deadline
  | G_Reboot | G_Finished => waitElapsed w t0 s
  | _ => True
  end.

Definition isInterrogate (c : Cmd) : bool :=
  match c with Interrogate => true | _ => false end.

Definition isStop (c : Cmd) : bool :=
  match c with Stop | Shutdown => true | _ => false end.

(** The statuses [Execute] can have reported, by how far it has come. *)
Definition statusProtocol (sts : list Status) : Prop :=
  sts = [] \/ sts = [startPending] \/
  (exists n, sts = startPending :: repeat running (S n)) \/
  (exists n, sts = startPending :: repeat running (S n) ++ [stopPending]).

End Plan.

(** ** [installService], [uninstallService] and [main] *)

Module Installer.
Import Sys.

(** Line 25. *)
Definition serviceName : string := "RebootSchedulerService".

Inductive StartType : Type := StartManual | StartAutomatic | StartDisabled.

(** What [m.CreateService] records for a service: the executable and the
    fields of [mgr.Config] that line 171 sets. *)
Record ServiceEntry : Type := {
  binaryPath : string;
  displayName : string;
  description : string;
  startType : StartType
}.

(** The parts of the machine the installer acts on: the database of the
    service control manager, the event log sources (with the kinds of event
    each supports), the handles this process holds open, and what it handed
    to package [log]. *)
Record Host : Type := {
  services : gmap string ServiceEntry;
  eventSources : gmap string Z;
  handles : nat;
  hostLog : list LogLine
}.

(** What the operating system decides: the path [os.Executable] reports
    and which calls it refuses whatever the state of the machine. *)
Record Env : Type := {
  executable : option string;
  connectFails : bool;
  openFails : bool;
  createFails : bool;
  deleteFails : bool;
  eventInstallFails : bool;
  eventRemoveFails : bool
}.

Definition setServices (m : gmap string ServiceEntry) (h : Host) : Host :=
  {| services := m; eventSources := eventSources h; handles := handles h;
     hostLog := hostLog h |}.

Definition setEventSources (m : gmap string Z) (h : Host) : Host :=
  {| services := services h; eventSources := m; handles := handles h;
     hostLog := hostLog h |}.

Definition setHandles (n : nat) (h : Host) : Host :=
  {| services := services h; eventSources := eventSources h; handles := n;
     hostLog := hostLog h |}.

Definition hostAddLog (l : LogLine) (h : Host) : Host :=
  {| services := services h; eventSources := eventSources h;
     handles := handles h; hostLog := hostLog h ++ [l] |}.

(** [mgr.Connect()]. *)
Definition mgrConnect (e : Env) (h : Host) : option Host :=
  if connectFails e then None else Some (setHandles (S (handles h)) h).

(** [m.OpenService(name)]: fails when there is no such service. *)
Definition openService (e : Env) (name : string) (h : Host) : option Host :=
  if openFails e then None
  else match services h !! name with
       | Some _ => Some (setHandles (S (handles h)) h)
       | None => None
       end.

(** [m.CreateService(name, exepath, config)]: fails when the service
    exists. *)
Definition createService (e : Env) (name : string) (entry : ServiceEntry)
           (h : Host) : option Host :=
  if createFails e then None
  else match services h !! name with
       | Some _ => None
       | None =>
           Some (setHandles (S (handles h))
                   (setServices (<[name := entry]> (services h)) h))
       end.

(** [s.Delete()] on the open service [name]. *)
Definition deleteService (e : Env) (name : string) (h : Host) : option Host :=
  if deleteFails e then None
  else Some (setServices (delete name (services h)) h).

(** [s.Close()] and [m.Disconnect()]. *)
Definition closeHandle (h : Host) : Host := setHandles (Nat.pred (handles h)) h.

Definition eventError : Z := 1.
Definition eventWarning : Z := 2.
Definition eventInfo : Z := 4.

(** [eventlog.InstallAsEventCreate(src, supports)]: fails when the source
    is registered already. *)
Definition eventInstall (e : Env) (src : string) (supports : Z) (h : Host)
  : option Host :=
  if eventInstallFails e then None
  else match eventSources h !! src with
       | Some _ => None
       | None => Some (setEventSources (<[src := supports]> (eventSources h)) h)
       end.

(** [eventlog.Remove(src)]: fails when the source is not registered. *)
Definition eventRemove (e : Env) (src : string) (h : Host) : option Host :=
  if eventRemoveFails e then None
  else match eventSources h !! src with
       | Some _ => Some (setEventSources (delete src (eventSources h)) h)
       | None => None
       end.

(** The result of a call with the machine it leaves: [Ok] for a normal
    return, [Fatal] for [log.Fatalf], after which the process is gone and
    no deferred call runs. *)
Definition fatal (msg : string) (h : Host) : Host * Result unit :=
  (hostAddLog (Fatalf msg) h, Fatal msg).

Definition println (msg : string) (h : Host) : Host :=
  hostAddLog (Println msg) h.

(** The entry made at line 171. *)
Definition newEntry (exePath : string) : ServiceEntry :=
  {| binaryPath := exePath;
     displayName := serviceName;
     description := "Automatically reboots the system at a scheduled time.";
     startType := StartAutomatic |}.

(** Lines 152-189. The deferred [s.Close()] and [m.Disconnect()] run, last
    deferred first, where the function returns. *)
Definition installService (e : Env) (h : Host) : Host * Result unit :=
  match executable e with
  | None => fatal "Failed to get executable path" h
  | Some exePath =>
      match mgrConnect e h with
      | None => fatal "Failed to connect to service manager" h
      | Some h =>
          match openService e serviceName h with
          | Some h =>
              let h := closeHandle h in
              let h := println "Service already exists." h in
              (closeHandle h, Ok tt)
          | None =>
              match createService e serviceName (newEntry exePath) h with
              | None => fatal "Failed to create service" h
              | Some h =>
                  match eventInstall e serviceName
                          (Z.lor (Z.lor eventError eventWarning) eventInfo) h
                  with
                  | None =>
                      let h := match deleteService e serviceName h with
                               | Some h' => h'
                               | None => h
                               end in
                      fatal "Failed to set up event log source" h
                  | Some h =>
                      let h := println "Service installed successfully." h in
                      (closeHandle (closeHandle h), Ok tt)
                  end
              end
          end
      end
  end.

(** Lines 192-216. *)
Definition uninstallService (e : Env) (h : Host) : Host * Result unit :=
  match mgrConnect e h with
  | None => fatal "Failed to connect to service manager" h
  | Some h =>
      match openService e serviceName h with
      | None => fatal "Service does not exist." h
      | Some h =>
          match deleteService e serviceName h with
          | None => fatal "Failed to delete service" h
          | Some h =>
              match eventRemove e serviceName h with
              | None => fatal "Failed to remove event log source" h
              | Some h =>
                  let h := println "Service uninstalled successfully." h in
                  (closeHandle (closeHandle h), Ok tt)
              end
          end
      end
  end.

(** How the process was started: [os.Args], what
    [svc.IsWindowsService()] returns ([None] for an error), and whether
    [svc.Run] reaches the service control dispatcher and so calls
    [Execute]. *)
Record Launch : Type := {
  args : list string;
  windowsService : option bool;
  dispatcherConnects : bool
}.

(** How [main] ends, or what it goes on to do. *)
Inductive Outcome : Type :=
| Returns (h : Host)                 (* [main] returns: exit status 0 *)
| Dies (h : Host) (msg : string)     (* [log.Fatalf]: exit status 1 *)
| Serves (h : Host).                 (* [svc.Run] calls [Execute] *)

Definition outcomeHost (o : Outcome) : Host :=
  match o with
  | Returns h | Dies h _ | Serves h => h
  end.

Definition finish (r : Host * Result unit) : Outcome :=
  match r with
  | (h, Ok _) => Returns h
  | (h, Fatal msg) => Dies h msg
  end.

(** Lines 231-246. *)
Definition runAsService (l : Launch) (h : Host) : Outcome :=
  match windowsService l with
  | None => Dies (hostAddLog (Fatalf "Failed to determine session type") h)
                 "Failed to determine session type"
  | Some interactive =>
      let h :=
        if interactive then
          println "Use 'install' to install the service and 'uninstall' to remove it."
            (println "This program should be run as a Windows service." h)
        else h in
      if dispatcherConnects l then Serves h
      else Dies (hostAddLog (Fatalf "Service failed") h) "Service failed"
  end.

(** Lines 219-247. *)
Definition main (l : Launch) (e : Env) (h : Host) : Outcome :=
  match args l with
  | _ :: arg1 :: _ =>
      if String.eqb arg1 "install" then finish (installService e h)
      else if String.eqb arg1 "uninstall" then finish (uninstallService e h)
      else runAsService l h
  | _ => runAsService l h
  end.

End Installer.

(** Machines and launches for the concrete runs of the installer. *)
Module InstallerExamples.
Import Sys Installer.

(** A machine without the service, and an operating system that refuses
    nothing. *)
Definition cleanHost : Host :=
  {| services := ∅; eventSources := ∅; handles := 0; hostLog := [] |}.

Definition okEnv : Env :=
  {| executable := Some "C:\reboot\reboot.exe";
     connectFails := false; openFails := false; createFails := false;
     deleteFails := false; eventInstallFails := false;
     eventRemoveFails := false |}.

(** The same, but [eventlog.InstallAsEventCreate] is refused. *)
Definition noEventLogEnv : Env :=
  {| executable := Some "C:\reboot\reboot.exe";
     connectFails := false; openFails := false; createFails := false;
     deleteFails := false; eventInstallFails := true;
     eventRemoveFails := false |}.

(** A machine on which the service is registered but its event source is
    not. *)
Definition halfInstalledHost : Host :=
  {| services := {[ serviceName := newEntry "C:\reboot\reboot.exe" ]};
     eventSources := ∅; handles := 0; hostLog := [] |}.

(** Started by the service control manager, without arguments. *)
Definition asService : Launch :=
  {| args := ["C:\reboot\reboot.exe"]; windowsService := Some true;
     dispatcherConnects := true |}.

End InstallerExamples.

(** * Properties *)

(** ** The calendar *)

Section CalendarFacts.
Import GoInt Calendar.

Lemma norm_in_range hi lo base :
  0 <= lo < base -> norm hi lo base = (hi, lo).
Proof.
  intros H. unfold norm.
  destruct (Z.ltb_spec lo 0); [lia |].
  destruct (Z.leb_spec base lo); [lia | reflexivity].
Qed.

(** [yearDay] splits a day number into the year it falls in and the
    offset inside that year. *)
Lemma yearDay_spec n :
  n = daysSinceEpoch (fst (yearDay n)) + snd (yearDay n) /\
  0 <= snd (yearDay n) < (if isLeap (fst (yearDay n)) then 366 else 365).
Proof.
  unfold yearDay, daysSinceEpoch, isLeap. cbn [fst snd].
  rewrite !Z.shiftr_div_pow2 by lia. change (2 ^ 2) with 4.
  set (d0 := n + 719162).
  set (n400 := d0 / 146097).
  set (d1 := d0 - 146097 * n400).
  assert (H1 : 0 <= d1 < 146097)
    by (subst d1 n400; Z.div_mod_to_equations; lia).
  assert (Hd1 : d0 = d1 + 146097 * n400) by (subst d1; lia).
  clearbody d1.
  set (q100 := d1 / 36524).
  assert (Hq100 : 0 <= q100 <= 4 /\ 36524 * q100 <= d1 < 36524 * q100 + 36524)
    by (subst q100; Z.div_mod_to_equations; lia).
  clearbody q100.
  set (n100 := q100 - q100 / 4).
  assert (Hn100 : (q100 = 4 /\ n100 = 3) \/ (q100 < 4 /\ n100 = q100))
    by (subst n100; Z.div_mod_to_equations; lia).
  clearbody n100.
  set (d2 := d1 - 36524 * n100).
  assert (H2 : 0 <= d2 < 36525 /\ (n100 < 3 -> d2 < 36524)) by (subst d2; lia).
  set (n4 := d2 / 1461).
  assert (Hn4 : 0 <= n4 <= 24 /\ 1461 * n4 <= d2 < 1461 * n4 + 1461)
    by (subst n4; Z.div_mod_to_equations; lia).
  clearbody n4.
  set (d3 := d2 - 1461 * n4).
  set (q1 := d3 / 365).
  assert (Hq1 : 0 <= q1 <= 4 /\ 365 * q1 <= d3 < 365 * q1 + 365)
    by (subst q1 d3; Z.div_mod_to_equations; lia).
  clearbody q1.
  set (n1 := q1 - q1 / 4).
  assert (Hn1 : (q1 = 4 /\ n1 = 3) \/ (q1 < 4 /\ n1 = q1))
    by (subst n1; Z.div_mod_to_equations; lia).
  clearbody n1.
  set (y := 400 * n400 + 100 * n100 + 4 * n4 + n1 + 1).
  replace (y - 1) with (400 * n400 + (100 * n100 + 4 * n4 + n1))
    by (subst y; lia).
  assert (Hy4 : (400 * n400 + (100 * n100 + 4 * n4 + n1)) / 4
                = 100 * n400 + 25 * n100 + n4)
    by (Z.div_mod_to_equations; lia).
  assert (Hy100 : (400 * n400 + (100 * n100 + 4 * n4 + n1)) / 100
                  = 4 * n400 + n100)
    by (Z.div_mod_to_equations; lia).
  assert (Hy400 : (400 * n400 + (100 * n100 + 4 * n4 + n1)) / 400 = n400)
    by (Z.div_mod_to_equations; lia).
  rewrite Hy4, Hy100, Hy400.
  split.
  - subst d3 d2 d0 y. lia.
  - assert (Hm4 : y mod 4 = (n1 + 1) mod 4)
      by (subst y; Z.div_mod_to_equations; lia).
    assert (Hm100 : y mod 100 = (4 * n4 + n1 + 1) mod 100)
      by (subst y; Z.div_mod_to_equations; lia).
    assert (Hm400 : y mod 400 = (100 * n100 + 4 * n4 + n1 + 1) mod 400)
      by (subst y; Z.div_mod_to_equations; lia).
    rewrite Hm4, Hm100, Hm400. clearbody y.
    destruct (Z.eqb_spec ((n1 + 1) mod 4) 0);
      destruct (Z.eqb_spec ((4 * n4 + n1 + 1) mod 100) 0);
      destruct (Z.eqb_spec ((100 * n100 + 4 * n4 + n1 + 1) mod 400) 0);
      cbn [andb orb negb];
      (subst d3 d2; Z.div_mod_to_equations; lia).
Qed.

(** [monthDay], checked on every day of a common and of a leap year. *)
Lemma monthDay_table :
  forallb
    (fun leap : bool =>
       forallb
         (fun k : nat =>
            let yday := Z.of_nat k in
            let m := fst (monthDay leap yday) in
            let d := snd (monthDay leap yday) in
            negb (yday <? (if leap then 366 else 365))
            || ((1 <=? m) && (m <=? 12) && (1 <=? d) && (d <=? 31)
                && (d <=? (if (m =? 2) && leap then 29
                           else daysBefore m - daysBefore (m - 1)))
                && (daysBefore (m - 1)
                    + (if leap && (3 <=? m) then 1 else 0) + (d - 1)
                    =? yday)))
         (seq 0 366))
    [true; false] = true.
Proof. vm_compute. reflexivity. Qed.

Lemma monthDay_spec (leap : bool) (yday : Z) :
  0 <= yday < (if leap then 366 else 365) ->
  let m := fst (monthDay leap yday) in
  let d := snd (monthDay leap yday) in
  1 <= m <= 12 /\ 1 <= d <= 31 /\
  d <= (if (m =? 2) && leap then 29 else daysBefore m - daysBefore (m - 1)) /\
  daysBefore (m - 1) + (if leap && (3 <=? m) then 1 else 0) + (d - 1) = yday.
Proof.
  intros Hr.
  pose proof monthDay_table as T.
  rewrite forallb_forall in T.
  assert (Hl : In leap [true; false]) by (destruct leap; simpl; auto).
  specialize (T leap Hl). rewrite forallb_forall in T.
  assert (Hk : In (Z.to_nat yday) (seq 0 366)).
  { apply in_seq. destruct leap; lia. }
  specialize (T _ Hk). cbv zeta in T.
  rewrite Z2Nat.id in T by lia.
  destruct (Z.ltb_spec yday (if leap then 366 else 365)); [| lia].
  cbn [negb orb] in T.
  repeat (apply andb_prop in T; destruct T as [T ?]).
  cbv zeta. lia.
Qed.

(** [civil] inverts [dayNumber], and yields a date of the calendar: a
    month in 1..12 and a day in 1..[daysIn]. *)
Lemma civil_spec n :
  let '(y, m, d) := civil n in
  dayNumber y m d = n /\ 1 <= m <= 12 /\ 1 <= d <= 31 /\ d <= daysIn m y.
Proof.
  unfold civil.
  pose proof (yearDay_spec n) as [Hn Hr].
  destruct (yearDay n) as [y yd]. cbn [fst snd] in *.
  pose proof (monthDay_spec (isLeap y) yd Hr) as (Hm & Hd & Hin & He).
  destruct (monthDay (isLeap y) yd) as [m d]. cbn [fst snd] in *.
  cbv zeta in *. unfold dayNumber, daysIn. repeat split; lia.
Qed.

(** [dayNumber] is linear in the day of the month: this is the calendar
    roll-over of an out-of-range day. *)
Lemma dayNumber_shift y m d k : dayNumber y m (d + k) = dayNumber y m d + k.
Proof. unfold dayNumber. lia. Qed.

Lemma wallSeconds_in_range y m d hh mm :
  1 <= m <= 12 -> 0 <= hh < 24 -> 0 <= mm < 60 ->
  wallSeconds y m d hh mm 0
  = dayNumber y m d * secondsPerDay + hh * secondsPerHour + mm * secondsPerMinute.
Proof.
  intros Hm Hh Hmm. unfold wallSeconds.
  rewrite (norm_in_range y (m - 1) 12) by lia.
  rewrite (norm_in_range mm 0 60) by lia.
  rewrite (norm_in_range hh mm 60) by lia.
  rewrite (norm_in_range d hh 24) by lia.
  replace (m - 1 + 1) with m by lia. lia.
Qed.

Lemma sat64_in_range z : inInt64 z -> sat64 z = z.
Proof.
  unfold inInt64, sat64. intros H.
  destruct (Z.ltb_spec z minInt64); [lia |].
  destruct (Z.ltb_spec maxInt64 z); [lia | reflexivity].
Qed.

Lemma wrap64_in_range z : inInt64 z -> wrap64 z = z.
Proof.
  unfold inInt64, wrap64, minInt64, maxInt64. intros H.
  rewrite Z.mod_small; lia.
Qed.

End CalendarFacts.

(** ** Reading the clock *)

Section TimeFacts.
Import GoInt Calendar Zone GoTime Sys Reboot.

(** A value accepted by [time.Parse("15:04", _)] is a time of day. *)
Lemma parseClock_range s hour min :
  parseClock s = Some (hour, min) -> 0 <= hour < 24 /\ 0 <= min < 60.
Proof.
  unfold parseClock. intros H.
  destruct (getnum s false) as [[h [| c rest]] |]; try discriminate.
  destruct ((h <? 0) || (24 <=? h)) eqn:Hh; try discriminate.
  destruct (negb (Ascii.eqb c ":")); try discriminate.
  destruct (getnum rest true) as [[m [| ? ?]] |]; try discriminate.
  destruct ((m <? 0) || (60 <=? m)) eqn:Hm; try discriminate.
  injection H as <- <-.
  apply orb_false_elim in Hh as [? ?]. apply orb_false_elim in Hm as [? ?].
  lia.
Qed.

(** The calendar fields of an instant name its local day. *)
Lemma fields_of_now (now : Time) :
  dayNumber (Year now) (Month now) (Day now) = localDay now /\
  1 <= Month now <= 12 /\ 1 <= Day now <= 31.
Proof.
  unfold Year, Month, Day.
  pose proof (civil_spec (localDay now)) as H.
  destruct (civil (localDay now)) as [[y m] d]. tauto.
Qed.

(** [time.Date] where nothing wraps around: the instant whose wall-clock
    reading is that of the date. *)
Lemma Date_in_range y m d hh mm l :
  1 <= m <= 12 -> 0 <= hh < 24 -> 0 <= mm < 60 ->
  dateFits l (dayNumber y m d * secondsPerDay
              + hh * secondsPerHour + mm * secondsPerMinute) ->
  Date y m d hh mm 0 0 l
  = (let wall := dayNumber y m d * secondsPerDay
                 + hh * secondsPerHour + mm * secondsPerMinute in
     {| unixSec := wall - dateOffset l wall; nsec := 0; loc := l |}).
Proof.
  intros Hm Hh Hmm (F1 & F2 & F3). unfold Date.
  rewrite (norm_in_range 0 0 nanosPerSecond) by (unfold nanosPerSecond; lia).
  rewrite wallSeconds_in_range by lia.
  rewrite (wrap64_in_range _ F1).
  unfold unixTime, sub64, add64.
  rewrite (wrap64_in_range _ F2), (wrap64_in_range _ F3).
  cbv zeta. f_equal. lia.
Qed.

(** In general the seconds are those of the wall-clock reading modulo
    2^64. *)
Lemma Date_wraps y m d hh mm l :
  1 <= m <= 12 -> 0 <= hh < 24 -> 0 <= mm < 60 ->
  Date y m d hh mm 0 0 l
  = (let wall := wrap64 (dayNumber y m d * secondsPerDay
                         + hh * secondsPerHour + mm * secondsPerMinute) in
     unixTime (sub64 wall (dateOffset l wall)) 0 l).
Proof.
  intros Hm Hh Hmm. unfold Date.
  rewrite (norm_in_range 0 0 nanosPerSecond) by (unfold nanosPerSecond; lia).
  rewrite wallSeconds_in_range by lia. reflexivity.
Qed.

Lemma restartWall_dayNumber c now hour min :
  restartWall c now hour min
  = dayNumber (Year now) (Month now) (add64 (Day now) (AfterDays c))
    * secondsPerDay + hour * secondsPerHour + min * secondsPerMinute.
Proof.
  unfold restartWall.
  destruct (fields_of_now now) as (Hd & _ & _).
  rewrite <- Hd. unfold dayNumber. lia.
Qed.

Lemma restartDateTime_wall c now hour min :
  0 <= hour < 24 -> 0 <= min < 60 ->
  dateFits (loc now) (restartWall c now hour min) ->
  restartDateTime c now hour min
  = {| unixSec := restartWall c now hour min
                  - dateOffset (loc now) (restartWall c now hour min);
       nsec := 0; loc := loc now |}.
Proof.
  intros Hh Hm Hfit. unfold restartDateTime.
  destruct (fields_of_now now) as (_ & Hmo & _).
  rewrite restartWall_dayNumber in *.
  rewrite Date_in_range by assumption. reflexivity.
Qed.

Lemma restartDateTime_wraps c now hour min :
  0 <= hour < 24 -> 0 <= min < 60 ->
  restartDateTime c now hour min
  = (let wall := wrap64 (restartWall c now hour min) in
     unixTime (sub64 wall (dateOffset (loc now) wall)) 0 (loc now)).
Proof.
  intros Hh Hm. unfold restartDateTime.
  destruct (fields_of_now now) as (_ & Hmo & _).
  rewrite restartWall_dayNumber.
  rewrite Date_wraps by assumption. reflexivity.
Qed.

(** Offsets of at most [b] seconds either way. *)
Lemma lookupFrom_within b ts : forall off start sec,
  - b <= off <= b ->
  Forall (fun t => - b <= offset t <= b) ts ->
  - b <= fst (fst (lookupFrom off start ts sec)) <= b.
Proof.
  induction ts as [| t rest IH]; intros off start sec Hoff Hall; cbn.
  - exact Hoff.
  - inversion Hall as [| ? ? Ht Hrest]; subst.
    destruct (sec <? when t); [exact Hoff |].
    apply IH; assumption.
Qed.

Lemma offsetAt_within b l sec :
  offsetsWithin b l -> - b <= offsetAt l sec <= b.
Proof.
  intros [H0 Hall]. unfold offsetAt, lookup.
  apply lookupFrom_within; assumption.
Qed.

Lemma dateOffset_within b l unix :
  0 <= b -> offsetsWithin b l -> - b <= dateOffset l unix <= b.
Proof.
  intros Hb Hl. unfold dateOffset.
  pose proof (offsetAt_within b l unix Hl) as H1. unfold offsetAt in H1.
  destruct (lookup l unix) as [[off start] stop]. cbn [fst] in H1.
  destruct (off =? 0); [lia |].
  destruct ((sub64 unix off <? start) || (stop <=? sub64 unix off));
    [apply offsetAt_within; exact Hl | exact H1].
Qed.

(** [time.Date] does not wrap around in line 68 for any delay of up to
    10^14 days either way, at a reading of the clock within 10^12 seconds
    of 1970 (some 31000 years) and with zone offsets of at most a day. *)
Lemma dateFits_ordinary c now hour min :
  0 <= hour < 24 -> 0 <= min < 60 ->
  - 10 ^ 14 <= AfterDays c <= 10 ^ 14 ->
  - 10 ^ 12 <= unixSec now <= 10 ^ 12 ->
  offsetsWithin secondsPerDay (loc now) ->
  dateFits (loc now) (restartWall c now hour min).
Proof.
  intros Hh Hm Hk Hu Hz.
  destruct (fields_of_now now) as (_ & _ & Hday).
  pose proof (dateOffset_within secondsPerDay (loc now)
                (restartWall c now hour min)) as Hd.
  pose proof (offsetAt_within secondsPerDay (loc now) (unixSec now) Hz) as Ho.
  unfold secondsPerDay in Hd, Ho.
  specialize (Hd ltac:(lia) Hz).
  unfold dateFits.
  set (off := dateOffset (loc now) (restartWall c now hour min)) in *.
  clearbody off.
  unfold restartWall, add64.
  rewrite wrap64_in_range
    by (unfold inInt64, minInt64, maxInt64; lia).
  unfold localDay, wallOf.
  set (o := offsetAt (loc now) (unixSec now)) in *. clearbody o.
  set (u := unixSec now) in *. clearbody u.
  set (day := Day now) in *. clearbody day.
  set (k := AfterDays c) in *. clearbody k.
  unfold inInt64, minInt64, maxInt64, unixToInternal,
    secondsPerDay, secondsPerHour, secondsPerMinute.
  assert (Hq : - 11574076 <= (u + o) / 86400 <= 11574076)
    by (Z.div_mod_to_equations; lia).
  set (q := (u + o) / 86400) in *. clearbody q.
  lia.
Qed.

End TimeFacts.

(** ** The fire-time calculation *)

Section FireTime.
Import GoInt Calendar Zone GoTime Sys Reboot Examples.

Lemma calculateSleepDuration_ok now s hour min :
  parseClock (At (config s)) = Some (hour, min) ->
  calculateSleepDuration now s
  = (s, Ok (Sub (restartDateTime (config s) now hour min) now)).
Proof.
  intros H. unfold calculateSleepDuration, bind, getConfig, ret.
  rewrite H. reflexivity.
Qed.

Lemma calculateSleepDuration_fatal now s :
  parseClock (At (config s)) = None ->
  calculateSleepDuration now s
  = (addLog (Fatalf "Failed to parse time") s, Fatal "Failed to parse time").
Proof.
  intros H. unfold calculateSleepDuration, bind, getConfig, logFatalf.
  rewrite H. reflexivity.
Qed.

Lemma fire_time_example_UTC : fireTimeExample UTC.
Proof. vm_compute. repeat split. Qed.

Lemma fire_time_example_berlin : fireTimeExample berlin.
Proof. vm_compute. repeat split. Qed.

(** Where the local clock is not changed between [now] and the fire
    time, the distance between the two is the delay in days plus the
    distance from the present time of day to the configured one. *)
Lemma fire_time_distance c now hour min :
  parseClock (At c) = Some (hour, min) ->
  inInt64 (Day now + AfterDays c) ->
  dateFits (loc now) (restartWall c now hour min) ->
  dateOffset (loc now) (restartWall c now hour min)
  = offsetAt (loc now) (unixSec now) ->
  unixNano (restartDateTime c now hour min) - unixNano now
  = (AfterDays c * secondsPerDay + hour * secondsPerHour
     + min * secondsPerMinute) * nanosPerSecond - clockOfDay now.
Proof.
  intros Ep Hr Hfit Hoff.
  destruct (parseClock_range _ _ _ Ep) as [Hh Hm].
  rewrite restartDateTime_wall by assumption. rewrite Hoff.
  assert (Hw : restartWall c now hour min
               = (localDay now + AfterDays c) * secondsPerDay
                 + hour * secondsPerHour + min * secondsPerMinute).
  { unfold restartWall, add64. rewrite wrap64_in_range by exact Hr.
    replace (localDay now - Day now + (Day now + AfterDays c))
      with (localDay now + AfterDays c) by lia.
    reflexivity. }
  rewrite Hw. unfold unixNano, clockOfDay, localDay, wallOf.
  cbn [unixSec nsec].
  set (u := unixSec now). set (off := offsetAt (loc now) u).
  unfold secondsPerDay, secondsPerHour, secondsPerMinute, nanosPerSecond.
  assert (Hdm : u + off = 86400 * ((u + off) / 86400) + (u + off) mod 86400)
    by (apply Z.div_mod; lia).
  lia.
Qed.

(** C3 (amended). For every instant [now] and every configuration whose
    time of day parses, and for every delay for which [time.Date] does not
    wrap around (the count of seconds of the date fits 64 bits: every delay
    of up to 10^14 days either way, by [dateFits_ordinary]), the
    calculation changes nothing, depends on [now] and the configuration
    alone, and returns the duration from [now] to the local instant
    dateAt(now.year, now.month, now.day + delayDays, hour, minute, 0),
    clamped to the range of a Duration. That instant is the one whose
    wall-clock reading is [hour]:[min]:00 on the day that many days from
    the first of the month of [now]. The duration is exactly that instant
    minus [now] whenever the difference fits a Duration, and then, the
    local clock not being changed in between, it is the delay in days plus
    the distance from the present time of day to the configured one. At
    2024-01-01T10:00:00 with 300 days and 23:50 the fire time is
    2024-10-27T23:50:00 local time. *)
Theorem calculateSleepDuration_fire_time
        (now : Time) (s : Sys) (hour min : Z) :
  parseClock (At (config s)) = Some (hour, min) ->
  let k := AfterDays (config s) in
  let wall := (localDay now - Day now + (Day now + k)) * secondsPerDay
              + hour * secondsPerHour + min * secondsPerMinute in
  let fire := {| unixSec := wall - dateOffset (loc now) wall;
                 nsec := 0; loc := loc now |} in
  inInt64 (Day now + k) ->
  dateFits (loc now) wall ->
  Date (Year now) (Month now) (add64 (Day now) k) hour min 0 0 (loc now)
  = fire /\
  calculateSleepDuration now s
  = (s, Ok (sat64 (unixNano fire - unixNano now))) /\
  (forall s', config s' = config s ->
              snd (calculateSleepDuration now s')
              = snd (calculateSleepDuration now s)) /\
  (inInt64 (unixNano fire - unixNano now) ->
   calculateSleepDuration now s = (s, Ok (unixNano fire - unixNano now))) /\
  (dateOffset (loc now) wall = offsetAt (loc now) (unixSec now) ->
   unixNano fire - unixNano now
   = (k * secondsPerDay + hour * secondsPerHour
      + min * secondsPerMinute) * nanosPerSecond - clockOfDay now) /\
  fireTimeExample UTC /\ fireTimeExample berlin.
Proof.
  intros H k wall fire Hr Hfit.
  destruct (parseClock_range _ _ _ H) as [Hh Hm].
  assert (Hw : restartWall (config s) now hour min = wall).
  { unfold restartWall, add64. fold k.
    rewrite wrap64_in_range by exact Hr. reflexivity. }
  assert (Hf : restartDateTime (config s) now hour min = fire).
  { rewrite restartDateTime_wall by (rewrite ?Hw; assumption).
    rewrite Hw. reflexivity. }
  split; [exact Hf |].
  rewrite (calculateSleepDuration_ok now s hour min H).
  unfold Sub. rewrite Hf.
  split; [reflexivity |].
  split.
  { intros s' Hc. rewrite <- Hc in H.
    rewrite (calculateSleepDuration_ok now s' hour min H), Hc.
    unfold Sub. rewrite Hf. reflexivity. }
  split; [intros Hd; rewrite sat64_in_range by exact Hd; reflexivity |].
  split.
  - intros Hoff. rewrite <- Hf.
    apply (fire_time_distance (config s) now hour min H Hr);
      rewrite Hw; assumption.
  - split; [exact fire_time_example_UTC | exact fire_time_example_berlin].
Qed.

(** The worked example of C3, through the theorem. *)
Lemma calculateSleepDuration_fire_time_witness :
  let now := utc 2024 1 1 10 0 0 in
  let s := sysWith emptyFS {| AfterDays := 300; At := "23:50" |} in
  parseClock (At (config s)) = Some (23, 50) /\
  calculateSleepDuration now s
  = (s, Ok (unixNano (utc 2024 10 27 23 50 0) - unixNano now)).
Proof.
  split; [reflexivity |].
  assert (Hr : inInt64 (Day (utc 2024 1 1 10 0 0) + 300))
    by (vm_compute; split; discriminate).
  assert (Hfit : dateFits UTC
                   ((localDay (utc 2024 1 1 10 0 0)
                     - Day (utc 2024 1 1 10 0 0)
                     + (Day (utc 2024 1 1 10 0 0) + 300)) * secondsPerDay
                    + 23 * secondsPerHour + 50 * secondsPerMinute))
    by (vm_compute; repeat split; discriminate).
  destruct (calculateSleepDuration_fire_time
              (utc 2024 1 1 10 0 0)
              (sysWith emptyFS {| AfterDays := 300; At := "23:50" |})
              23 50 eq_refl Hr Hfit) as (_ & _ & _ & E & _).
  rewrite E; [reflexivity |]. vm_compute. split; discriminate.
Defined.

(** C3, as stated, fails for a delay beyond the range of a Duration:
    200000 days from 2024-01-01T10:00:00 the returned duration is the
    largest Duration, not the distance to the fire time. *)
Lemma saturated_duration_counterexample :
  let now := utc 2024 1 1 10 0 0 in
  let s := sysWith emptyFS {| AfterDays := 200000; At := "23:50" |} in
  let fire := Date (Year now) (Month now) (Day now + AfterDays (config s))
                   23 50 0 0 (loc now) in
  parseClock (At (config s)) = Some (23, 50) /\
  unixNano fire - unixNano now = 17280049800 * nanosPerSecond /\
  snd (calculateSleepDuration now s) = Ok maxInt64 /\
  snd (calculateSleepDuration now s) <> Ok (unixNano fire - unixNano now).
Proof.
  vm_compute. repeat split; try reflexivity. discriminate.
Qed.

(** C9 (amended). The calculation never fails once the time of day
    parses, whatever the sign or size of the delay, and returns the
    distance from [now] to the result of [time.Date], clamped to a
    Duration. [time.Date] takes the wall-clock reading of the date modulo
    2^64 seconds. Where that reading fits 64 bits (every delay of up to
    10^14 days either way, by [dateFits_ordinary]) the day handed to
    [time.Date] may lie outside the month, and the date rolls over to the
    calendar date that many days from the first of the month: the result
    is [time.Date] of that calendar date, whose month is in 1..12 and whose
    day is in 1..[daysIn]. *)
Theorem fire_time_total_with_rollover
        (now : Time) (s : Sys) (hour min : Z) :
  parseClock (At (config s)) = Some (hour, min) ->
  let k := AfterDays (config s) in
  let fire := restartDateTime (config s) now hour min in
  let wall := restartWall (config s) now hour min in
  calculateSleepDuration now s
  = (s, Ok (sat64 (unixNano fire - unixNano now))) /\
  fire = unixTime (sub64 (wrap64 wall) (dateOffset (loc now) (wrap64 wall)))
                  0 (loc now) /\
  (inInt64 (Day now + k) ->
   wall = (localDay now + k) * secondsPerDay
          + hour * secondsPerHour + min * secondsPerMinute) /\
  (dateFits (loc now) wall ->
   unixSec fire = wall - dateOffset (loc now) wall /\
   nsec fire = 0 /\
   let '(y, m, d) := civil (localDay now - Day now + add64 (Day now) k) in
   1 <= m <= 12 /\ 1 <= d <= daysIn m y /\
   wall = dayNumber y m d * secondsPerDay
          + hour * secondsPerHour + min * secondsPerMinute /\
   fire = Date y m d hour min 0 0 (loc now)).
Proof.
  intros H k fire wall.
  destruct (parseClock_range _ _ _ H) as [Hh Hm].
  split.
  { rewrite (calculateSleepDuration_ok now s hour min H).
    unfold Sub. reflexivity. }
  split; [apply restartDateTime_wraps; assumption |].
  split.
  - intros Hr. unfold wall, restartWall, add64. fold k.
    rewrite wrap64_in_range by exact Hr.
    replace (localDay now - Day now + (Day now + k)) with (localDay now + k)
      by lia.
    reflexivity.
  - intros Hfit.
    assert (Hf : fire = {| unixSec := wall - dateOffset (loc now) wall;
                           nsec := 0; loc := loc now |})
      by (apply restartDateTime_wall; assumption).
    split; [rewrite Hf; reflexivity |].
    split; [rewrite Hf; reflexivity |].
    pose proof (civil_spec (localDay now - Day now + add64 (Day now) k)) as C.
    destruct (civil (localDay now - Day now + add64 (Day now) k))
      as [[y m] d].
    destruct C as (Hn & Hmo & Hd & Hin).
    assert (Hwall : wall = dayNumber y m d * secondsPerDay
                           + hour * secondsPerHour + min * secondsPerMinute)
      by (rewrite Hn; reflexivity).
    split; [exact Hmo |]. split; [lia |]. split; [exact Hwall |].
    rewrite Date_in_range by (rewrite <- ?Hwall; assumption).
    cbv zeta. rewrite <- Hwall. exact Hf.
Qed.

(** A delay of -31 days from 2024-01-01 rolls back to 2023-12-01. *)
Lemma fire_time_total_with_rollover_witness :
  let now := utc 2024 1 1 10 0 0 in
  let s := sysWith emptyFS {| AfterDays := -31; At := "9:05" |} in
  parseClock (At (config s)) = Some (9, 5) /\
  dateFits (loc now) (restartWall (config s) now 9 5) /\
  civil (localDay now - Day now + add64 (Day now) (-31)) = (2023, 12, 1) /\
  calculateSleepDuration now s
  = (s, Ok (unixNano (utc 2023 12 1 9 5 0) - unixNano now)) /\
  restartDateTime (config s) now 9 5 = Date 2023 12 1 9 5 0 0 UTC.
Proof.
  assert (Hfit : dateFits (loc (utc 2024 1 1 10 0 0))
                   (restartWall
                      (config (sysWith emptyFS
                                 {| AfterDays := -31; At := "9:05" |}))
                      (utc 2024 1 1 10 0 0) 9 5))
    by (vm_compute; repeat split; discriminate).
  assert (Hciv : civil (localDay (utc 2024 1 1 10 0 0)
                        - Day (utc 2024 1 1 10 0 0)
                        + add64 (Day (utc 2024 1 1 10 0 0)) (-31))
                 = (2023, 12, 1)) by reflexivity.
  split; [reflexivity |]. split; [exact Hfit |]. split; [exact Hciv |].
  destruct (fire_time_total_with_rollover
              (utc 2024 1 1 10 0 0)
              (sysWith emptyFS {| AfterDays := -31; At := "9:05" |})
              9 5 eq_refl) as (E & _ & _ & R).
  split; [rewrite E; reflexivity |].
  destruct (R Hfit) as (_ & _ & R').
  cbn [config sysWith AfterDays] in R'. rewrite Hciv in R'.
  exact (proj2 (proj2 (proj2 R'))).
Defined.

(** C9, as stated, fails where the count of seconds leaves 64 bits. With
    a delay of 2^62 days the day handed to [time.Date] is far outside the
    month, but 2^62 days are a multiple of 2^64 seconds: the date does not
    roll over to a day 2^62 days ahead, the fire time is today at 23:50
    and the duration is 13 hours 50 minutes. With 10^15 days the count
    wraps to an instant far in the past and the duration is the smallest
    Duration. *)
Lemma wrapped_date_counterexample :
  let now := utc 2024 1 1 10 0 0 in
  let s := sysWith emptyFS {| AfterDays := 2 ^ 62; At := "23:50" |} in
  let s' := sysWith emptyFS {| AfterDays := 10 ^ 15; At := "23:50" |} in
  parseClock (At (config s)) = Some (23, 50) /\
  inInt64 (Day now + AfterDays (config s)) /\
  restartWall (config s) now 23 50
  = (localDay now + 2 ^ 62) * secondsPerDay
    + 23 * secondsPerHour + 50 * secondsPerMinute /\
  restartDateTime (config s) now 23 50 = utc 2024 1 1 23 50 0 /\
  calculateSleepDuration now s
  = (s, Ok ((13 * secondsPerHour + 50 * secondsPerMinute) * nanosPerSecond)) /\
  unixSec (restartDateTime (config s') now 23 50) = - 5833720366843605080 /\
  calculateSleepDuration now s' = (s', Ok minInt64).
Proof.
  vm_compute. repeat split; discriminate.
Qed.

End FireTime.

(** ** Loading the configuration *)

Section LoadConfig.
Import Sys Reboot Examples.

Lemma logFilePath_not_configPath : logFilePath <> configPath.
Proof. discriminate. Qed.

Lemma openAppend_other path other f f' :
  path <> other ->
  openAppend path f = Some f' ->
  files f' !! other = files f !! other /\
  noWrite f' = noWrite f /\ noRead f' = noRead f.
Proof.
  unfold openAppend. intros Hne H.
  destruct (decide (path ∈ noWrite f)); [discriminate |].
  injection H as <-. cbn.
  destruct (files f !! path); [auto |].
  rewrite lookup_insert_ne by exact Hne. auto.
Qed.

(** Writing a line to the logger's output leaves the text of every file,
    and what may be written and read, as it is. *)
Lemma appendLine_journal path l f other :
  journal (appendLine path l f) other
  = if decide (path = other) then journal f other ++ [l] else journal f other.
Proof.
  unfold journal at 1, appendLine. cbn [appended].
  destruct (decide (path = other)) as [-> | Hne].
  - rewrite lookup_insert_eq. reflexivity.
  - rewrite lookup_insert_ne by exact Hne. reflexivity.
Qed.

Lemma writeLog_frame out l : forall f,
  files (writeLog out l f) = files f /\
  noWrite (writeLog out l f) = noWrite f /\
  noRead (writeLog out l f) = noRead f.
Proof.
  induction out as [| wr rest IH]; intros f; cbn [writeLog]; [auto |].
  destruct wr as [| works | path |]; auto.
  - destruct works; auto.
  - destruct (IH (appendLine path l f)) as (H1 & H2 & H3).
    rewrite H1, H2, H3. auto.
Qed.

(** The logger only ever appends, and only to the log files it holds
    open. *)
Lemma writeLog_journal out l other : forall f,
  exists more,
    journal (writeLog out l f) other = journal f other ++ more /\
    (~ In (LogFile other) out -> more = []).
Proof.
  induction out as [| wr rest IH]; intros f; cbn [writeLog].
  - exists []. rewrite app_nil_r. auto.
  - destruct wr as [| works | path |].
    + destruct (IH f) as (more & H1 & H2). exists more. split; [exact H1 |].
      intros Hn. apply H2. intros Hin. apply Hn. right. exact Hin.
    + destruct works.
      * destruct (IH f) as (more & H1 & H2). exists more. split; [exact H1 |].
        intros Hn. apply H2. intros Hin. apply Hn. right. exact Hin.
      * exists []. rewrite app_nil_r. auto.
    + destruct (IH (appendLine path l f)) as (more & H1 & H2).
      rewrite H1, appendLine_journal.
      destruct (decide (path = other)) as [-> | Hne].
      * exists ([l] ++ more). rewrite app_assoc. split; [reflexivity |].
        intros Hn. exfalso. apply Hn. left. reflexivity.
      * exists more. split; [reflexivity |].
        intros Hn. apply H2. intros Hin. apply Hn. right. exact Hin.
    + exists []. rewrite app_nil_r. auto.
Qed.

(** [loadConfig] step by step: the state and the outcome at each place
    where it can end. *)
Lemma loadConfig_cases (w : World) (s : Sys) :
  loadConfig w s =
  match openAppend logFilePath (fs s) with
  | None => (addLog (Fatalf "Failed to open log file") s,
             Fatal "Failed to open log file")
  | Some f1 =>
      let s1 := setLogOut [Stdout (stdoutWorks w); LogFile logFilePath]
                          (setFS f1 s) in
      match (if isNotExist configPath f1
             then match writeFile configPath defaultConfig f1 with
                  | None => None
                  | Some f2 =>
                      Some (addLog (Println "Default config.yaml created.")
                                   (setFS f2 s1))
                  end
             else Some s1)
      with
      | None => (addLog (Fatalf "Failed to create default config file") s1,
                 Fatal "Failed to create default config file")
      | Some s2 =>
          match readFile configPath (fs s2) with
          | None => (addLog (Fatalf "Failed to read config file") s2,
                     Fatal "Failed to read config file")
          | Some data =>
              let s3 := setConfig (stores (yamlUnmarshal w data) (config s))
                                  s2 in
              if failed (yamlUnmarshal w data)
              then (addLog (Fatalf "Failed to parse config file") s3,
                    Fatal "Failed to parse config file")
              else (setLogOut [Stdout (stdoutWorks w); ClosedFile] s3, Ok tt)
          end
      end
  end.
Proof.
  unfold loadConfig, bind, fsUpdate, fsRead, getConfig, putConfig, ret,
    logPrintln, logFatalf, setOutput, closeLogFile.
  destruct (openAppend logFilePath (fs s)) as [f1 |]; [| reflexivity].
  cbn [fs setFS setLogOut]. cbv zeta.
  destruct (isNotExist configPath f1).
  - cbn [fs setFS setLogOut].
    destruct (writeFile configPath defaultConfig f1) as [f2 |];
      [| reflexivity].
    cbn [fs setFS setLogOut addLog logOut config].
    match goal with
    | |- context [readFile configPath ?f] =>
        destruct (readFile configPath f) as [data |]; [| reflexivity]
    end.
    cbn [fs setFS setLogOut addLog logOut config setConfig].
    destruct (failed (yamlUnmarshal w data)); reflexivity.
  - cbn [fs setFS setLogOut addLog logOut config].
    destruct (readFile configPath f1) as [data |]; [| reflexivity].
    cbn [fs setFS setLogOut addLog logOut config setConfig].
    destruct (failed (yamlUnmarshal w data)); reflexivity.
Qed.

(** Opening the log file leaves [config.yaml] alone. *)
Lemma openAppend_config f f1 :
  openAppend logFilePath f = Some f1 ->
  files f1 !! configPath = files f !! configPath /\
  appended f1 = appended f /\
  noWrite f1 = noWrite f /\ noRead f1 = noRead f.
Proof.
  intros H.
  destruct (openAppend_other _ configPath _ _ logFilePath_not_configPath H)
    as (H1 & H2 & H3).
  repeat split; try assumption.
  unfold openAppend in H.
  destruct (decide (logFilePath ∈ noWrite f)); [discriminate |].
  injection H as <-. reflexivity.
Qed.

(** C10. When [config.yaml] is absent, [loadConfig] writes the default
    text (after_days: 300, at: 23:50 in quotes) and nothing else to it, and
    loads 300 and 23:50; when it is present, the file keeps its contents
    and these are what is decoded: [config] is what [yaml.Unmarshal] makes
    of it from that text, also when it returns an error, and the error is
    fatal. The log file can be opened, the configuration file can be
    read and, when absent, created. *)
Theorem loadConfig_default_or_existing (w : World) (s : Sys) :
  logFilePath ∉ noWrite (fs s) ->
  configPath ∉ noRead (fs s) ->
  (files (fs s) !! configPath = None ->
   configPath ∉ noWrite (fs s) ->
   failed (yamlUnmarshal w defaultConfig) = false ->
   (forall c, stores (yamlUnmarshal w defaultConfig) c
              = {| AfterDays := 300; At := "23:50" |}) ->
   exists s', loadConfig w s = (s', Ok tt) /\
              files (fs s') !! configPath = Some defaultConfig /\
              journal (fs s') configPath = [] /\
              config s' = {| AfterDays := 300; At := "23:50" |}) /\
  (forall data,
      files (fs s) !! configPath = Some data ->
      files (fs (fst (loadConfig w s))) !! configPath = Some data /\
      journal (fs (fst (loadConfig w s))) configPath
      = journal (fs s) configPath /\
      config (fst (loadConfig w s))
      = stores (yamlUnmarshal w data) (config s) /\
      snd (loadConfig w s)
      = if failed (yamlUnmarshal w data)
        then Fatal "Failed to parse config file"
        else Ok tt).
Proof.
  intros Hlog Hread. rewrite loadConfig_cases.
  destruct (openAppend logFilePath (fs s)) as [f1 |] eqn:Hopen.
  2: { unfold openAppend in Hopen.
       destruct (decide (logFilePath ∈ noWrite (fs s))); [tauto | discriminate]. }
  destruct (openAppend_config _ _ Hopen) as (Hfiles & Happ & Hnw & Hnr).
  assert (Hj : journal f1 configPath = journal (fs s) configPath)
    by (unfold journal; rewrite Happ; reflexivity).
  cbv zeta. unfold isNotExist. rewrite Hfiles.
  split.
  - intros Habsent Hwrite Hok Hyaml. rewrite Habsent.
    unfold writeFile. rewrite Hnw.
    destruct (decide (configPath ∈ noWrite (fs s))); [tauto |].
    unfold readFile, addLog.
    cbn [fs setFS setLogOut logOut config logged shutdownRuns writeLog].
    destruct (stdoutWorks w);
      cbn [appendLine files noRead]; rewrite Hnr;
      (destruct (decide (configPath ∈ noRead (fs s))); [tauto |]);
      rewrite lookup_insert_eq, Hok, Hyaml;
      (eexists; split; [reflexivity |]);
      cbn [fs config setLogOut setConfig];
      (split; [cbn [appendLine files]; apply lookup_insert_eq |]);
      (split; [| reflexivity]).
    + rewrite appendLine_journal.
      destruct (decide (logFilePath = configPath)) as [E | _];
        [discriminate E |].
      unfold journal. cbn [appended]. rewrite lookup_delete_eq. reflexivity.
    + unfold journal. cbn [appended]. rewrite lookup_delete_eq. reflexivity.
  - intros data Hpresent. rewrite Hpresent.
    unfold readFile. cbn [fs setFS setLogOut]. rewrite Hnr.
    destruct (decide (configPath ∈ noRead (fs s))); [tauto |].
    rewrite Hfiles, Hpresent.
    destruct (failed (yamlUnmarshal w data));
      cbn [fst snd fs config setFS setLogOut setConfig addLog logOut
           writeLog].
    + destruct (stdoutWorks w).
      * rewrite appendLine_journal.
        destruct (decide (logFilePath = configPath)) as [E | _];
          [discriminate E |].
        cbn [appendLine files]. rewrite Hfiles, Hpresent. auto.
      * rewrite Hfiles, Hpresent. auto.
    + rewrite Hfiles, Hpresent. auto.
Qed.

(** An empty disk, with the decoder of the examples. *)
Lemma loadConfig_default_or_existing_witness :
  let s := sysWith emptyFS zeroConfig in
  exists s', loadConfig worldUTC s = (s', Ok tt) /\
             files (fs s') !! configPath = Some defaultConfig /\
             journal (fs s') configPath = [] /\
             config s' = {| AfterDays := 300; At := "23:50" |}.
Proof.
  assert (Hlog : logFilePath ∉ noWrite (fs (sysWith emptyFS zeroConfig)))
    by (cbn; apply not_elem_of_empty).
  assert (Hread : configPath ∉ noRead (fs (sysWith emptyFS zeroConfig)))
    by (cbn; apply not_elem_of_empty).
  destruct (loadConfig_default_or_existing worldUTC
              (sysWith emptyFS zeroConfig) Hlog Hread) as [H _].
  apply H.
  - reflexivity.
  - cbn; apply not_elem_of_empty.
  - reflexivity.
  - intros c. reflexivity.
Defined.

End LoadConfig.

(** ** Invariants of the service *)

Section ServiceInvariants.
Import GoInt Calendar Zone GoTime Sys Reboot Service.

Variable w : World.

Lemma loadConfig_shutdownRuns s :
  shutdownRuns (fst (loadConfig w s)) = shutdownRuns s.
Proof.
  rewrite loadConfig_cases. cbv zeta.
  repeat (case_match; simplify_eq;
          cbn [fst snd shutdownRuns setFS addLog setConfig setLogOut] in * );
    try reflexivity.
Qed.

(** A property kept by every step whose label is allowed holds at the end
    of every run made of allowed labels. *)
Lemma run_invariant (P : Process -> Prop) (allowed : Label -> bool) :
  (forall l s s', allowed l = true -> P s -> step w l s = Some s' -> P s') ->
  forall ls s s',
    forallb allowed ls = true -> P s -> run w ls s = Some s' -> P s'.
Proof.
  intros Hstep. induction ls as [| l ls IH]; intros s s' Hall HP Hrun.
  - cbn in Hrun. congruence.
  - cbn in Hall, Hrun. apply andb_prop in Hall as [Hl Hall].
    destruct (step w l s) as [s1 |] eqn:E; [| discriminate].
    apply (IH s1 s'); [exact Hall | exact (Hstep l s s1 Hl HP E) | exact Hrun].
Qed.

Lemma Inv_initial f t0 : Inv (initial f t0).
Proof.
  constructor; cbn; auto; discriminate.
Qed.

Lemma repeat_snoc {A} (x : A) n : repeat x n ++ [x] = repeat x (S n).
Proof. symmetry. apply repeat_cons. Qed.

Lemma last_running n d :
  List.last (startPending :: repeat running (S n)) d = running.
Proof.
  change (startPending :: repeat running (S n))
    with ([startPending] ++ repeat running (S n)).
  rewrite <- repeat_snoc, app_assoc. apply last_last.
Qed.

Lemma running_snoc n :
  (startPending :: repeat running (S n)) ++ [running]
  = startPending :: repeat running (S (S n)).
Proof.
  change (startPending :: repeat running (S n))
    with ([startPending] ++ repeat running (S n)).
  rewrite <- app_assoc, repeat_snoc. reflexivity.
Qed.

(** While [Execute] is in its loop, the current status is Running. *)
Lemma lastStatus_in_loop s :
  Inv s -> mainpc s = M_Loop -> lastStatus s = running.
Proof.
  intros [_ _ _ _ Hr _] Epc. rewrite Epc in Hr. destruct Hr as [n Hr].
  unfold lastStatus. rewrite Hr. apply last_running.
Qed.

(** What a call of [reboot] leaves behind. *)
Lemma runM_reboot ok s :
  runM (reboot ok) (fun _ => id) s
  = (if ok then id else exit 1)
      (setSys
         (addLog (if ok
                  then Println "System reboot initiated successfully."
                  else Fatalf "Failed to execute shutdown command")
                 (countShutdown
                    (addLog (Println "Rebooting system...") (sys s))))
         s).
Proof. destruct ok; reflexivity. Qed.

Ltac norm_state :=
  unfold rebootCalls in *;
  cbn [mainpc timerpc done sys statuses exited clock
       setSys setMain setTimer setDone setClock sendStatus exit id
       shutdownRuns config fs logged addLog setFS setConfig countShutdown
       goStarted reported fst snd] in *.

Ltac finish_inv :=
  constructor; norm_state; auto; try discriminate; try congruence.

Lemma mainStep_Inv s s' :
  exited s = None -> Inv s -> mainStep w s = Some s' -> Inv s'.
Proof.
  intros Hex [Hd Hns Hst Hc Hr Hp] H. unfold mainStep in H.
  destruct (mainpc s) eqn:Epc; cbn in Hns, Hst, Hr.
  - (* M_OpenLog *)
    destruct (openAppend serviceLogPath (fs (sys s))); inversion H; subst;
      finish_inv.
  - inversion H; subst; finish_inv. rewrite Hr. reflexivity.
  - inversion H; subst; finish_inv.
  - (* M_LoadConfig *)
    unfold runM in H.
    pose proof (loadConfig_shutdownRuns (sys s)) as Hruns.
    specialize (Hns eq_refl). unfold rebootCalls in *. rewrite Hns in Hc.
    destruct (loadConfig w (sys s)) as [x [a | msg]]; cbn in Hruns;
      inversion H; subst; constructor; unfold rebootCalls; cbn;
      rewrite ?Epc, ?Hns; cbn;
      auto; try discriminate; try congruence.
  - (* M_Spawn *)
    inversion H; subst. specialize (Hns eq_refl).
    unfold rebootCalls in *. rewrite Hns in Hc. finish_inv.
  - inversion H; subst; finish_inv. exists 0%nat. rewrite Hr. reflexivity.
  - discriminate.
  - inversion H; subst; finish_inv.
    destruct Hr as [n ->]. exists n. reflexivity.
  - inversion H; subst; finish_inv.
  - discriminate.
Qed.

Lemma timerStep_Inv s s' :
  exited s = None -> Inv s -> timerStep w s = Some s' -> Inv s'.
Proof.
  intros Hex [Hd Hns Hst Hc Hr Hp] H. unfold timerStep in H.
  assert (Hgo : goStarted (mainpc s) = false -> timerpc s <> G_NotStarted ->
                False) by (intros A B; apply B, Hns, A).
  destruct (timerpc s) eqn:Etp; try discriminate.
  - (* G_Calc *)
    unfold runM in H.
    destruct (parseClock (At (config (sys s)))) as [[hour min] |] eqn:Ep.
    + rewrite (calculateSleepDuration_ok _ _ _ _ Ep) in H.
      inversion H; subst; finish_inv.
      all: intros A; first [ specialize (Hns A); discriminate
                           | destruct (Hp A); discriminate ].
    + rewrite (calculateSleepDuration_fatal _ _ Ep) in H.
      inversion H; subst; finish_inv.
      all: rewrite ?Etp; auto.
  - inversion H; subst; finish_inv.
    all: intros A; first [ specialize (Hns A); discriminate
                         | destruct (Hp A); discriminate ].
  - inversion H; subst; finish_inv.
    all: intros A; first [ specialize (Hns A); discriminate
                         | destruct (Hp A); discriminate ].
Qed.

(** Every step keeps the invariant. *)
Lemma step_Inv l s s' : Inv s -> step w l s = Some s' -> Inv s'.
Proof.
  intros HI H. unfold step in H.
  destruct (exited s) eqn:Hex; [discriminate |].
  destruct l.
  - (* LTick *)
    destruct (0 <? dt); inversion H; subst.
    destruct HI; finish_inv.
  - eapply mainStep_Inv; eauto.
  - (* LReq *)
    pose proof (lastStatus_in_loop s HI) as Hlast.
    destruct HI as [Hd Hns Hst Hc Hr Hp].
    destruct (mainpc s) eqn:Epc; try discriminate.
    specialize (Hlast eq_refl).
    inversion H; subst. unfold handleRequest. cbn [Cmd_ CurrentStatus].
    cbn [reported] in Hr. destruct Hr as [n Hr].
    destruct c; finish_inv; rewrite ?Epc; cbn [goStarted reported]; eauto.
    rewrite Hlast, Hr. exists (S n). apply running_snoc.
  - (* LMainDone *)
    destruct HI as [Hd Hns Hst Hc Hr Hp].
    destruct (mainpc s); try discriminate.
    rewrite Hd in H. discriminate.
  - eapply timerStep_Inv; eauto.
  - (* LFire *)
    destruct HI as [Hd Hns Hst Hc Hr Hp].
    destruct (timerpc s) eqn:Etp; try discriminate.
    destruct (deadline <=? clock s); inversion H; subst.
    finish_inv.
    all: intros A; first [ specialize (Hns A); discriminate
                         | destruct (Hp A); discriminate ].
  - (* LTimerDone *)
    destruct HI as [Hd Hns Hst Hc Hr Hp].
    destruct (timerpc s); try discriminate.
    rewrite Hd in H. discriminate.
  - (* LReboot *)
    destruct HI as [Hd Hns Hst Hc Hr Hp].
    destruct (timerpc s) eqn:Etp; try discriminate.
    unfold rebootCalls in *.
    rewrite runM_reboot in H.
    destruct ok; inversion H; subst; finish_inv.
    all: try (intros A; first [ specialize (Hns A); discriminate
                              | destruct (Hp A); discriminate ]).
  - (* LExit *)
    destruct HI as [Hd Hns Hst Hc Hr Hp].
    destruct (mainpc s) eqn:Epc; try discriminate.
    inversion H; subst. finish_inv; rewrite Epc; auto.
Qed.

Lemma run_Inv ls s s' : Inv s -> run w ls s = Some s' -> Inv s'.
Proof.
  intros HI Hrun.
  apply (run_invariant Inv (fun _ => true)) with (ls := ls) (s := s); auto.
  - intros l s1 s2 _. apply step_Inv.
  - clear. induction ls; cbn; auto.
Qed.

Lemma reachable_Inv f t0 ls s : run w ls (initial f t0) = Some s -> Inv s.
Proof. apply run_Inv, Inv_initial. Qed.

End ServiceInvariants.

(** ** How steps move the two goroutines *)

Section Transitions.
Import GoInt Calendar Zone GoTime Sys Reboot Service.

Variable w : World.

Lemma runM_timerpc {A} (m : M A) pc s :
  timerpc (runM m (fun _ => setMain pc) s) = timerpc s.
Proof. unfold runM. destruct (m (sys s)) as [x [a | msg]]; reflexivity. Qed.

(** The timer goroutine moves only by its own labels and by the [go]
    statement; [reboot] is called from [G_Reboot] alone, and [G_Reboot]
    is entered only when the timer is due. *)
Lemma step_timer l s s' :
  step w l s = Some s' ->
  match l with
  | LMain =>
      timerpc s' = timerpc s \/ (mainpc s = M_Spawn /\ timerpc s' = G_Calc)
  | LTimer =>
      match timerpc s with
      | G_Calc => timerpc s' = G_Calc \/ exists d, timerpc s' = G_LogPlan d
      | G_LogPlan d => timerpc s' = G_NewTimer d
      | G_NewTimer d => timerpc s' = G_Select (timerDeadline (clock s) d)
      | _ => False
      end
  | LFire =>
      exists deadline,
        timerpc s = G_Select deadline /\ deadline <= clock s /\
        timerpc s' = G_Reboot
  | LTimerDone => recvReady (done s) = true /\ timerpc s' = G_Finished
  | LReboot ok =>
      timerpc s = G_Reboot /\ timerpc s' = G_Finished /\
      rebootCalls s' = S (rebootCalls s) /\
      exited s' = (if ok then None else Some 1)
  | _ => timerpc s' = timerpc s
  end.
Proof.
  intros H. unfold step in H.
  destruct (exited s) eqn:Hex; [discriminate |].
  destruct l.
  - destruct (0 <? dt); inversion H; reflexivity.
  - unfold mainStep in H.
    destruct (mainpc s); try discriminate;
      try (inversion H; subst; rewrite ?runM_timerpc; auto; fail).
    destruct (openAppend serviceLogPath (fs (sys s))); inversion H; auto.
  - destruct (mainpc s); try discriminate. inversion H.
    unfold handleRequest. cbn [Cmd_]. destruct c; reflexivity.
  - destruct (mainpc s); try discriminate.
    destruct (recvReady (done s)); inversion H; reflexivity.
  - unfold timerStep in H.
    destruct (timerpc s) eqn:Etp; try discriminate; inversion H; subst.
    + unfold runM.
      destruct (calculateSleepDuration (timeNow w s) (sys s))
        as [x [d | msg]]; cbn [timerpc setTimer setSys exit];
        rewrite ?Etp; eauto.
    + reflexivity.
    + reflexivity.
  - destruct (timerpc s); try discriminate.
    destruct (Z.leb_spec deadline (clock s)); inversion H.
    eexists; repeat split; eauto.
  - destruct (timerpc s); try discriminate.
    destruct (recvReady (done s)); inversion H. auto.
  - destruct (timerpc s); try discriminate.
    rewrite runM_reboot in H. inversion H; subst.
    destruct ok; cbn; rewrite ?Hex; auto.
  - destruct (mainpc s); try discriminate. inversion H. reflexivity.
Qed.

(** [Execute] leaves its loop only on a Stop or Shutdown request or on a
    receive from [done]. *)
Lemma step_main_loop l s s' :
  step w l s = Some s' ->
  leftLoop (mainpc s) = false ->
  leftLoop (mainpc s') = true ->
  mainpc s = M_Loop /\ (isStopRequest l = true \/ l = LMainDone).
Proof.
  intros H Hin Hout. unfold step in H.
  destruct (exited s) eqn:Hex; [discriminate |].
  destruct l.
  - destruct (0 <? dt); inversion H; subst; cbn in Hout; congruence.
  - unfold mainStep in H.
    destruct (mainpc s) eqn:Epc; try discriminate; cbn in Hin;
      try discriminate.
    + destruct (openAppend serviceLogPath (fs (sys s))); inversion H; subst;
        cbn in Hout; discriminate.
    + inversion H; subst; cbn in Hout; discriminate.
    + inversion H; subst. unfold runM in Hout.
      destruct (logPrintln "Service is starting." (sys s)) as [x [a | msg]];
        cbn in Hout; rewrite ?Epc in Hout; discriminate.
    + inversion H; subst. unfold runM in Hout.
      destruct (loadConfig w (sys s)) as [x [a | msg]];
        cbn in Hout; rewrite ?Epc in Hout; discriminate.
    + inversion H; subst; cbn in Hout; discriminate.
    + inversion H; subst; cbn in Hout; discriminate.
  - destruct (mainpc s) eqn:Epc; try discriminate. inversion H; subst.
    split; [reflexivity |]. left.
    unfold handleRequest in Hout. cbn [Cmd_] in Hout.
    destruct c; cbn in Hout; rewrite ?Epc in Hout; try discriminate;
      reflexivity.
  - destruct (mainpc s); try discriminate. auto.
  - unfold timerStep in H.
    destruct (timerpc s); try discriminate; inversion H; subst;
      try (cbn in Hout; congruence).
    unfold runM in Hout.
    destruct (calculateSleepDuration (timeNow w s) (sys s)) as [x [d | msg]];
      cbn in Hout; congruence.
  - destruct (timerpc s); try discriminate.
    destruct (deadline <=? clock s); inversion H; subst.
    cbn in Hout; congruence.
  - destruct (timerpc s); try discriminate.
    destruct (recvReady (done s)); inversion H; subst.
    cbn in Hout; congruence.
  - destruct (timerpc s); try discriminate.
    rewrite runM_reboot in H. inversion H; subst.
    destruct ok; cbn in Hout; congruence.
  - destruct (mainpc s) eqn:Epc; try discriminate. inversion H; subst.
    cbn in Hout. rewrite Epc in Hout. cbn in Hin, Hout. congruence.
Qed.

End Transitions.

(** ** At most one reboot, and only from the timer *)

Section RebootOnce.
Import GoInt Calendar Zone GoTime Sys Reboot Service Examples.

Variable w : World.

(** C2. In every run of the process the shutdown command is run at most
    once; the only step that runs it is [reboot()] at line 120, taken
    from the timer branch of the select, and that branch is entered only
    by a receive from the timer channel once the deadline has come; no
    request from the service manager runs it. *)
Theorem reboot_at_most_once_via_timer
        (f : FS) (t0 : Z) (ls : list Label) (s : Process) :
  run w ls (initial f t0) = Some s ->
  (rebootCalls s <= 1)%nat /\
  (forall l s',
      step w l s = Some s' -> rebootCalls s' <> rebootCalls s ->
      (exists ok, l = LReboot ok) /\ isRequest l = false /\
      timerpc s = G_Reboot /\
      rebootCalls s = 0%nat /\ rebootCalls s' = 1%nat) /\
  (forall l s',
      step w l s = Some s' -> timerpc s' = G_Reboot ->
      timerpc s <> G_Reboot ->
      l = LFire /\
      exists deadline, timerpc s = G_Select deadline /\ deadline <= clock s).
Proof.
  intros Hrun. pose proof (reachable_Inv w f t0 ls s Hrun) as HI.
  split; [| split].
  - rewrite (inv_calls s HI). destruct (timerpc s); lia.
  - intros l s' Hstep Hne.
    pose proof (step_Inv w l s s' HI Hstep) as HI'.
    pose proof (step_timer w l s s' Hstep) as T.
    pose proof (inv_calls s HI) as Hc. pose proof (inv_calls s' HI') as Hc'.
    destruct l; try (rewrite Hc, Hc', T in Hne; congruence).
    + destruct T as [T | [Epc T]]; [rewrite Hc, Hc', T in Hne; congruence |].
      pose proof (inv_not_started s HI) as Hns.
      rewrite Epc in Hns. specialize (Hns eq_refl).
      rewrite Hc, Hc', T, Hns in Hne. congruence.
    + destruct (timerpc s) eqn:Etp; try contradiction.
      * destruct T as [T | [d T]]; rewrite Hc, Hc', T in Hne; congruence.
      * rewrite Hc, Hc', T in Hne; congruence.
      * rewrite Hc, Hc', T in Hne; congruence.
    + destruct T as (dl & E & _ & T). rewrite Hc, Hc', T, E in Hne.
      congruence.
    + destruct T as [T _]. rewrite (inv_done s HI) in T. discriminate.
    + destruct T as (E & E' & _ & _). rewrite E in Hc. rewrite E' in Hc'.
      repeat split; eauto.
  - intros l s' Hstep Hr Hnr.
    pose proof (step_timer w l s s' Hstep) as T.
    destruct l; try (rewrite T in Hr; contradiction).
    + destruct T as [T | [_ T]]; rewrite T in Hr;
        [contradiction | discriminate].
    + destruct (timerpc s); try contradiction.
      * destruct T as [T | [d T]]; rewrite T in Hr; discriminate.
      * rewrite T in Hr; discriminate.
      * rewrite T in Hr; discriminate.
    + destruct T as (dl & E & Hle & _). split; [reflexivity |]. eauto.
    + destruct T as [_ T]. rewrite T in Hr. discriminate.
    + destruct T as (_ & T & _). rewrite T in Hr. discriminate.
Qed.

End RebootOnce.

Section RebootOnceWitness.
Import GoInt Calendar Zone GoTime Sys Reboot Service Examples.

(** A run in which the timer fires, then requests arrive and [Execute]
    returns. *)
Lemma reboot_at_most_once_via_timer_witness :
  let s0 := initial (fsWithConfig (configText "0" "10:01"))
                    (unixNano (utc 2024 1 1 10 0 0)) in
  let ls := startup ++ [LTick (60 * second); LFire; LReboot true;
                        LReq Interrogate; LReq Stop; LMain; LMain; LExit] in
  exists s, run worldUTC ls s0 = Some s /\ (rebootCalls s <= 1)%nat.
Proof.
  intros s0 ls.
  destruct (run worldUTC ls s0) as [s |] eqn:E;
    [| vm_compute in E; discriminate].
  exists s. split; [reflexivity |].
  exact (proj1 (reboot_at_most_once_via_timer worldUTC _ _ _ _ E)).
Defined.

End RebootOnceWitness.

(** ** Stopping the service and the timer *)

Section StopAndTimer.
Import GoInt Calendar Zone GoTime Sys Reboot Service Examples.

Variable w : World.

(** Whatever [Execute] is doing, a timer that is armed comes due and
    [reboot()] runs: nothing in the program disarms it. *)
Lemma armed_timer_fires s deadline ok :
  exited s = None -> timerpc s = G_Select deadline ->
  exists s',
    run w [LTick (Z.max 1 (deadline - clock s)); LFire; LReboot ok] s
    = Some s' /\
    rebootCalls s' = S (rebootCalls s).
Proof.
  intros Hex Etp. cbn [run]. unfold step at 1. rewrite Hex.
  destruct (Z.ltb_spec 0 (Z.max 1 (deadline - clock s))); [| lia].
  unfold step at 1. cbn [exited setClock timerpc clock]. rewrite Hex, Etp.
  destruct (Z.leb_spec deadline (clock s + Z.max 1 (deadline - clock s)));
    [| lia].
  unfold step at 1. cbn [exited setClock setTimer timerpc]. rewrite Hex.
  rewrite runM_reboot. eexists. split; [reflexivity |].
  destruct ok; reflexivity.
Qed.

Lemma stopPending_not_reported pc sts :
  leftLoop pc = false -> reported pc sts -> ~ In stopPending sts.
Proof.
  intros Hl Hr Hin.
  assert (Hrep : forall n, ~ In stopPending (startPending :: repeat running n)).
  { intros n [E | E]; [discriminate |].
    apply repeat_spec in E. discriminate. }
  destruct pc; cbn [leftLoop reported] in Hl, Hr; try discriminate.
  1-2: subst sts; exact Hin.
  1-4: subst sts; exact (Hrep 0%nat Hin).
  - destruct Hr as [n ->]. exact (Hrep _ Hin).
  - rewrite Hl in Hr. subst sts. exact Hin.
Qed.

(** Without a Stop or Shutdown request [Execute] never leaves its loop
    and never reports StopPending, whatever the timer goroutine does. *)
Lemma no_stopping_without_stop_request ls s s' :
  Inv s -> leftLoop (mainpc s) = false ->
  forallb (fun l => negb (isStopRequest l)) ls = true ->
  run w ls s = Some s' ->
  leftLoop (mainpc s') = false /\ ~ In stopPending (statuses s').
Proof.
  intros HI Hl Hall Hrun.
  assert (H : Inv s' /\ leftLoop (mainpc s') = false).
  { apply (run_invariant w (fun x => Inv x /\ leftLoop (mainpc x) = false)
                         (fun l => negb (isStopRequest l)))
      with (ls := ls) (s := s); auto.
    intros l x x' Hal [HIx Hlx] Hstep.
    split; [eapply step_Inv; eauto |].
    destruct (leftLoop (mainpc x')) eqn:Hout; [| reflexivity].
    destruct (step_main_loop w l x x' Hstep Hlx Hout) as [Epc [Hs | ->]].
    - rewrite Hs in Hal. discriminate.
    - unfold step in Hstep. destruct (exited x); [discriminate |].
      rewrite Epc, (inv_done x HIx) in Hstep. discriminate. }
  destruct H as [HI' Hl']. split; [exact Hl' |].
  eapply stopPending_not_reported; [exact Hl' | apply (inv_reported s' HI')].
Qed.

End StopAndTimer.

Section StopAndTimerRuns.
Import GoInt Calendar Zone GoTime Sys Reboot Service Examples.

(** C1 (violated by the code). A Stop request accepted one
    millisecond before the deadline takes [Execute] out of its loop, yet
    the timer goroutine was told nothing: the timer comes due and the
    shutdown command is run. *)
Theorem stop_accepted_then_reboot :
  let s0 := initial (fsWithConfig (configText "0" "10:01"))
                    (unixNano (utc 2024 1 1 10 0 0)) in
  let deadline := unixNano (utc 2024 1 1 10 1 0) in
  exists s1 s2,
    run worldUTC
        (startup ++ [LTick (59 * second + 999 * millisecond); LReq Stop]) s0
    = Some s1 /\
    mainpc s1 = M_ReportStopPending /\
    timerpc s1 = G_Select deadline /\
    clock s1 = deadline - millisecond /\
    rebootCalls s1 = 0%nat /\
    exited s1 = None /\
    run worldUTC [LTick millisecond; LFire; LReboot true] s1 = Some s2 /\
    rebootCalls s2 = 1%nat /\
    exited s2 = None.
Proof.
  intros s0 deadline.
  destruct (run worldUTC
                (startup ++ [LTick (59 * second + 999 * millisecond);
                             LReq Stop]) s0) as [s1 |] eqn:E1;
    [| vm_compute in E1; discriminate].
  destruct (run worldUTC [LTick millisecond; LFire; LReboot true] s1)
    as [s2 |] eqn:E2.
  - exists s1, s2. vm_compute in E1. injection E1 as <-.
    vm_compute in E2. injection E2 as <-.
    vm_compute. repeat split.
  - vm_compute in E1. injection E1 as <-. vm_compute in E2. discriminate.
Qed.

(** C4 (violated by the code). The timer fires and [reboot()]
    returns, and [Execute] is still in its loop with Running as the last
    status reported: from there on it reports StopPending only after a
    Stop or Shutdown request. *)
Theorem timer_fire_leaves_service_running :
  let s0 := initial (fsWithConfig (configText "0" "10:01"))
                    (unixNano (utc 2024 1 1 10 0 0)) in
  exists s1,
    run worldUTC (startup ++ [LTick (60 * second); LFire; LReboot true]) s0
    = Some s1 /\
    rebootCalls s1 = 1%nat /\
    timerpc s1 = G_Finished /\
    mainpc s1 = M_Loop /\
    exited s1 = None /\
    statuses s1 = [startPending; running] /\
    forall ls s2,
      forallb (fun l => negb (isStopRequest l)) ls = true ->
      run worldUTC ls s1 = Some s2 ->
      leftLoop (mainpc s2) = false /\ ~ In stopPending (statuses s2).
Proof.
  intros s0.
  destruct (run worldUTC
                (startup ++ [LTick (60 * second); LFire; LReboot true]) s0)
    as [s1 |] eqn:E1; [| vm_compute in E1; discriminate].
  exists s1.
  pose proof (reachable_Inv worldUTC _ _ _ _ E1) as HI.
  assert (Hs : rebootCalls s1 = 1%nat /\ timerpc s1 = G_Finished /\
               mainpc s1 = M_Loop /\ exited s1 = None /\
               statuses s1 = [startPending; running]).
  { clear HI. vm_compute in E1. injection E1 as <-. vm_compute.
    repeat split. }
  destruct Hs as (H1 & H2 & H3 & H4 & H5).
  repeat split; auto.
  all: intros; edestruct (no_stopping_without_stop_request worldUTC ls s1 s2);
    eauto; rewrite H3; reflexivity.
Qed.

End StopAndTimerRuns.

(** ** Fatal errors *)

Section FatalErrors.
Import GoInt Calendar Zone GoTime Sys Reboot Service Examples.

Variable w : World.

Lemma step_after_exit l s code : exited s = Some code -> step w l s = None.
Proof. intros H. unfold step. rewrite H. reflexivity. Qed.

Lemma run_after_exit ls s s' code :
  exited s = Some code -> run w ls s = Some s' -> ls = [] /\ s' = s.
Proof.
  intros H Hrun. destruct ls as [| l ls]; cbn in Hrun.
  - split; congruence.
  - rewrite (step_after_exit l s code H) in Hrun. discriminate.
Qed.

(** Once [loadConfig] has returned, no step changes the configuration. *)
Lemma step_config l s s' :
  step w l s = Some s' -> configLoaded (mainpc s) = true ->
  config (sys s') = config (sys s) /\ configLoaded (mainpc s') = true.
Proof.
  intros H Hl. unfold step in H.
  destruct (exited s) eqn:Hex; [discriminate |].
  destruct l.
  - destruct (0 <? dt); inversion H; subst; auto.
  - unfold mainStep in H.
    destruct (mainpc s) eqn:Epc; try discriminate; cbn in Hl;
      try discriminate; inversion H; subst; cbn; auto.
  - destruct (mainpc s) eqn:Epc; try discriminate. inversion H; subst.
    unfold handleRequest. cbn [Cmd_].
    destruct c; cbn; rewrite ?Epc; auto.
  - destruct (mainpc s) eqn:Epc; try discriminate.
    destruct (recvReady (done s)); inversion H; subst; auto.
  - unfold timerStep in H.
    destruct (timerpc s); try discriminate; inversion H; subst; cbn; auto.
    unfold runM, calculateSleepDuration, bind, getConfig, ret, logFatalf.
    destruct (parseClock (At (config (sys s)))) as [[hour min] |]; cbn; auto.
  - destruct (timerpc s); try discriminate.
    destruct (deadline <=? clock s); inversion H; subst; auto.
  - destruct (timerpc s); try discriminate.
    destruct (recvReady (done s)); inversion H; subst; auto.
  - destruct (timerpc s); try discriminate.
    rewrite runM_reboot in H. inversion H; subst. destruct ok; cbn; auto.
  - destruct (mainpc s) eqn:Epc; try discriminate. inversion H; subst.
    cbn. rewrite Epc. auto.
Qed.

Lemma step_calc_fatal s :
  exited s = None -> timerpc s = G_Calc ->
  parseClock (At (config (sys s))) = None ->
  step w LTimer s
  = Some (exit 1 (setSys (addLog (Fatalf "Failed to parse time") (sys s)) s)).
Proof.
  intros Hex Etp Ep. unfold step, timerStep, runM. rewrite Hex, Etp.
  rewrite (calculateSleepDuration_fatal _ _ Ep). reflexivity.
Qed.

(** C5. With a time of day that does not parse, once the configuration
    is loaded the process can only end: in every continuation the timer is
    never armed and the shutdown command is never run, and as long as the
    process lives the timer goroutine stands before (or, within one
    statement of [Execute], comes to) the [log.Fatalf] of line 65, which
    logs the failure and ends the process with status 1. *)
Theorem unparsable_time_is_fatal
        (f : FS) (t0 : Z) (ls : list Label) (s : Process) :
  run w ls (initial f t0) = Some s ->
  configLoaded (mainpc s) = true ->
  parseClock (At (config (sys s))) = None ->
  forall ls' s',
    run w ls' s = Some s' ->
    rebootCalls s' = 0%nat /\
    (timerpc s' = G_NotStarted \/ timerpc s' = G_Calc) /\
    (exited s' = None ->
     exists ls'' s'',
       (length ls'' <= 2)%nat /\ run w ls'' s' = Some s'' /\
       exited s'' = Some 1 /\
       List.last (logged (sys s'')) (Println "")
       = Fatalf "Failed to parse time").
Proof.
  intros Hrun Hl Ep ls' s' Hrun'.
  pose proof (reachable_Inv w f t0 ls s Hrun) as HI.
  assert (H : Inv s' /\ config (sys s') = config (sys s)
              /\ configLoaded (mainpc s') = true).
  { apply (run_invariant w
             (fun x => Inv x /\ config (sys x) = config (sys s)
                       /\ configLoaded (mainpc x) = true)
             (fun _ => true)) with (ls := ls') (s := s); auto.
    - intros l x x' _ (HIx & Hc & Hlx) Hstep.
      destruct (step_config l x x' Hstep Hlx) as [Hc' Hlx'].
      split; [eapply step_Inv; eauto |]. split; congruence.
    - clear. induction ls'; cbn; auto. }
  destruct H as (HI' & Hc & Hl').
  assert (Ep' : parseClock (At (config (sys s'))) = None)
    by (rewrite Hc; exact Ep).
  assert (Ht : timerpc s' = G_NotStarted \/ timerpc s' = G_Calc)
    by (apply (inv_parse s' HI'); exact Ep').
  split; [rewrite (inv_calls s' HI'); destruct Ht as [-> | ->]; reflexivity |].
  split; [exact Ht |].
  intros Hex.
  assert (Hfatal : forall x,
             exited x = None -> timerpc x = G_Calc ->
             config (sys x) = config (sys s') ->
             exists x', step w LTimer x = Some x' /\ exited x' = Some 1 /\
                        List.last (logged (sys x')) (Println "")
                        = Fatalf "Failed to parse time").
  { intros x Hx Etp Hcx. eexists. split.
    - apply step_calc_fatal; auto. rewrite Hcx. exact Ep'.
    - split; [reflexivity |]. cbn. apply last_last. }
  destruct (goStarted (mainpc s')) eqn:Hgo.
  - destruct Ht as [Et | Et].
    + exfalso. exact (inv_started s' HI' Hgo Et).
    + destruct (Hfatal s' Hex Et eq_refl) as (x' & Hs & He & Hlog).
      exists [LTimer], x'. cbn [run length]. rewrite Hs. auto.
  - destruct (mainpc s') eqn:Epc; cbn in Hl', Hgo; try discriminate;
      try congruence.
    set (s1 := setMain M_ReportRunning (setTimer G_Calc (setDone makeChan s'))).
    destruct (Hfatal s1 Hex eq_refl eq_refl) as (x' & Hs & He & Hlog).
    exists [LMain; LTimer], x'. cbn [run length].
    unfold step at 1. rewrite Hex. unfold mainStep. rewrite Epc.
    fold s1. rewrite Hs. auto.
Qed.

(** C6. When the shutdown command fails, [reboot] logs the failure and
    the process exits with status 1; the command has then been run exactly
    once and nothing runs after the exit, so it is not tried again. *)
Theorem reboot_failure_is_fatal
        (f : FS) (t0 : Z) (ls : list Label) (s s' : Process) :
  run w ls (initial f t0) = Some s ->
  step w (LReboot false) s = Some s' ->
  exited s' = Some 1 /\
  List.last (logged (sys s')) (Println "")
  = Fatalf "Failed to execute shutdown command" /\
  rebootCalls s' = 1%nat /\
  (forall l, step w l s' = None) /\
  (forall ls' s'', run w ls' s' = Some s'' -> ls' = [] /\ s'' = s').
Proof.
  intros Hrun Hstep. pose proof (reachable_Inv w f t0 ls s Hrun) as HI.
  destruct (step_timer w _ _ _ Hstep) as (Etp & _ & Hcalls & Hex).
  split; [exact Hex |]. split.
  - unfold step in Hstep. destruct (exited s); [discriminate |].
    rewrite Etp, runM_reboot in Hstep. inversion Hstep; subst.
    cbn. apply last_last.
  - split.
    + rewrite Hcalls, (inv_calls s HI), Etp. reflexivity.
    + split.
      * intros l. eapply step_after_exit; eauto.
      * intros ls' s'' Hr. eapply run_after_exit; eauto.
Qed.

End FatalErrors.

Section FatalErrorsWitnesses.
Import GoInt Calendar Zone GoTime Sys Reboot Service Examples.

(** A run with the time of day 25:50. *)
Lemma unparsable_time_is_fatal_witness :
  let s0 := initial (fsWithConfig (configText "3" "25:50"))
                    (unixNano (utc 2024 1 1 10 0 0)) in
  let ls := [LMain; LMain; LMain; LMain; LMain; LMain; LReq Interrogate] in
  exists s, run worldUTC ls s0 = Some s /\
            exists ls' s', run worldUTC ls' s = Some s' /\ exited s' = Some 1.
Proof.
  intros s0 ls.
  destruct (run worldUTC ls s0) as [s |] eqn:E;
    [| vm_compute in E; discriminate].
  exists s. split; [reflexivity |].
  assert (Hs : configLoaded (mainpc s) = true /\
               parseClock (At (config (sys s))) = None /\ exited s = None).
  { pose proof E as E'. vm_compute in E'. injection E' as <-.
    repeat split. }
  destruct Hs as (Hl & Hp & Hex).
  destruct (unparsable_time_is_fatal worldUTC _ _ _ _ E Hl Hp [] s eq_refl)
    as (_ & _ & H).
  destruct (H Hex) as (ls' & s' & _ & Hr & He & _).
  exists ls', s'. auto.
Defined.

(** A run in which the timer fires and the shutdown command fails. *)
Lemma reboot_failure_is_fatal_witness :
  let s0 := initial (fsWithConfig (configText "0" "10:01"))
                    (unixNano (utc 2024 1 1 10 0 0)) in
  let ls := startup ++ [LTick (60 * second); LFire] in
  exists s s', run worldUTC ls s0 = Some s /\
               step worldUTC (LReboot false) s = Some s' /\
               exited s' = Some 1 /\ rebootCalls s' = 1%nat.
Proof.
  intros s0 ls.
  destruct (run worldUTC ls s0) as [s |] eqn:E;
    [| vm_compute in E; discriminate].
  destruct (step worldUTC (LReboot false) s) as [s' |] eqn:E'.
  - exists s, s'. split; [reflexivity |]. split; [exact E' |].
    destruct (reboot_failure_is_fatal worldUTC _ _ _ _ _ E E')
      as (H1 & _ & H3 & _).
    auto.
  - exfalso. vm_compute in E. injection E as <-. vm_compute in E'.
    discriminate.
Defined.

End FatalErrorsWitnesses.

(** ** Interrogate *)

Section Interrogate.
Import GoInt Calendar Zone GoTime Sys Reboot Service Examples.

Variable w : World.

Lemma step_interrogate s :
  Inv s -> exited s = None -> mainpc s = M_Loop ->
  step w (LReq Interrogate) s = Some (sendStatus running s).
Proof.
  intros HI Hex Epc. unfold step. rewrite Hex, Epc.
  unfold handleRequest. cbn [Cmd_ CurrentStatus].
  rewrite (lastStatus_in_loop s HI Epc). reflexivity.
Qed.

Lemma interrogate_n n : forall s,
  Inv s -> exited s = None -> mainpc s = M_Loop ->
  exists s',
    run w (repeat (LReq Interrogate) n) s = Some s' /\
    Inv s' /\
    mainpc s' = M_Loop /\ timerpc s' = timerpc s /\ sys s' = sys s /\
    clock s' = clock s /\ done s' = done s /\ exited s' = None /\
    statuses s' = statuses s ++ repeat running n.
Proof.
  induction n as [| n IH]; intros s HI Hex Epc.
  - exists s. cbn [repeat run]. rewrite app_nil_r.
    split; [reflexivity |]. split; [exact HI |]. repeat split; auto.
  - pose proof (step_interrogate s HI Hex Epc) as Hstep.
    destruct (IH (sendStatus running s)) as (s' & Hrun & R).
    + eapply step_Inv; eauto.
    + exact Hex.
    + exact Epc.
    + exists s'. cbn [repeat run]. rewrite Hstep. split; [exact Hrun |].
      cbn [mainpc timerpc sys clock done exited statuses sendStatus] in R.
      rewrite <- app_assoc in R. exact R.
Qed.

(** C7. In the loop of [Execute], any number of Interrogate requests in
    a row are each answered with the current status, which is Running with
    Stop and Shutdown accepted; the loop, the timer goroutine, the clock,
    the log and the files stay as they were, and Running remains the
    current status. *)
Theorem interrogate_is_transparent
        (f : FS) (t0 : Z) (ls : list Label) (s : Process) (n : nat) :
  run w ls (initial f t0) = Some s ->
  exited s = None ->
  mainpc s = M_Loop ->
  exists s',
    run w (repeat (LReq Interrogate) n) s = Some s' /\
    mainpc s' = M_Loop /\ timerpc s' = timerpc s /\ sys s' = sys s /\
    clock s' = clock s /\ done s' = done s /\ exited s' = None /\
    statuses s' = statuses s ++ repeat running n /\
    lastStatus s = running /\ lastStatus s' = running.
Proof.
  intros Hrun Hex Epc. pose proof (reachable_Inv w f t0 ls s Hrun) as HI.
  destruct (interrogate_n n s HI Hex Epc)
    as (s' & Hr & HI' & H1 & H2 & H3 & H4 & H5 & H6 & H7).
  exists s'. repeat split; auto; apply lastStatus_in_loop; auto.
Qed.

End Interrogate.

Section InterrogateWitness.
Import GoInt Calendar Zone GoTime Sys Reboot Service Examples.

(** Three Interrogate requests after startup. *)
Lemma interrogate_is_transparent_witness :
  let s0 := initial (fsWithConfig (configText "0" "10:01"))
                    (unixNano (utc 2024 1 1 10 0 0)) in
  exists s s',
    run worldUTC startup s0 = Some s /\
    run worldUTC (repeat (LReq Interrogate) 3) s = Some s' /\
    statuses s' = statuses s ++ [running; running; running] /\
    timerpc s' = timerpc s.
Proof.
  intros s0.
  destruct (run worldUTC startup s0) as [s |] eqn:E;
    [| vm_compute in E; discriminate].
  assert (Hs : exited s = None /\ mainpc s = M_Loop).
  { pose proof E as E'. vm_compute in E'. injection E' as <-. split; reflexivity. }
  destruct Hs as [Hex Epc].
  destruct (interrogate_is_transparent worldUTC _ _ _ _ 3%nat E Hex Epc)
    as (s' & Hr & _ & Ht & _ & _ & _ & _ & Hst & _).
  exists s, s'. auto.
Defined.

End InterrogateWitness.

(** ** A time of day that has already passed *)

Section PastTimeOfDay.
Import GoInt Calendar Zone GoTime Sys Reboot Service Examples.

Variable w : World.

Lemma timeNow_nsec s : 0 <= nsec (timeNow w s) < nanosPerSecond.
Proof.
  unfold timeNow, nanosPerSecond. cbn [nsec].
  apply Z.mod_pos_bound. lia.
Qed.

(** C8 (amended). With no delay in days and a time of day earlier than
    the present local time, and no change of the local clock between the
    two (the offset [time.Date] settles on for today's time of day is the
    one in force now), the duration computed is at most zero and the
    timer goroutine goes from the calculation through the timer branch
    to [reboot()] with no time passing. The reading of the clock is one
    for which [time.Date] does not wrap around ([dateFits]: the count of
    seconds of today's date fits 64 bits, as it does within 10^12 seconds
    of 1970 by [dateFits_ordinary]). *)
Theorem past_time_of_day_fires_at_once
        (s : Process) (hour min : Z) (ok : bool) :
  let now := timeNow w s in
  exited s = None ->
  timerpc s = G_Calc ->
  AfterDays (config (sys s)) = 0 ->
  parseClock (At (config (sys s))) = Some (hour, min) ->
  (hour * secondsPerHour + min * secondsPerMinute) * nanosPerSecond
  < clockOfDay now ->
  dateOffset (Local w) (restartWall (config (sys s)) now hour min)
  = offsetAt (Local w) (unixSec now) ->
  dateFits (Local w) (restartWall (config (sys s)) now hour min) ->
  exists d s',
    calculateSleepDuration now (sys s) = (sys s, Ok d) /\
    d <= 0 /\
    run w [LTimer; LTimer; LTimer; LFire; LReboot ok] s = Some s' /\
    clock s' = clock s /\
    rebootCalls s' = S (rebootCalls s).
Proof.
  intros now Hex Etp Hk Ep Hpast Hoff Hfit.
  destruct (parseClock_range _ _ _ Ep) as [Hh Hm].
  pose proof (timeNow_nsec s) as Hns. fold now in Hns.
  destruct (fields_of_now now) as (_ & _ & Hday).
  set (d := Sub (restartDateTime (config (sys s)) now hour min) now).
  assert (Hd : d <= 0).
  { unfold d, Sub. rewrite restartDateTime_wall by assumption.
    assert (Hl : loc now = Local w) by reflexivity.
    rewrite Hl, Hoff.
    assert (Hw : restartWall (config (sys s)) now hour min
                 = localDay now * secondsPerDay
                   + hour * secondsPerHour + min * secondsPerMinute).
    { unfold restartWall. rewrite Hk. unfold add64.
      rewrite wrap64_in_range by (unfold inInt64, minInt64, maxInt64; lia).
      replace (localDay now - Day now + (Day now + 0)) with (localDay now)
        by lia.
      reflexivity. }
    rewrite Hw. unfold unixNano. cbn [unixSec nsec].
    unfold clockOfDay, localDay, wallOf in *. rewrite Hl in *.
    set (u := unixSec now) in *. set (off := offsetAt (Local w) u) in *.
    unfold secondsPerDay, secondsPerHour, secondsPerMinute, nanosPerSecond in *.
    assert (Hdm : (u + off) = 86400 * ((u + off) / 86400) + (u + off) mod 86400)
      by (apply Z.div_mod; lia).
    assert (Hmod : 0 <= (u + off) mod 86400 < 86400)
      by (apply Z.mod_pos_bound; lia).
    rewrite sat64_in_range; [lia |].
    unfold inInt64, minInt64, maxInt64. lia. }
  exists d.
  assert (Hcalc : calculateSleepDuration now (sys s) = (sys s, Ok d))
    by (apply calculateSleepDuration_ok; exact Ep).
  eexists. split; [exact Hcalc |]. split; [exact Hd |].
  cbn [run].
  unfold step at 1. rewrite Hex. unfold timerStep, runM. rewrite Etp.
  fold now. rewrite Hcalc.
  unfold step at 1. cbn [exited setTimer setSys timerpc]. rewrite Hex.
  unfold timerStep. cbn [timerpc setTimer setSys].
  unfold step at 1. cbn [exited setTimer setSys timerpc]. rewrite Hex.
  unfold timerStep. cbn [timerpc setTimer setSys clock].
  unfold timerDeadline. destruct (Z.leb_spec d 0); [| lia].
  unfold step at 1. cbn [exited setTimer setSys timerpc clock]. rewrite Hex.
  destruct (Z.leb_spec (clock s) (clock s)); [| lia].
  unfold step at 1. cbn [exited setTimer setSys timerpc clock]. rewrite Hex.
  rewrite runM_reboot.
  split; [reflexivity |]. destruct ok; split; reflexivity.
Qed.

End PastTimeOfDay.

Section PastTimeOfDayRuns.
Import GoInt Calendar Zone GoTime Sys Reboot Service Examples.

(** Started at 10:00 with the time of day 09:00, in UTC. *)
Lemma past_time_of_day_fires_at_once_witness :
  let s0 := initial (fsWithConfig (configText "0" "09:00"))
                    (unixNano (utc 2024 1 1 10 0 0)) in
  exists s d s',
    run worldUTC [LMain; LMain; LMain; LMain; LMain; LMain] s0 = Some s /\
    calculateSleepDuration (timeNow worldUTC s) (sys s) = (sys s, Ok d) /\
    d <= 0 /\
    run worldUTC [LTimer; LTimer; LTimer; LFire; LReboot true] s = Some s' /\
    clock s' = clock s /\ rebootCalls s' = S (rebootCalls s).
Proof.
  intros s0.
  destruct (run worldUTC [LMain; LMain; LMain; LMain; LMain; LMain] s0)
    as [s |] eqn:E; [| vm_compute in E; discriminate].
  assert (Hs : exited s = None /\ timerpc s = G_Calc /\
               AfterDays (config (sys s)) = 0 /\
               parseClock (At (config (sys s))) = Some (9, 0) /\
               (9 * secondsPerHour + 0 * secondsPerMinute) * nanosPerSecond
               < clockOfDay (timeNow worldUTC s) /\
               dateOffset (Local worldUTC)
                          (restartWall (config (sys s)) (timeNow worldUTC s) 9 0)
               = offsetAt (Local worldUTC) (unixSec (timeNow worldUTC s)) /\
               dateFits (Local worldUTC)
                        (restartWall (config (sys s)) (timeNow worldUTC s) 9 0)).
  { vm_compute in E. injection E as <-. vm_compute.
    repeat split; discriminate. }
  destruct Hs as (H1 & H2 & H3 & H4 & H5 & H6 & H7).
  destruct (past_time_of_day_fires_at_once worldUTC s 9 0 true
              H1 H2 H3 H4 H5 H6 H7) as (d & s' & R).
  exists s, d, s'. split; [reflexivity | exact R].
Defined.

(** C8, as stated, fails in the hour that a clock set back repeats. In
    Central European time the service is started on 2024-10-27 at 02:50
    summer time, ten minutes before the clocks go back, with the time of
    day 02:30: [time.Date] resolves it to 02:30 winter time, forty minutes
    ahead. The duration is positive, the timer is armed for that instant
    and is not due. *)
Lemma clock_set_back_counterexample :
  let s0 := initial (fsWithConfig (configText "0" "02:30"))
                    (unixNano (utc 2024 10 27 0 50 0)) in
  exists s s',
    run worldBerlin [LMain; LMain; LMain; LMain; LMain; LMain] s0 = Some s /\
    let now := timeNow worldBerlin s in
    AfterDays (config (sys s)) = 0 /\
    parseClock (At (config (sys s))) = Some (2, 30) /\
    (Year now, Month now, Day now, Hour now, Minute now)
    = (2024, 10, 27, 2, 50) /\
    (2 * secondsPerHour + 30 * secondsPerMinute) * nanosPerSecond
    < clockOfDay now /\
    calculateSleepDuration now (sys s) = (sys s, Ok (40 * 60 * second)) /\
    ~ (40 * 60 * second <= 0) /\
    run worldBerlin [LTimer; LTimer; LTimer] s = Some s' /\
    timerpc s' = G_Select (clock s + 40 * 60 * second) /\
    run worldBerlin [LFire] s' = None.
Proof.
  intros s0.
  destruct (run worldBerlin [LMain; LMain; LMain; LMain; LMain; LMain] s0)
    as [s |] eqn:E; [| vm_compute in E; discriminate].
  destruct (run worldBerlin [LTimer; LTimer; LTimer] s) as [s' |] eqn:E'.
  - exists s, s'. vm_compute in E. injection E as <-.
    vm_compute in E'. injection E' as <-.
    repeat split; try (vm_compute; reflexivity).
    vm_compute. intros H. apply H. reflexivity.
  - exfalso. vm_compute in E. injection E as <-. vm_compute in E'.
    discriminate.
Qed.

End PastTimeOfDayRuns.

(** ** More on [Execute]: reports, exits, requests *)

Section ExecuteFacts.
Import GoInt Calendar Zone GoTime Sys Reboot Service Plan.

Variable w : World.

(** X1. The status reports of [Execute] follow the protocol in every run:
    nothing yet, or StartPending, then Running (once by [Execute] and once
    more for each Interrogate answered), then StopPending at most once and
    last; no other status is ever sent. *)
Theorem status_reports_follow_protocol
        (f : FS) (t0 : Z) (ls : list Label) (s : Process) :
  run w ls (initial f t0) = Some s ->
  statusProtocol (statuses s) /\
  (forall st, In st (statuses s) ->
              st = startPending \/ st = running \/ st = stopPending).
Proof.
  intros Hrun. pose proof (reachable_Inv w f t0 ls s Hrun) as HI.
  pose proof (inv_reported s HI) as Hr.
  assert (Hp : statusProtocol (statuses s)).
  { unfold statusProtocol.
    destruct (mainpc s); cbn [reported] in Hr; auto.
    destruct (exitCode =? 0); auto. }
  split; [exact Hp |].
  intros st Hin.
  destruct Hp as [E | [E | [[n E] | [n E]]]]; rewrite E in Hin.
  - destruct Hin.
  - destruct Hin as [<- | []]. auto.
  - destruct Hin as [<- | Hin]; [auto |].
    apply repeat_spec in Hin. auto.
  - destruct Hin as [<- | Hin]; [auto |].
    apply in_app_or in Hin. destruct Hin as [Hin | [<- | []]]; [| auto].
    apply repeat_spec in Hin. auto.
Qed.

Lemma logPrintln_never_fatal msg (x y : Sys) m :
  logPrintln msg x = (y, Fatal m) -> False.
Proof. unfold logPrintln. discriminate. Qed.

(** Whenever [loadConfig] ends in [log.Fatalf], the message is the last
    line logged. *)
Lemma loadConfig_fatal x y msg :
  loadConfig w x = (y, Fatal msg) ->
  List.last (logged y) (Println EmptyString) = Fatalf msg.
Proof.
  rewrite loadConfig_cases. cbv zeta. intros H.
  repeat (case_match; simplify_eq;
          cbn [fst snd logged config setFS addLog setConfig setLogOut] in * );
    try apply last_last.
Qed.

(** X4. A process that has exited did so in one of two ways: with status
    0 after [Execute] returned, or with status 1 from a [log.Fatalf] whose
    message is the last line logged. *)
Theorem exit_status_discipline
        (f : FS) (t0 : Z) (ls : list Label) (s : Process) (code : Z) :
  run w ls (initial f t0) = Some s ->
  exited s = Some code ->
  (code = 0 /\ exists b e, mainpc s = M_Returned b e) \/
  (code = 1 /\ exists msg,
      List.last (logged (sys s)) (Println EmptyString) = Fatalf msg).
Proof.
  intros Hrun.
  assert (H : forall c, exited s = Some c ->
              (c = 0 /\ exists b e, mainpc s = M_Returned b e) \/
              (c = 1 /\ exists msg,
                  List.last (logged (sys s)) (Println EmptyString) = Fatalf msg)).
  2: { apply H. }
  apply (run_invariant w
           (fun x => forall c, exited x = Some c ->
              (c = 0 /\ exists b e, mainpc x = M_Returned b e) \/
              (c = 1 /\ exists msg,
                  List.last (logged (sys x)) (Println EmptyString) = Fatalf msg))
           (fun _ => true)) with (ls := ls) (s := initial f t0); auto.
  - intros l x x' _ _ Hstep c Hc. unfold step in Hstep.
    destruct (exited x) eqn:Hex; [discriminate |].
    destruct l.
    + destruct (0 <? dt); inversion Hstep; subst; cbn in Hc; congruence.
    + unfold mainStep in Hstep.
      destruct (mainpc x) eqn:Epc; try discriminate.
      * destruct (openAppend serviceLogPath (fs (sys x)));
          inversion Hstep; subst; cbn in Hc; congruence.
      * inversion Hstep; subst; cbn in Hc; congruence.
      * inversion Hstep; subst; cbn in Hc; congruence.
      * inversion Hstep; subst. unfold runM in *.
        destruct (loadConfig w (sys x)) as [y [a | msg]] eqn:El;
          cbn in Hc; [congruence |].
        right. split; [congruence |]. exists msg. cbn.
        apply (loadConfig_fatal _ _ _ El).
      * inversion Hstep; subst; cbn in Hc; congruence.
      * inversion Hstep; subst; cbn in Hc; congruence.
      * inversion Hstep; subst; cbn in Hc; congruence.
      * inversion Hstep; subst; cbn in Hc; congruence.
    + destruct (mainpc x); try discriminate. inversion Hstep; subst.
      unfold handleRequest in Hc. cbn [Cmd_] in Hc.
      destruct c0; cbn in Hc; congruence.
    + destruct (mainpc x); try discriminate.
      destruct (recvReady (done x)); inversion Hstep; subst; cbn in Hc;
        congruence.
    + unfold timerStep in Hstep.
      destruct (timerpc x); try discriminate; inversion Hstep; subst;
        try (cbn in Hc; congruence).
      unfold runM in *.
      destruct (parseClock (At (config (sys x)))) as [[hour min] |] eqn:Ep.
      * rewrite (calculateSleepDuration_ok _ _ _ _ Ep) in Hc.
        cbn in Hc. congruence.
      * rewrite (calculateSleepDuration_fatal _ _ Ep) in *.
        cbn in Hc. right. split; [congruence |].
        eexists. cbn. apply last_last.
    + destruct (timerpc x); try discriminate.
      destruct (deadline <=? clock x); inversion Hstep; subst; cbn in Hc;
        congruence.
    + destruct (timerpc x); try discriminate.
      destruct (recvReady (done x)); inversion Hstep; subst; cbn in Hc;
        congruence.
    + destruct (timerpc x); try discriminate.
      rewrite runM_reboot in Hstep. inversion Hstep; subst.
      destruct ok; cbn in Hc; [congruence |].
      right. split; [congruence |]. eexists. cbn. apply last_last.
    + destruct (mainpc x) eqn:Epc; try discriminate.
      inversion Hstep; subst. cbn in Hc. left. split; [congruence |].
      cbn. rewrite Epc. eauto.
  - clear. induction ls; cbn; auto.
  - cbn. discriminate.
Qed.

(** X3. A Stop or Shutdown request received in the loop ends the service
    in four steps with no time passing: StopPending is reported, the stop
    is logged, [Execute] returns (false, 0) and the process exits with
    status 0. The timer goroutine is not touched on the way and the
    shutdown command is not run. *)
Theorem stop_request_ends_service (s : Process) (c : Cmd) :
  exited s = None ->
  mainpc s = M_Loop ->
  isStop c = true ->
  exists s',
    run w [LReq c; LMain; LMain; LExit] s = Some s' /\
    exited s' = Some 0 /\
    mainpc s' = M_Returned false 0 /\
    statuses s' = statuses s ++ [stopPending] /\
    logged (sys s') = logged (sys s) ++ [Println "Service is stopping."] /\
    clock s' = clock s /\
    timerpc s' = timerpc s /\
    rebootCalls s' = rebootCalls s.
Proof.
  intros Hex Epc Hc.
  assert (Hreq : step w (LReq c) s = Some (setMain M_ReportStopPending s)).
  { unfold step. rewrite Hex, Epc. unfold handleRequest. cbn [Cmd_].
    destruct c; try discriminate; reflexivity. }
  cbn [run]. rewrite Hreq.
  unfold step at 1. cbn [exited setMain]. rewrite Hex.
  unfold mainStep at 1. cbn [mainpc setMain].
  unfold step at 1. cbn [exited setMain sendStatus]. rewrite Hex.
  unfold mainStep at 1. cbn [mainpc setMain sendStatus].
  unfold runM, logPrintln. cbn [sys setMain sendStatus].
  unfold step at 1. cbn [exited setMain setSys sendStatus]. rewrite Hex.
  cbn [mainpc setMain setSys].
  eexists. split; [reflexivity |]. cbn. auto 10.
Qed.

(** X7. Requests that are neither Stop nor Shutdown keep [Execute] in its
    loop: each Interrogate is answered with Running, every other command is
    dropped without a reply, and nothing else in the process changes. *)
Theorem requests_without_stop_keep_running
        (f : FS) (t0 : Z) (ls : list Label) (s : Process) (cs : list Cmd) :
  run w ls (initial f t0) = Some s ->
  exited s = None ->
  mainpc s = M_Loop ->
  forallb (fun c => negb (isStop c)) cs = true ->
  exists s',
    run w (map LReq cs) s = Some s' /\
    mainpc s' = M_Loop /\ timerpc s' = timerpc s /\ sys s' = sys s /\
    clock s' = clock s /\ exited s' = None /\
    statuses s' = statuses s
                  ++ repeat running (length (List.filter isInterrogate cs)).
Proof.
  intros Hrun. pose proof (reachable_Inv w f t0 ls s Hrun) as HI.
  clear Hrun. revert s HI.
  induction cs as [| c cs IH]; intros s HI Hex Epc Hall.
  - exists s. cbn. rewrite app_nil_r. auto 10.
  - cbn [forallb] in Hall. apply andb_prop in Hall as [Hc Hall].
    pose proof (lastStatus_in_loop s HI Epc) as Hlast.
    assert (Hstep : step w (LReq c) s
                    = Some (if isInterrogate c then sendStatus running s
                            else s)).
    { unfold step. rewrite Hex, Epc. unfold handleRequest.
      cbn [Cmd_ CurrentStatus]. rewrite Hlast.
      destruct c; try discriminate; reflexivity. }
    set (s1 := if isInterrogate c then sendStatus running s else s) in *.
    assert (H1 : exited s1 = None /\ mainpc s1 = M_Loop /\
                 timerpc s1 = timerpc s /\ sys s1 = sys s /\
                 clock s1 = clock s /\
                 statuses s1 = statuses s
                               ++ repeat running
                                    (if isInterrogate c then 1 else 0)%nat).
    { unfold s1. destruct (isInterrogate c); cbn; rewrite ?app_nil_r; auto 10. }
    destruct H1 as (E1 & E2 & E3 & E4 & E5 & E6).
    destruct (IH s1 (step_Inv w _ _ _ HI Hstep) E1 E2 Hall)
      as (s' & Hr & R1 & R2 & R3 & R4 & R5 & R6).
    exists s'. cbn [map run]. rewrite Hstep.
    split; [exact Hr |]. repeat split; try congruence.
    rewrite R6, E6, <- app_assoc, <- repeat_app. cbn [List.filter].
    destruct (isInterrogate c); reflexivity.
Qed.

End ExecuteFacts.

(** ** More on [Execute]: what stays fixed, and when the timer may fire *)

Section ExecuteFrame.
Import GoInt Calendar Zone GoTime Sys Reboot Service Plan.

Variable w : World.

(** After [loadConfig] has returned, the logger writes to standard
    output and to a file that is closed: nothing it is handed reaches a
    file. *)
Lemma writeLog_closed b l f : writeLog [Stdout b; ClosedFile] l f = f.
Proof. cbn. destruct b; reflexivity. Qed.

Lemma addLog_closed b l x :
  logOut x = [Stdout b; ClosedFile] ->
  fs (addLog l x) = fs x /\ logOut (addLog l x) = [Stdout b; ClosedFile].
Proof.
  intros H. unfold addLog. cbn [fs logOut]. rewrite H.
  rewrite writeLog_closed. auto.
Qed.

Lemma loadConfig_logOut x y :
  loadConfig w x = (y, Ok tt) ->
  logOut y = [Stdout (stdoutWorks w); ClosedFile].
Proof.
  rewrite loadConfig_cases. cbv zeta. intros H.
  repeat (case_match; simplify_eq); reflexivity.
Qed.

(** The clock never runs backwards, and once [loadConfig] has returned no
    step changes the files or the output of the logger. *)
Lemma step_clock_fs l s s' :
  step w l s = Some s' ->
  clock s <= clock s' /\
  (configLoaded (mainpc s) = true ->
   logOut (sys s) = [Stdout (stdoutWorks w); ClosedFile] ->
   fs (sys s') = fs (sys s) /\
   logOut (sys s') = [Stdout (stdoutWorks w); ClosedFile]).
Proof.
  intros H. unfold step in H.
  destruct (exited s) eqn:Hex; [discriminate |].
  destruct l.
  - destruct (Z.ltb_spec 0 dt); inversion H; subst; cbn; split; auto; lia.
  - unfold mainStep, runM in H.
    destruct (mainpc s) eqn:Epc; try discriminate;
      cbn [configLoaded goStarted].
    + destruct (openAppend serviceLogPath (fs (sys s))); inversion H; subst;
        cbn; split; try lia; discriminate.
    + inversion H; subst; cbn; split; [lia | discriminate].
    + inversion H; subst; cbn; split; [lia | discriminate].
    + destruct (loadConfig w (sys s)) as [y [a | msg]]; inversion H; subst;
        cbn; split; try lia; discriminate.
    + inversion H; subst; cbn; split; [lia | auto].
    + inversion H; subst; cbn; split; [lia | auto].
    + inversion H; subst; cbn; split; [lia | auto].
    + inversion H; subst. cbn [logPrintln]. split; [cbn; lia |].
      intros _ Hout.
      destruct (addLog_closed _ (Println "Service is stopping.") _ Hout).
      cbn. auto.
  - destruct (mainpc s); try discriminate. inversion H; subst.
    unfold handleRequest. cbn [Cmd_]. destruct c; cbn; split; auto; lia.
  - destruct (mainpc s); try discriminate.
    destruct (recvReady (done s)); inversion H; subst; cbn; split; auto; lia.
  - unfold timerStep in H.
    destruct (timerpc s); try discriminate; inversion H; subst.
    + unfold runM, calculateSleepDuration, bind, getConfig, ret, logFatalf.
      destruct (parseClock (At (config (sys s)))) as [[hour min] |].
      * cbn; split; auto; lia.
      * cbn [clock exit setSys sys]. split; [lia |]. intros _ Hout.
        exact (addLog_closed _ (Fatalf "Failed to parse time") _ Hout).
    + cbn [clock setTimer setSys sys]. split; [lia |]. intros _ Hout.
      exact (addLog_closed _ _ _ Hout).
    + cbn; split; auto; lia.
  - destruct (timerpc s); try discriminate.
    destruct (deadline <=? clock s); inversion H; subst; cbn; split; auto; lia.
  - destruct (timerpc s); try discriminate.
    destruct (recvReady (done s)); inversion H; subst; cbn; split; auto; lia.
  - destruct (timerpc s); try discriminate.
    rewrite runM_reboot in H. inversion H; subst. clear H.
    split; [destruct ok; cbn; lia |]. intros _ Hout.
    change (sys (setTimer G_Finished s)) with (sys s).
    destruct (addLog_closed _ (Println "Rebooting system...") _ Hout)
      as [F1 O1].
    set (x1 := addLog (Println "Rebooting system...") (sys s)) in *.
    assert (O2 : logOut (countShutdown x1)
                 = [Stdout (stdoutWorks w); ClosedFile]) by exact O1.
    assert (F2 : fs (countShutdown x1) = fs (sys s)) by exact F1.
    destruct ok; unfold id; cbn [sys setSys exit].
    + destruct (addLog_closed
                  _ (Println "System reboot initiated successfully.") _ O2)
        as [F3 O3].
      rewrite F3, O3, F2. auto.
    + destruct (addLog_closed
                  _ (Fatalf "Failed to execute shutdown command") _ O2)
        as [F3 O3].
      rewrite F3, O3, F2. auto.
  - destruct (mainpc s); try discriminate. inversion H; subst.
    cbn; split; auto; lia.
Qed.

(** In every run, once [loadConfig] has returned the logger is in that
    state. *)
Lemma logOut_after_load f t0 ls s :
  run w ls (initial f t0) = Some s ->
  configLoaded (mainpc s) = true ->
  logOut (sys s) = [Stdout (stdoutWorks w); ClosedFile].
Proof.
  intros Hrun.
  apply (run_invariant w
           (fun x => configLoaded (mainpc x) = true ->
                     logOut (sys x) = [Stdout (stdoutWorks w); ClosedFile])
           (fun _ => true)) with (ls := ls) (s := initial f t0); auto.
  - intros l x x' _ Hx Hstep Hl'.
    destruct (configLoaded (mainpc x)) eqn:Hl.
    + destruct (step_clock_fs l x x' Hstep) as [_ Hf].
      exact (proj2 (Hf Hl (Hx eq_refl))).
    + clear Hx. unfold step in Hstep.
      destruct (exited x); [discriminate |].
      destruct l.
      * destruct (0 <? dt); inversion Hstep; subst. cbn in Hl'. congruence.
      * unfold mainStep, runM in Hstep.
        destruct (mainpc x) eqn:Epc; try discriminate; cbn in Hl;
          try discriminate.
        -- destruct (openAppend serviceLogPath (fs (sys x)));
             inversion Hstep; subst; cbn in Hl'; discriminate.
        -- inversion Hstep; subst; cbn in Hl'; discriminate.
        -- inversion Hstep; subst; cbn in Hl'; discriminate.
        -- destruct (loadConfig w (sys x)) as [y [[] | msg]] eqn:El;
             inversion Hstep; subst; cbn in Hl'; cbn.
           ++ exact (loadConfig_logOut _ _ El).
           ++ rewrite Epc in Hl'. cbn in Hl'. discriminate.
      * destruct (mainpc x); try discriminate.
      * destruct (mainpc x); try discriminate.
      * unfold timerStep in Hstep.
        destruct (timerpc x); try discriminate; inversion Hstep; subst;
          unfold runM in Hl'.
        -- destruct (calculateSleepDuration (timeNow w x) (sys x))
             as [y [d | msg]]; cbn in Hl'; congruence.
        -- cbn in Hl'. congruence.
        -- cbn in Hl'. congruence.
      * destruct (timerpc x); try discriminate.
        destruct (deadline <=? clock x); inversion Hstep; subst.
        cbn in Hl'. congruence.
      * destruct (timerpc x); try discriminate.
        destruct (recvReady (done x)); inversion Hstep; subst.
        cbn in Hl'. congruence.
      * destruct (timerpc x); try discriminate.
        inversion Hstep; subst. unfold runM in Hl'.
        destruct (reboot ok (sys (setTimer G_Finished x))) as [y [[] | msg]];
          cbn in Hl'; congruence.
      * destruct (mainpc x) eqn:Epc; try discriminate.
        inversion Hstep; subst. cbn in Hl'. congruence.
  - clear. induction ls; cbn; auto.
  - cbn. discriminate.
Qed.

(** X8. The configuration is read once: after [loadConfig] has returned,
    no continuation of the run changes the global [config] or any file. *)
Theorem configuration_fixed_after_load
        (f : FS) (t0 : Z) (ls ls' : list Label) (s s' : Process) :
  run w ls (initial f t0) = Some s ->
  configLoaded (mainpc s) = true ->
  run w ls' s = Some s' ->
  config (sys s') = config (sys s) /\ fs (sys s') = fs (sys s) /\
  configLoaded (mainpc s') = true.
Proof.
  intros Hreach Hl Hrun.
  pose proof (logOut_after_load f t0 ls s Hreach Hl) as Hout.
  assert (H : config (sys s') = config (sys s) /\
              fs (sys s') = fs (sys s) /\
              configLoaded (mainpc s') = true /\
              logOut (sys s') = [Stdout (stdoutWorks w); ClosedFile]).
  { apply (run_invariant w
             (fun x => config (sys x) = config (sys s) /\
                       fs (sys x) = fs (sys s) /\
                       configLoaded (mainpc x) = true /\
                       logOut (sys x) = [Stdout (stdoutWorks w); ClosedFile])
             (fun _ => true)) with (ls := ls') (s := s); auto.
    - intros l x x' _ (Hc & Hf & Hlx & Ho) Hstep.
      destruct (step_config w l x x' Hstep Hlx) as [Hc' Hlx'].
      destruct (step_clock_fs l x x' Hstep) as [_ Hf'].
      destruct (Hf' Hlx Ho) as [Hf1 Ho1].
      repeat split; try congruence.
    - clear. induction ls'; cbn; auto. }
  tauto.
Qed.

(** X5. When the service log cannot be opened, [Execute] returns
    (false, 1) at once: in every run no status is ever reported, not even
    StartPending, nothing is logged, no file is touched, the configuration
    is not loaded and the timer goroutine is never started. *)
Theorem unopenable_service_log_is_silent
        (f : FS) (t0 : Z) (ls : list Label) (s : Process) :
  serviceLogPath ∈ noWrite f ->
  run w ls (initial f t0) = Some s ->
  statuses s = [] /\
  sys s = sys (initial f t0) /\
  timerpc s = G_NotStarted /\
  (mainpc s = M_OpenLog \/ mainpc s = M_Returned false 1) /\
  step w LMain (initial f t0)
  = Some (setMain (M_Returned false 1) (initial f t0)).
Proof.
  intros Hno Hrun.
  assert (Hopen : openAppend serviceLogPath f = None).
  { unfold openAppend. destruct (decide (serviceLogPath ∈ noWrite f));
      [reflexivity | contradiction]. }
  assert (H : statuses s = [] /\ sys s = sys (initial f t0) /\
              timerpc s = G_NotStarted /\
              (mainpc s = M_OpenLog \/ mainpc s = M_Returned false 1)).
  { apply (run_invariant w
             (fun x => statuses x = [] /\ sys x = sys (initial f t0) /\
                       timerpc x = G_NotStarted /\
                       (mainpc x = M_OpenLog \/ mainpc x = M_Returned false 1))
             (fun _ => true)) with (ls := ls) (s := initial f t0); auto.
    - intros l x x' _ (Hst & Hsys & Htp & Hpc) Hstep. unfold step in Hstep.
      destruct (exited x); [discriminate |].
      destruct l.
      + destruct (0 <? dt); inversion Hstep; subst; cbn; auto.
      + unfold mainStep in Hstep.
        destruct Hpc as [Epc | Epc]; rewrite Epc in Hstep; [| discriminate].
        rewrite Hsys in Hstep. cbn [sys initial fs] in Hstep.
        rewrite Hopen in Hstep. inversion Hstep; subst. cbn. auto.
      + destruct Hpc as [Epc | Epc]; rewrite Epc in Hstep; discriminate.
      + destruct Hpc as [Epc | Epc]; rewrite Epc in Hstep; discriminate.
      + unfold timerStep in Hstep. rewrite Htp in Hstep. discriminate.
      + rewrite Htp in Hstep. discriminate.
      + rewrite Htp in Hstep. discriminate.
      + rewrite Htp in Hstep. discriminate.
      + destruct Hpc as [Epc | Epc]; rewrite Epc in Hstep; [discriminate |].
        inversion Hstep; subst. cbn. auto.
    - clear. induction ls; cbn; auto. }
  destruct H as (H1 & H2 & H3 & H4). repeat split; auto.
  unfold step, mainStep. cbn [exited initial mainpc sys fs].
  rewrite Hopen. reflexivity.
Qed.

(** X6. When [loadConfig] fails inside [Execute], the process ends there
    with status 1 and the failure as the last line logged: StartPending is
    the only status reported, Running never is, the timer goroutine is not
    started and the shutdown command is not run. The files, the logger and
    the global [config] are in the state in which [loadConfig] left
    them. *)
Theorem config_load_failure_ends_startup
        (f : FS) (t0 : Z) (ls : list Label) (s : Process)
        (x : Sys) (msg : string) :
  run w ls (initial f t0) = Some s ->
  exited s = None ->
  mainpc s = M_LoadConfig ->
  loadConfig w (sys s) = (x, Fatal msg) ->
  exists s',
    step w LMain s = Some s' /\
    exited s' = Some 1 /\
    List.last (logged (sys s')) (Println EmptyString) = Fatalf msg /\
    statuses s' = [startPending] /\
    timerpc s' = G_NotStarted /\
    rebootCalls s' = 0%nat /\
    sys s' = x /\
    forall l, step w l s' = None.
Proof.
  intros Hrun Hex Epc Hload.
  pose proof (reachable_Inv w f t0 ls s Hrun) as HI.
  pose proof (inv_reported s HI) as Hr. rewrite Epc in Hr. cbn in Hr.
  pose proof (inv_not_started s HI) as Hns. rewrite Epc in Hns.
  specialize (Hns eq_refl).
  pose proof (inv_calls s HI) as Hc. rewrite Hns in Hc.
  pose proof (loadConfig_shutdownRuns w (sys s)) as Hruns.
  rewrite Hload in Hruns. cbn in Hruns.
  pose proof (loadConfig_fatal w _ _ _ Hload) as Hlast.
  exists (exit 1 (setSys x s)).
  split.
  { unfold step, mainStep, runM. rewrite Hex, Epc, Hload. reflexivity. }
  cbn. unfold rebootCalls in *. cbn.
  repeat split; auto; try congruence.
Qed.

End ExecuteFrame.

Section NoEarlyReboot.
Import GoInt Calendar Zone GoTime Sys Reboot Service Plan.

Variable w : World.

Lemma timeAt_unixNano t : unixNano (timeAt w t) = t.
Proof.
  unfold unixNano, timeAt, nanosPerSecond. cbn [unixSec nsec].
  pose proof (Z.div_mod t 1000000000). lia.
Qed.

Lemma sat64_lower z : z <= maxInt64 -> z <= sat64 z.
Proof.
  unfold sat64, minInt64, maxInt64. intros H.
  destruct (Z.ltb_spec z (- 2 ^ 63)); [lia |].
  destruct (Z.ltb_spec (2 ^ 63 - 1) z); lia.
Qed.

Lemma timerDeadline_bound now d tc :
  tc <= now -> tc + d <= timerDeadline now d.
Proof.
  unfold timerDeadline. intros H. destruct (Z.leb_spec d 0); lia.
Qed.

Lemma plannedWait_Some c tc d :
  plannedWait w c tc = Some d ->
  exists hour min,
    parseClock (At c) = Some (hour, min) /\
    d = sat64 (unixNano (restartDateTime c (timeAt w tc) hour min) - tc).
Proof.
  unfold plannedWait.
  destruct (parseClock (At c)) as [[hour min] |]; [| discriminate].
  intros H. exists hour, min. split; [reflexivity |].
  assert (E : Sub (restartDateTime c (timeAt w tc) hour min) (timeAt w tc) = d)
    by congruence.
  rewrite <- E. unfold Sub. rewrite timeAt_unixNano. reflexivity.
Qed.

Lemma planInv_initial f t0 : planInv w t0 (initial f t0).
Proof. unfold planInv. cbn. split; [lia | exact I]. Qed.

(** Every step keeps [planInv]. *)
Lemma step_planInv t0 l s s' :
  Inv s -> planInv w t0 s -> step w l s = Some s' -> planInv w t0 s'.
Proof.
  intros HI [Ht HP] Hstep. unfold waitElapsed in HP.
  destruct (step_clock_fs w l s s' Hstep) as [Hclk _].
  pose proof (step_timer w l s s' Hstep) as T.
  assert (Hcfg : timerpc s <> G_NotStarted ->
                 config (sys s') = config (sys s)).
  { intros Hn. destruct (goStarted (mainpc s)) eqn:Hgo.
    - apply (step_config w l s s' Hstep).
      unfold configLoaded. destruct (mainpc s); auto.
    - elim Hn. exact (inv_not_started s HI Hgo). }
  assert (Hsame : timerpc s' = timerpc s -> planInv w t0 s').
  { intros E. unfold planInv, waitElapsed. split; [lia |]. rewrite E.
    destruct (timerpc s) eqn:Etp; auto;
      rewrite Hcfg by discriminate.
    - destruct HP as (tc & Hb & Hp). exists tc. split; [lia | exact Hp].
    - destruct HP as (tc & Hb & Hp). exists tc. split; [lia | exact Hp].
    - destruct HP as (tc & d & Hb & Hp & Hd). exists tc, d.
      split; [lia |]. auto.
    - destruct HP as (tc & d & Hb & Hp & Hd). exists tc, d.
      split; [lia |]. split; [exact Hp | lia].
    - destruct HP as (tc & d & Hb & Hp & Hd). exists tc, d.
      split; [lia |]. split; [exact Hp | lia]. }
  destruct l; try (apply Hsame; exact T); unfold planInv, waitElapsed.
  - (* LMain *)
    destruct T as [T | [_ T]]; [apply Hsame; exact T |].
    split; [lia |]. rewrite T. exact I.
  - (* LTimer *)
    unfold step in Hstep. destruct (exited s); [discriminate |].
    unfold timerStep in Hstep.
    destruct (timerpc s) eqn:Etp; try contradiction.
    + unfold runM in Hstep.
      destruct (parseClock (At (config (sys s)))) as [[hour min] |] eqn:Ep.
      * rewrite (calculateSleepDuration_ok _ _ _ _ Ep) in Hstep.
        inversion Hstep; subst.
        cbn [clock timerpc sys config setTimer setSys].
        split; [lia |].
        exists (clock s). split; [lia |].
        unfold plannedWait. rewrite Ep. reflexivity.
      * rewrite (calculateSleepDuration_fatal _ _ Ep) in Hstep.
        inversion Hstep; subst.
        cbn [clock timerpc sys config setTimer setSys exit addLog].
        split; [lia |]. rewrite Etp. exact I.
    + inversion Hstep; subst.
      cbn [clock timerpc sys config setTimer setSys addLog].
      split; [lia |].
      destruct HP as (tc & Hb & Hp). exists tc. auto.
    + inversion Hstep; subst.
      cbn [clock timerpc sys config setTimer setSys].
      split; [lia |].
      destruct HP as (tc & Hb & Hp). exists tc, d.
      split; [exact Hb |]. split; [exact Hp |].
      apply timerDeadline_bound. lia.
  - (* LFire *)
    destruct T as (dl & E & Hle & T). rewrite E in HP.
    destruct HP as (tc & d & Hb & Hp & Hd).
    split; [lia |]. rewrite T. exists tc, d.
    rewrite Hcfg by (rewrite E; discriminate).
    split; [lia |]. split; [exact Hp | lia].
  - (* LTimerDone *)
    destruct T as [T _]. rewrite (inv_done s HI) in T. discriminate.
  - (* LReboot *)
    destruct T as (E & T & _). rewrite E in HP.
    destruct HP as (tc & d & Hb & Hp & Hd).
    split; [lia |]. rewrite T. exists tc, d.
    rewrite Hcfg by (rewrite E; discriminate).
    split; [lia |]. split; [exact Hp | lia].
Qed.

(** X2. The shutdown command is never run early. In every run, once
    [reboot()] has been reached, some call of [calculateSleepDuration] made
    since the start returned a duration that has wholly elapsed since that
    call; and unless the fire time lay beyond the range of a Duration, the
    clock has reached the fire time that call computed. *)
Theorem no_reboot_before_the_wait_is_over
        (f : FS) (t0 : Z) (ls : list Label) (s : Process) :
  run w ls (initial f t0) = Some s ->
  timerpc s = G_Reboot \/ (0 < rebootCalls s)%nat ->
  exists tc d hour min,
    t0 <= tc <= clock s /\
    parseClock (At (config (sys s))) = Some (hour, min) /\
    plannedWait w (config (sys s)) tc = Some d /\
    tc + d <= clock s /\
    (unixNano (restartDateTime (config (sys s)) (timeAt w tc) hour min) - tc
     <= maxInt64 ->
     unixNano (restartDateTime (config (sys s)) (timeAt w tc) hour min)
     <= clock s).
Proof.
  intros Hrun Hr.
  assert (H : Inv s /\ planInv w t0 s).
  { apply (run_invariant w (fun x => Inv x /\ planInv w t0 x) (fun _ => true))
      with (ls := ls) (s := initial f t0); auto.
    - intros l x x' _ [HIx HPx] Hstep.
      split; [eapply step_Inv; eauto | eapply step_planInv; eauto].
    - clear. induction ls; cbn; auto.
    - split; [apply Inv_initial | apply planInv_initial]. }
  destruct H as [HI [_ HP]].
  assert (Hw : waitElapsed w t0 s).
  { destruct Hr as [E | Hpos].
    - rewrite E in HP. exact HP.
    - rewrite (inv_calls s HI) in Hpos.
      destruct (timerpc s); try lia. exact HP. }
  destruct Hw as (tc & d & Hb & Hp & Hd).
  destruct (plannedWait_Some _ _ _ Hp) as (hour & min & Ep & Ed).
  exists tc, d, hour, min.
  split; [exact Hb |]. split; [exact Ep |].
  split; [exact Hp |]. split; [exact Hd |].
  intros Hfit. pose proof (sat64_lower _ Hfit) as Hs. lia.
Qed.

End NoEarlyReboot.

(** ** More on [loadConfig] *)

Section LoadConfigFacts.
Import Sys Reboot.

Variable w : World.

Lemma openAppend_keeps path f f' :
  openAppend path f = Some f' ->
  noWrite f' = noWrite f /\ noRead f' = noRead f /\
  (forall p data, files f !! p = Some data -> files f' !! p = Some data) /\
  (forall p, p <> path -> files f' !! p = files f !! p) /\
  is_Some (files f' !! path).
Proof.
  unfold openAppend. intros H.
  destruct (decide (path ∈ noWrite f)); [discriminate |].
  injection H as <-. cbn.
  destruct (files f !! path) as [d |] eqn:E.
  - repeat split; auto; rewrite ?E; eauto.
  - repeat split; auto.
    + intros p data Hp. destruct (decide (path = p)) as [-> | Hne].
      * congruence.
      * rewrite lookup_insert_ne by exact Hne. exact Hp.
    + intros p Hne. apply lookup_insert_ne. congruence.
    + rewrite lookup_insert_eq. eauto.
Qed.

(** X9. Whether it succeeds or ends in [log.Fatalf], [loadConfig] never
    changes the text of a file that exists and never removes one, creates
    no file other than the log file and [config.yaml], and runs no shutdown
    command. What it logs after opening its log file is added, in order, at
    the end of that file when standard output takes it, and nowhere when it
    does not; the lines already in the file stay. No other file receives a
    line, unless the logger was writing to it before the call. *)
Theorem loadConfig_only_creates_its_two_files (s : Sys) :
  let s' := fst (loadConfig w s) in
  (forall p data, files (fs s) !! p = Some data ->
                  files (fs s') !! p = Some data) /\
  (forall p, p <> logFilePath -> p <> configPath ->
             files (fs s') !! p = files (fs s) !! p) /\
  (forall p, is_Some (files (fs s) !! p) -> p <> logFilePath ->
             ~ In (LogFile p) (logOut s) ->
             journal (fs s') p = journal (fs s) p) /\
  ((logFilePath ∉ noWrite (fs s)) ->
   exists ls, logged s' = logged s ++ ls /\
              journal (fs s') logFilePath
              = journal (fs s) logFilePath
                ++ (if stdoutWorks w then ls else [])) /\
  noWrite (fs s') = noWrite (fs s) /\
  noRead (fs s') = noRead (fs s) /\
  shutdownRuns s' = shutdownRuns s.
Proof.
  cbv zeta.
  split; [| split; [| split; [| split; [| split; [| split]]]]];
    try apply loadConfig_shutdownRuns.
  all: rewrite loadConfig_cases; cbv zeta.
  all: destruct (openAppend logFilePath (fs s)) as [f1 |] eqn:Hopen.
  (* the log file cannot be opened: one line to the output as it was *)
  all: try (cbn [fst]; unfold addLog; cbn [fs logged];
            destruct (writeLog_frame (logOut s)
                        (Fatalf "Failed to open log file") (fs s))
              as (W1 & W2 & W3);
            first
              [ rewrite W1; now auto
              | rewrite W2; reflexivity
              | rewrite W3; reflexivity
              | intros p _ _ Hno;
                destruct (writeLog_journal (logOut s)
                            (Fatalf "Failed to open log file") p (fs s))
                  as (more & E & Hm);
                rewrite E, (Hm Hno), app_nil_r; reflexivity
              | intros Hw; exfalso; unfold openAppend in Hopen;
                destruct (decide (logFilePath ∈ noWrite (fs s)));
                [contradiction | discriminate] ]).
  (* the log file is open *)
  all: destruct (openAppend_keeps _ _ _ Hopen)
         as (Hnw & Hnr & Hkeep & Hoth & _).
  all: destruct (openAppend_config _ _ Hopen) as (Hcfg & Happ & _ & _).
  all: assert (Hj : forall p, journal f1 p = journal (fs s) p)
         by (intros p; unfold journal; rewrite Happ; reflexivity).
  all: unfold isNotExist, writeFile, readFile.
  all: destruct (files f1 !! configPath) as [d |] eqn:Hd.
  all: try destruct (decide (configPath ∈ noWrite f1)).
  all: cbn [fs setFS setLogOut addLog logOut config logged writeLog noRead
            files].
  all: destruct (stdoutWorks w);
         cbn [appendLine noRead files fs setFS setLogOut addLog logOut
              config];
         try destruct (decide (configPath ∈ noRead f1));
         rewrite ?lookup_insert_eq, ?Hd;
         try destruct (failed (yamlUnmarshal w _));
         cbn [fst fs setFS setLogOut setConfig addLog logOut config logged
              writeLog noRead noWrite files appendLine];
         auto.
  (* texts kept *)
  all: try (intros p data Hp; specialize (Hkeep p data Hp);
            destruct (decide (configPath = p)) as [<- | Hne];
            [congruence | rewrite lookup_insert_ne by exact Hne; exact Hkeep]).
  (* nothing else created *)
  all: try (intros p Hl Hc; rewrite lookup_insert_ne by congruence;
            apply Hoth; congruence).
  (* journals of other files *)
  all: try (intros p Hex Hl _;
            assert (Hpc : p <> configPath)
              by (intros ->; rewrite <- Hcfg in Hex;
                  destruct Hex; discriminate);
            rewrite ?appendLine_journal;
            repeat match goal with
                   | |- context [decide (logFilePath = p)] =>
                       destruct (decide (logFilePath = p)); [congruence |]
                   end;
            unfold journal; cbn [appended];
            rewrite ?lookup_delete_ne by congruence;
            fold (journal f1 p); rewrite ?Hj; reflexivity).
  all: try (intros p Hex Hl _;
            rewrite ?appendLine_journal;
            repeat match goal with
                   | |- context [decide (logFilePath = p)] =>
                       destruct (decide (logFilePath = p)); [congruence |]
                   end;
            rewrite ?Hj; reflexivity).
  (* the journal of the log file *)
  all: try (intros _; eexists; split;
            [ rewrite <- ?app_assoc; reflexivity
            | rewrite ?appendLine_journal;
              repeat match goal with
                     | |- context [decide (logFilePath = logFilePath)] =>
                         destruct (decide (logFilePath = logFilePath));
                         [| congruence]
                     end;
              unfold journal; cbn [appended];
              rewrite ?lookup_delete_ne
                by (symmetry; exact logFilePath_not_configPath);
              fold (journal f1 logFilePath); rewrite ?Hj;
              rewrite <- ?app_assoc, ?app_nil_r; reflexivity ]).
  (* nothing was logged *)
  all: intros _; exists []; rewrite !app_nil_r; split;
         [reflexivity | apply Hj].
Qed.

(** X10. A second [loadConfig] finds both of its files in place: after a
    call that succeeded, another call leaves the file system exactly as it
    is, does not fail on opening, creating or reading a file, and logs
    nothing when it succeeds. *)
Theorem loadConfig_twice_leaves_the_disk (s s1 : Sys) :
  loadConfig w s = (s1, Ok tt) ->
  fs (fst (loadConfig w s1)) = fs s1 /\
  (snd (loadConfig w s1) = Ok tt \/
   snd (loadConfig w s1) = Fatal "Failed to parse config file") /\
  (snd (loadConfig w s1) = Ok tt ->
   logged (fst (loadConfig w s1)) = logged s1).
Proof.
  intros H1.
  assert (Hfacts : (logFilePath ∉ noWrite (fs s1)) /\
                   (configPath ∉ noRead (fs s1)) /\
                   is_Some (files (fs s1) !! logFilePath) /\
                   exists data, files (fs s1) !! configPath = Some data /\
                                failed (yamlUnmarshal w data) = false).
  { revert H1. rewrite loadConfig_cases. cbv zeta.
    destruct (openAppend logFilePath (fs s)) as [f1 |] eqn:Hopen;
      [| discriminate].
    destruct (openAppend_keeps _ _ _ Hopen) as (Hnw & Hnr & Hkeep & Hoth & Hlog).
    assert (Hw : logFilePath ∉ noWrite f1).
    { rewrite Hnw. unfold openAppend in Hopen.
      destruct (decide (logFilePath ∈ noWrite (fs s))); [discriminate | auto]. }
    unfold isNotExist, writeFile, readFile.
    destruct (files f1 !! configPath) as [d |] eqn:Hcfg.
    - cbn [fs setFS setLogOut].
      destruct (decide (configPath ∈ noRead f1)); [discriminate |].
      rewrite Hcfg.
      destruct (failed (yamlUnmarshal w d)) eqn:Hf; [discriminate |].
      intros E. injection E as <-. cbn [fs setLogOut setConfig setFS].
      eauto 10.
    - destruct (decide (configPath ∈ noWrite f1)); [discriminate |].
      cbn [fs setFS setLogOut addLog logOut writeLog].
      destruct (stdoutWorks w); cbn [appendLine noRead files];
        (destruct (decide (configPath ∈ noRead f1)); [discriminate |]);
        rewrite lookup_insert_eq;
        (destruct (failed (yamlUnmarshal w defaultConfig)) eqn:Hf;
         [discriminate |]);
        intros E; injection E as <-;
        cbn [fs setLogOut setConfig setFS addLog logOut writeLog appendLine
             noRead noWrite files];
        rewrite lookup_insert_eq;
        rewrite lookup_insert_ne
          by (symmetry; exact logFilePath_not_configPath);
        eauto 10. }
  destruct Hfacts as (Hw & Hr & [dl Hl] & (dc & Hc & Hok)).
  assert (Hopen : openAppend logFilePath (fs s1) = Some (fs s1)).
  { unfold openAppend.
    destruct (decide (logFilePath ∈ noWrite (fs s1))); [contradiction |].
    rewrite Hl. destruct (fs s1). reflexivity. }
  rewrite loadConfig_cases, Hopen. cbv zeta.
  unfold isNotExist, readFile. rewrite Hc. cbn [fs setFS setLogOut].
  destruct (decide (configPath ∈ noRead (fs s1))); [contradiction |].
  rewrite Hc, Hok. cbn. auto.
Qed.

(** X11. Why [loadConfig] fails, in the order the code tries things: the
    log file cannot be opened; else [config.yaml] is absent and cannot be
    created; else it cannot be read; else the decoder rejects its text (the
    default text when the file was absent). The global [config] is left
    as it was when a file operation fails; once [yaml.Unmarshal] is
    reached it holds what that stored, also when the decoder returns an
    error. *)
Theorem loadConfig_failure_causes (s : Sys) :
  let data := match files (fs s) !! configPath with
              | Some d => d
              | None => defaultConfig
              end in
  snd (loadConfig w s)
  = (if decide (logFilePath ∈ noWrite (fs s))
     then Fatal "Failed to open log file"
     else if isNotExist configPath (fs s)
             && bool_decide (configPath ∈ noWrite (fs s))
     then Fatal "Failed to create default config file"
     else if decide (configPath ∈ noRead (fs s))
     then Fatal "Failed to read config file"
     else if failed (yamlUnmarshal w data)
     then Fatal "Failed to parse config file"
     else Ok tt) /\
  config (fst (loadConfig w s))
  = (if bool_decide (logFilePath ∈ noWrite (fs s))
        || (isNotExist configPath (fs s)
            && bool_decide (configPath ∈ noWrite (fs s)))
        || bool_decide (configPath ∈ noRead (fs s))
     then config s
     else stores (yamlUnmarshal w data) (config s)).
Proof.
  cbv zeta. rewrite loadConfig_cases. cbv zeta.
  destruct (openAppend logFilePath (fs s)) as [f1 |] eqn:Hopen.
  2: { unfold openAppend in Hopen.
       destruct (decide (logFilePath ∈ noWrite (fs s))) as [Hin | ];
         [| discriminate].
       rewrite (bool_decide_eq_true_2 _ Hin). split; reflexivity. }
  destruct (openAppend_other _ configPath _ _ logFilePath_not_configPath Hopen)
    as (Hfiles & Hnw & Hnr).
  destruct (decide (logFilePath ∈ noWrite (fs s))) as [Hin | Hnin].
  { unfold openAppend in Hopen.
    destruct (decide (logFilePath ∈ noWrite (fs s))); [discriminate |].
    contradiction. }
  rewrite (bool_decide_eq_false_2 _ Hnin). cbn [orb].
  unfold isNotExist, writeFile, readFile. rewrite Hfiles, Hnw.
  destruct (files (fs s) !! configPath) as [d |] eqn:Hcfg.
  - cbn [andb orb fs setFS setLogOut]. rewrite Hnr, Hfiles.
    destruct (decide (configPath ∈ noRead (fs s))) as [Hr | Hr].
    + rewrite (bool_decide_eq_true_2 _ Hr). split; reflexivity.
    + rewrite (bool_decide_eq_false_2 _ Hr).
      destruct (failed (yamlUnmarshal w d)); split; reflexivity.
  - cbn [andb].
    destruct (decide (configPath ∈ noWrite (fs s))) as [Hin | Hnw'].
    + rewrite (bool_decide_eq_true_2 _ Hin). split; reflexivity.
    + rewrite (bool_decide_eq_false_2 _ Hnw'). cbn [orb].
      cbn [fs setFS setLogOut addLog logOut writeLog].
      destruct (stdoutWorks w); cbn [appendLine noRead files];
        rewrite Hnr;
        (destruct (decide (configPath ∈ noRead (fs s))) as [Hr | Hr];
         [ rewrite (bool_decide_eq_true_2 _ Hr); split; reflexivity
         | rewrite (bool_decide_eq_false_2 _ Hr) ]);
        rewrite lookup_insert_eq;
        destruct (failed (yamlUnmarshal w defaultConfig)); split; reflexivity.
Qed.

End LoadConfigFacts.

(** ** More on the wait: its size, and the values accepted for [at] *)

Section WaitFacts.
Import GoInt Calendar Zone GoTime Sys Reboot Service Plan.

Variable w : World.

Lemma timeAt_clockOfDay t :
  0 <= clockOfDay (timeAt w t) < secondsPerDay * nanosPerSecond.
Proof.
  unfold clockOfDay, secondsPerDay, nanosPerSecond.
  assert (H1 : 0 <= wallOf (timeAt w t) mod 86400 < 86400)
    by (apply Z.mod_pos_bound; lia).
  assert (H2 : 0 <= nsec (timeAt w t) < 1000000000)
    by (unfold timeAt, nanosPerSecond; cbn [nsec]; apply Z.mod_pos_bound; lia).
  lia.
Qed.

(** The wait in closed form, and its bounds. *)
Lemma planned_wait_within_a_day (c : Config) (t hour min : Z) :
  let now := timeAt w t in
  let day := secondsPerDay * nanosPerSecond in
  parseClock (At c) = Some (hour, min) ->
  -100000 <= AfterDays c <= 100000 ->
  dateOffset (Local w) (restartWall c now hour min)
  = offsetAt (Local w) (unixSec now) ->
  dateFits (Local w) (restartWall c now hour min) ->
  exists d,
    plannedWait w c t = Some d /\
    d = (AfterDays c * secondsPerDay + hour * secondsPerHour
         + min * secondsPerMinute) * nanosPerSecond - clockOfDay now /\
    (AfterDays c - 1) * day < d < (AfterDays c + 1) * day.
Proof.
  intros now day Ep Hk Hoff Hfit.
  destruct (parseClock_range _ _ _ Ep) as [Hh Hm].
  destruct (fields_of_now now) as (_ & _ & Hday).
  pose proof (timeAt_clockOfDay t) as Hc. fold now in Hc.
  assert (Hr : inInt64 (Day now + AfterDays c))
    by (unfold inInt64, minInt64, maxInt64; lia).
  pose proof (fire_time_distance c now hour min Ep Hr Hfit Hoff) as Hdist.
  set (d := (AfterDays c * secondsPerDay + hour * secondsPerHour
             + min * secondsPerMinute) * nanosPerSecond - clockOfDay now)
    in *.
  assert (Hb : (AfterDays c - 1) * day < d < (AfterDays c + 1) * day).
  { unfold d, day, secondsPerDay, secondsPerHour, secondsPerMinute,
      nanosPerSecond in *. lia. }
  exists d. split.
  - unfold plannedWait. rewrite Ep. unfold Sub. fold now. rewrite Hdist.
    rewrite sat64_in_range; [reflexivity |].
    unfold inInt64, minInt64, maxInt64, day, secondsPerDay, nanosPerSecond in *.
    lia.
  - split; [reflexivity | exact Hb].
Qed.

(** X12. Where the local clock is not changed between now and the fire
    time, the wait computed for a delay of [k] days (up to 100000 either
    way) is [k] days plus the distance from the present time of day to the
    configured one: it lies strictly between [k - 1] and [k + 1] days, so
    it is positive for every delay of a day or more and negative for every
    negative delay. The reading of the clock is one for which [time.Date]
    does not wrap around ([dateFits], which holds within 10^12 seconds of
    1970 by [dateFits_ordinary]). *)
Theorem wait_is_within_a_day_of_the_delay
        (s : Sys) (t hour min : Z) :
  let now := timeAt w t in
  let k := AfterDays (config s) in
  let day := secondsPerDay * nanosPerSecond in
  parseClock (At (config s)) = Some (hour, min) ->
  -100000 <= k <= 100000 ->
  dateOffset (Local w) (restartWall (config s) now hour min)
  = offsetAt (Local w) (unixSec now) ->
  dateFits (Local w) (restartWall (config s) now hour min) ->
  exists d,
    calculateSleepDuration now s = (s, Ok d) /\
    d = (k * secondsPerDay + hour * secondsPerHour
         + min * secondsPerMinute) * nanosPerSecond - clockOfDay now /\
    (k - 1) * day < d < (k + 1) * day /\
    (1 <= k -> 0 < d) /\
    (k <= -1 -> d < 0).
Proof.
  intros now k day Ep Hk Hoff Hfit.
  destruct (planned_wait_within_a_day (config s) t hour min Ep Hk Hoff Hfit)
    as (d & Hp & Hd & Hb).
  exists d. fold now k day in Hb. fold now k in Hd.
  split.
  - rewrite (calculateSleepDuration_ok now s hour min Ep).
    unfold plannedWait in Hp. rewrite Ep in Hp.
    assert (E : Sub (restartDateTime (config s) now hour min) now = d)
      by (unfold now; congruence).
    rewrite E. reflexivity.
  - split; [exact Hd |]. split; [exact Hb |].
    unfold day, secondsPerDay, nanosPerSecond in *. split; intros; lia.
Qed.

(** A wait of zero or less: the goroutine arms a timer that is due at
    once, takes the timer branch and calls [reboot()], the clock
    standing still. *)
Lemma nonpositive_wait_fires_at_once (s : Process) (d : Z) (ok : bool) :
  exited s = None ->
  timerpc s = G_Calc ->
  plannedWait w (config (sys s)) (clock s) = Some d ->
  d <= 0 ->
  exists s',
    run w [LTimer; LTimer; LTimer; LFire; LReboot ok] s = Some s' /\
    clock s' = clock s /\
    rebootCalls s' = S (rebootCalls s).
Proof.
  intros Hex Etp Hp Hd.
  assert (Hcalc : calculateSleepDuration (timeNow w s) (sys s)
                  = (sys s, Ok d)).
  { unfold plannedWait in Hp.
    destruct (parseClock (At (config (sys s)))) as [[hour min] |] eqn:Ep;
      [| discriminate].
    rewrite (calculateSleepDuration_ok _ _ _ _ Ep).
    assert (E : Sub (restartDateTime (config (sys s)) (timeAt w (clock s))
                                     hour min) (timeAt w (clock s)) = d)
      by congruence.
    rewrite <- E. reflexivity. }
  cbn [run].
  unfold step at 1. rewrite Hex. unfold timerStep, runM. rewrite Etp.
  rewrite Hcalc.
  unfold step at 1. cbn [exited setTimer setSys timerpc]. rewrite Hex.
  unfold timerStep. cbn [timerpc setTimer setSys].
  unfold step at 1. cbn [exited setTimer setSys timerpc]. rewrite Hex.
  unfold timerStep. cbn [timerpc setTimer setSys clock].
  unfold timerDeadline. destruct (Z.leb_spec d 0); [| lia].
  unfold step at 1. cbn [exited setTimer setSys timerpc clock]. rewrite Hex.
  destruct (Z.leb_spec (clock s) (clock s)); [| lia].
  unfold step at 1. cbn [exited setTimer setSys timerpc clock]. rewrite Hex.
  rewrite runM_reboot.
  eexists. split; [reflexivity |]. destruct ok; split; reflexivity.
Qed.

(** X13. A negative delay reboots at once: with [after_days] below zero
    (and the local clock not changed between the two dates) the timer
    created at line 117 is due immediately, and the goroutine goes on to
    [reboot()] with no time passing. The reading of the clock is one for
    which [time.Date] does not wrap around ([dateFits]). *)
Theorem negative_delay_reboots_at_once
        (s : Process) (hour min : Z) (ok : bool) :
  let now := timeNow w s in
  exited s = None ->
  timerpc s = G_Calc ->
  parseClock (At (config (sys s))) = Some (hour, min) ->
  -100000 <= AfterDays (config (sys s)) <= -1 ->
  dateOffset (Local w) (restartWall (config (sys s)) now hour min)
  = offsetAt (Local w) (unixSec now) ->
  dateFits (Local w) (restartWall (config (sys s)) now hour min) ->
  exists d s',
    plannedWait w (config (sys s)) (clock s) = Some d /\
    d < 0 /\
    run w [LTimer; LTimer; LTimer; LFire; LReboot ok] s = Some s' /\
    clock s' = clock s /\
    rebootCalls s' = S (rebootCalls s).
Proof.
  intros now Hex Etp Ep Hk Hoff Hfit.
  assert (Hk' : -100000 <= AfterDays (config (sys s)) <= 100000) by lia.
  destruct (planned_wait_within_a_day (config (sys s)) (clock s)
              hour min Ep Hk' Hoff Hfit) as (d & Hp & _ & Hb).
  assert (Hneg : d < 0)
    by (unfold secondsPerDay, nanosPerSecond in Hb; lia).
  assert (Hle : d <= 0) by lia.
  destruct (nonpositive_wait_fires_at_once s d ok Hex Etp Hp Hle)
    as (s' & Hr & Hc & Hn).
  exists d, s'. auto.
Qed.

End WaitFacts.

Section AcceptedTimes.
Import GoInt Calendar Zone GoTime Sys Reboot.

Lemma isDigit_digitVal c : isDigit c = true -> 0 <= digitVal c <= 9.
Proof.
  unfold isDigit, digitVal. intros H. apply andb_prop in H as [H1 H2].
  apply Z.leb_le in H1, H2. lia.
Qed.

Lemma getnum_two a b rest fixed :
  isDigit a = true -> isDigit b = true ->
  getnum (String a (String b rest)) fixed
  = Some (digitVal a * 10 + digitVal b, rest).
Proof. intros Ha Hb. unfold getnum. rewrite Ha, Hb. reflexivity. Qed.

Lemma getnum_one a b rest :
  isDigit a = true -> isDigit b = false ->
  getnum (String a (String b rest)) false = Some (digitVal a, String b rest).
Proof. intros Ha Hb. unfold getnum. rewrite Ha, Hb. reflexivity. Qed.

Lemma getnum_fixed_Some s n rest :
  getnum s true = Some (n, rest) ->
  exists c d, s = String c (String d rest) /\
              isDigit c = true /\ isDigit d = true /\
              n = digitVal c * 10 + digitVal d.
Proof.
  unfold getnum. destruct s as [| c [| d s']]; try discriminate.
  - destruct (isDigit c); discriminate.
  - destruct (isDigit c) eqn:Hc; [| discriminate].
    destruct (isDigit d) eqn:Hd; [| discriminate].
    intros H. injection H as <- <-. eauto 10.
Qed.

(** X14. The values of [at] that [calculateSleepDuration] accepts are
    exactly H:MM and HH:MM in decimal digits with an hour below 24 and a
    minute below 60; the hour may have one digit, the minute must have two,
    and nothing may come before or after. Every other value ends in the
    [log.Fatalf] of line 65. *)
Theorem accepted_times_of_day (s : Sys) (now : Time) :
  (exists d, calculateSleepDuration now s = (s, Ok d)) <->
  (exists a c d,
      At (config s) = String a (String ":" (String c (String d EmptyString)))
      /\ isDigit a = true /\ isDigit c = true /\ isDigit d = true
      /\ digitVal c * 10 + digitVal d < 60) \/
  (exists a b c d,
      At (config s)
      = String a (String b (String ":" (String c (String d EmptyString))))
      /\ isDigit a = true /\ isDigit b = true
      /\ isDigit c = true /\ isDigit d = true
      /\ digitVal a * 10 + digitVal b < 24
      /\ digitVal c * 10 + digitVal d < 60).
Proof.
  assert (Hcolon : isDigit ":" = false) by reflexivity.
  split.
  - intros [d0 Hcalc].
    destruct (parseClock (At (config s))) as [[hour min] |] eqn:Ep.
    2: { rewrite (calculateSleepDuration_fatal now s Ep) in Hcalc.
         discriminate. }
    clear Hcalc. revert Ep. generalize (At (config s)). intros v.
    unfold parseClock.
    destruct v as [| a [| b v2]].
    + discriminate.
    + unfold getnum. destruct (isDigit a); discriminate.
    + destruct (isDigit a) eqn:Ha.
      2: { unfold getnum. rewrite Ha. discriminate. }
      destruct (isDigit b) eqn:Hb.
      * rewrite (getnum_two a b v2 false Ha Hb).
        destruct v2 as [| c0 v3]; [discriminate |].
        destruct ((digitVal a * 10 + digitVal b <? 0)
                  || (24 <=? digitVal a * 10 + digitVal b)) eqn:Hh;
          [discriminate |].
        destruct (Ascii.eqb_spec c0 ":") as [-> | Hne]; [| discriminate].
        cbn [negb].
        destruct (getnum v3 true) as [[m [| x y]] |] eqn:Hg; try discriminate.
        destruct ((m <? 0) || (60 <=? m)) eqn:Hm; [discriminate |].
        intros _.
        destruct (getnum_fixed_Some _ _ _ Hg) as (c & d & -> & Hc & Hd & ->).
        apply orb_false_elim in Hh as [_ Hh]. apply orb_false_elim in Hm as [_ Hm].
        apply Z.leb_gt in Hh, Hm.
        right. exists a, b, c, d. auto 10.
      * rewrite (getnum_one a b v2 Ha Hb).
        destruct ((digitVal a <? 0) || (24 <=? digitVal a)) eqn:Hh;
          [discriminate |].
        destruct (Ascii.eqb_spec b ":") as [-> | Hne]; [| discriminate].
        cbn [negb].
        destruct (getnum v2 true) as [[m [| x y]] |] eqn:Hg; try discriminate.
        destruct ((m <? 0) || (60 <=? m)) eqn:Hm; [discriminate |].
        intros _.
        destruct (getnum_fixed_Some _ _ _ Hg) as (c & d & -> & Hc & Hd & ->).
        apply orb_false_elim in Hm as [_ Hm]. apply Z.leb_gt in Hm.
        left. exists a, c, d. auto 10.
  - intros [(a & c & d & E & Ha & Hc & Hd & Hm)
           | (a & b & c & d & E & Ha & Hb & Hc & Hd & Hh & Hm)].
    + pose proof (isDigit_digitVal a Ha). pose proof (isDigit_digitVal c Hc).
      pose proof (isDigit_digitVal d Hd).
      assert (Ep : parseClock (At (config s))
                   = Some (digitVal a, digitVal c * 10 + digitVal d)).
      { rewrite E. unfold parseClock.
        rewrite (getnum_one a ":" _ Ha Hcolon).
        rewrite (getnum_two c d EmptyString true Hc Hd).
        destruct (Z.ltb_spec (digitVal a) 0); [lia |].
        destruct (Z.leb_spec 24 (digitVal a)); [lia |].
        destruct (Z.ltb_spec (digitVal c * 10 + digitVal d) 0); [lia |].
        destruct (Z.leb_spec 60 (digitVal c * 10 + digitVal d)); [lia |].
        reflexivity. }
      eexists. apply (calculateSleepDuration_ok now s _ _ Ep).
    + pose proof (isDigit_digitVal a Ha). pose proof (isDigit_digitVal b Hb).
      pose proof (isDigit_digitVal c Hc). pose proof (isDigit_digitVal d Hd).
      assert (Ep : parseClock (At (config s))
                   = Some (digitVal a * 10 + digitVal b,
                           digitVal c * 10 + digitVal d)).
      { rewrite E. unfold parseClock.
        rewrite (getnum_two a b _ false Ha Hb).
        rewrite (getnum_two c d EmptyString true Hc Hd).
        destruct (Z.ltb_spec (digitVal a * 10 + digitVal b) 0); [lia |].
        destruct (Z.leb_spec 24 (digitVal a * 10 + digitVal b)); [lia |].
        destruct (Z.ltb_spec (digitVal c * 10 + digitVal d) 0); [lia |].
        destruct (Z.leb_spec 60 (digitVal c * 10 + digitVal d)); [lia |].
        reflexivity. }
      eexists. apply (calculateSleepDuration_ok now s _ _ Ep).
Qed.

End AcceptedTimes.

(** ** Installing and removing the service *)

Section InstallerFacts.
Import Sys Installer.

(** X15. Installing is idempotent: after an install that returned
    normally, another one (with [OpenService] not refused) finds the
    service, logs that it exists and changes neither the service database
    nor the event sources nor the number of open handles. *)
Theorem install_twice_changes_nothing (e : Env) (h h1 : Host) :
  installService e h = (h1, Ok tt) ->
  openFails e = false ->
  exists h2,
    installService e h1 = (h2, Ok tt) /\
    services h2 = services h1 /\
    eventSources h2 = eventSources h1 /\
    handles h2 = handles h1 /\
    hostLog h2 = hostLog h1 ++ [Println "Service already exists."].
Proof.
  intros H1 Hopen.
  assert (Hfacts : exists p, executable e = Some p /\ connectFails e = false /\
                             is_Some (services h1 !! serviceName)).
  { revert H1. unfold installService, mgrConnect, openService, createService,
      eventInstall, fatal.
    destruct (executable e) as [p |]; [| discriminate].
    destruct (connectFails e); [discriminate |].
    rewrite Hopen. cbn [services setHandles].
    destruct (services h !! serviceName) as [entry |] eqn:Es.
    - intros E. injection E as <-. exists p. cbn. rewrite Es. eauto.
    - destruct (createFails e); [discriminate |].
      cbn [services setHandles setServices eventSources].
      destruct (eventInstallFails e).
      { destruct (deleteService e serviceName _); discriminate. }
      destruct (eventSources h !! serviceName).
      { destruct (deleteService e serviceName _); discriminate. }
      intros E. injection E as <-. exists p. cbn.
      rewrite lookup_insert_eq. eauto. }
  destruct Hfacts as (p & Hp & Hc & [entry Hs]).
  unfold installService, mgrConnect, openService.
  rewrite Hp, Hc, Hopen. cbn [services setHandles]. rewrite Hs.
  eexists. split; [reflexivity |]. cbn. auto.
Qed.

(** X16. On a machine that has neither the service nor its event source,
    and with no call refused, [installService] registers the service under
    the path of the running executable with automatic start, registers the
    event source for errors, warnings and information, logs success and
    gives back every handle it opened. *)
Theorem install_on_clean_machine (e : Env) (h : Host) (exePath : string) :
  executable e = Some exePath ->
  connectFails e = false ->
  createFails e = false ->
  eventInstallFails e = false ->
  services h !! serviceName = None ->
  eventSources h !! serviceName = None ->
  exists h',
    installService e h = (h', Ok tt) /\
    services h' = <[serviceName := newEntry exePath]> (services h) /\
    binaryPath (newEntry exePath) = exePath /\
    startType (newEntry exePath) = StartAutomatic /\
    eventSources h' = <[serviceName := 7]> (eventSources h) /\
    handles h' = handles h /\
    hostLog h' = hostLog h ++ [Println "Service installed successfully."].
Proof.
  intros Hp Hc Hcr Hev Hs Hsrc.
  unfold installService, mgrConnect, openService, createService, eventInstall.
  rewrite Hp, Hc, Hcr, Hev. cbn [services setHandles setServices eventSources].
  rewrite Hs.
  destruct (openFails e); cbn [services setHandles setServices eventSources];
    rewrite Hsrc; eexists; (split; [reflexivity |]); cbn; auto 10.
Qed.

(** X17. A failed install leaves no trace in the registries: whenever
    [installService] ends in [log.Fatalf] and the roll-back [s.Delete()] is
    not refused, the service database and the event sources are as they
    were before the call. *)
Theorem failed_install_is_rolled_back (e : Env) (h h' : Host) (msg : string) :
  installService e h = (h', Fatal msg) ->
  deleteFails e = false ->
  services h' = services h /\ eventSources h' = eventSources h.
Proof.
  unfold installService, mgrConnect, openService, createService, eventInstall,
    deleteService, fatal.
  intros H Hdel. rewrite Hdel in H.
  destruct (executable e) as [p |]; [| injection H as <- _; auto].
  destruct (connectFails e); [injection H as <- _; auto |].
  cbn [services setHandles] in H.
  assert (Hback : services h !! serviceName = None ->
                  delete serviceName
                    (<[serviceName := newEntry p]> (services h))
                  = services h).
  { intros Hs. rewrite delete_insert_eq. apply delete_id. exact Hs. }
  destruct (services h !! serviceName) as [entry |] eqn:Hs.
  - (* the service exists: only a refused open leads on, to a create that
       fails *)
    destruct (openFails e); [| discriminate].
    destruct (createFails e); injection H as <- _; auto.
  - assert (H' :
        match
          (if createFails e then None
           else Some (setHandles (S (S (handles h)))
                        (setServices
                           (<[serviceName := newEntry p]> (services h))
                           (setHandles (S (handles h)) h))))
        with
        | Some h1 =>
            match
              (if eventInstallFails e then None
               else match eventSources h1 !! serviceName with
                    | Some _ => None
                    | None =>
                        Some (setEventSources
                                (<[serviceName :=
                                     Z.lor (Z.lor eventError eventWarning)
                                           eventInfo]>
                                   (eventSources h1)) h1)
                    end)
            with
            | Some h2 =>
                (closeHandle
                   (closeHandle
                      (println "Service installed successfully." h2)),
                 Ok tt)
            | None =>
                (hostAddLog (Fatalf "Failed to set up event log source")
                   (setServices (delete serviceName (services h1)) h1),
                 Fatal "Failed to set up event log source")
            end
        | None =>
            (hostAddLog (Fatalf "Failed to create service")
               (setHandles (S (handles h)) h),
             Fatal "Failed to create service")
        end = (h', Fatal msg)).
    { destruct (openFails e); exact H. }
    clear H. destruct (createFails e); [injection H' as <- _; auto |].
    cbn [services setHandles setServices eventSources] in H'.
    destruct (eventInstallFails e).
    { injection H' as <- _. cbn. rewrite Hback by reflexivity. auto. }
    destruct (eventSources h !! serviceName).
    { injection H' as <- _. cbn. rewrite Hback by reflexivity. auto. }
    discriminate.
Qed.

(** X18. Install and uninstall undo each other: on a machine that has
    neither the service nor its event source, with no call refused,
    installing and then uninstalling returns normally both times and
    restores the service database, the event sources and the count of open
    handles. *)
Theorem install_then_uninstall_restores (e : Env) (h : Host) (exePath : string) :
  executable e = Some exePath ->
  connectFails e = false ->
  openFails e = false ->
  createFails e = false ->
  deleteFails e = false ->
  eventInstallFails e = false ->
  eventRemoveFails e = false ->
  services h !! serviceName = None ->
  eventSources h !! serviceName = None ->
  exists h1 h2,
    installService e h = (h1, Ok tt) /\
    uninstallService e h1 = (h2, Ok tt) /\
    services h2 = services h /\
    eventSources h2 = eventSources h /\
    handles h2 = handles h.
Proof.
  intros Hp Hc Ho Hcr Hd Hei Her Hs Hsrc.
  unfold installService, uninstallService, mgrConnect, openService,
    createService, eventInstall, deleteService, eventRemove.
  rewrite Hp, Hc, Ho, Hcr, Hd, Hei, Her.
  cbn [services setHandles setServices eventSources]. rewrite Hs.
  cbn [services setHandles setServices eventSources]. rewrite Hsrc.
  eexists. eexists. split; [reflexivity |].
  cbn [services eventSources handles setHandles setServices setEventSources
       closeHandle println hostAddLog].
  rewrite !lookup_insert_eq.
  cbn [services eventSources handles setHandles setServices setEventSources
       closeHandle println hostAddLog].
  rewrite !lookup_insert_eq.
  split; [reflexivity |].
  cbn [services eventSources handles setHandles setServices setEventSources
       closeHandle println hostAddLog Nat.pred].
  rewrite !delete_insert_eq, !delete_id by assumption. auto.
Qed.

(** X19. Uninstalling what cannot be opened: when the service is not
    registered, or [OpenService] is refused for any other reason,
    [uninstallService] ends in [log.Fatalf] with the message that the
    service does not exist, and has deleted nothing. *)
Theorem uninstall_without_service_is_fatal (e : Env) (h : Host) :
  connectFails e = false ->
  services h !! serviceName = None \/ openFails e = true ->
  exists h',
    uninstallService e h = (h', Fatal "Service does not exist.") /\
    services h' = services h /\
    eventSources h' = eventSources h.
Proof.
  intros Hc Hwhy. unfold uninstallService, mgrConnect, openService, fatal.
  rewrite Hc. cbn [services setHandles].
  destruct Hwhy as [Hs | Ho].
  - rewrite Hs. destruct (openFails e); eexists; (split; [reflexivity |]);
      cbn; auto.
  - rewrite Ho. eexists. split; [reflexivity |]. cbn. auto.
Qed.

(** X20. Uninstalling is not undone when its second half fails: if the
    service is deleted but the event source cannot be removed (it is not
    registered, or the removal is refused), [uninstallService] ends in
    [log.Fatalf] with the service gone and the event sources untouched. *)
Theorem uninstall_stops_after_deleting_service
        (e : Env) (h : Host) (entry : ServiceEntry) :
  connectFails e = false ->
  openFails e = false ->
  deleteFails e = false ->
  services h !! serviceName = Some entry ->
  eventSources h !! serviceName = None \/ eventRemoveFails e = true ->
  exists h',
    uninstallService e h
    = (h', Fatal "Failed to remove event log source") /\
    services h' = delete serviceName (services h) /\
    services h' !! serviceName = None /\
    eventSources h' = eventSources h.
Proof.
  intros Hc Ho Hd Hs Hwhy.
  unfold uninstallService, mgrConnect, openService, deleteService,
    eventRemove, fatal.
  rewrite Hc, Ho, Hd. cbn [services setHandles setServices eventSources].
  rewrite Hs. cbn [services setHandles setServices eventSources].
  destruct Hwhy as [Hsrc | Hr].
  - rewrite Hsrc. destruct (eventRemoveFails e); eexists;
      (split; [reflexivity |]); cbn; rewrite lookup_delete_eq; auto.
  - rewrite Hr. eexists. split; [reflexivity |]. cbn.
    rewrite lookup_delete_eq. auto.
Qed.

(** X21. Neither function touches anything but its own name: whatever
    the operating system refuses and however the call ends, every other
    service and every other event source is as before, and a normal
    return leaves as many handles open as it found. *)
Theorem installer_touches_only_its_service (e : Env) (h : Host) (name : string) :
  name <> serviceName ->
  let hi := fst (installService e h) in
  let hu := fst (uninstallService e h) in
  services hi !! name = services h !! name /\
  eventSources hi !! name = eventSources h !! name /\
  services hu !! name = services h !! name /\
  eventSources hu !! name = eventSources h !! name /\
  (snd (installService e h) = Ok tt -> handles hi = handles h) /\
  (snd (uninstallService e h) = Ok tt -> handles hu = handles h).
Proof.
  intros Hne. cbv zeta.
  assert (Hne' : serviceName <> name) by congruence.
  unfold installService, uninstallService, mgrConnect, openService,
    createService, eventInstall, deleteService, eventRemove, fatal.
  repeat (case_match; simplify_eq;
          cbn [fst snd services eventSources handles setHandles setServices
               setEventSources closeHandle println hostAddLog Nat.pred] in * );
    repeat split; auto; try discriminate;
    repeat first [ rewrite lookup_insert_ne by assumption
                 | rewrite lookup_delete_ne by assumption ];
    auto.
Qed.

End InstallerFacts.

(** ** [main] *)

Section MainFacts.
Import Sys Installer.

(** [os.Args[1]] when [len(os.Args) > 1]. *)
Lemma main_by_argument (l : Launch) (e : Env) (h : Host) :
  main l e h =
  match nth_error (args l) 1 with
  | Some arg1 =>
      if String.eqb arg1 "install" then finish (installService e h)
      else if String.eqb arg1 "uninstall" then finish (uninstallService e h)
      else runAsService l h
  | None => runAsService l h
  end.
Proof.
  unfold main. destruct (args l) as [| a0 [| a1 rest]]; reflexivity.
Qed.

Lemma finish_never_serves (r : Host * Result unit) (h' : Host) :
  finish r <> Serves h'.
Proof. destruct r as [h0 [[] | msg]]; discriminate. Qed.

(** X22. [main] hands over to the service body in exactly one
    situation: the first argument is neither [install] nor [uninstall]
    (or there is none), [svc.IsWindowsService] returns without error, and
    [svc.Run] reaches the dispatcher.  In particular an [install] or
    [uninstall] run never starts the reboot schedule. *)
Theorem main_serves_exactly_when (l : Launch) (e : Env) (h : Host) :
  (exists h', main l e h = Serves h') <->
  nth_error (args l) 1 <> Some "install" /\
  nth_error (args l) 1 <> Some "uninstall" /\
  windowsService l <> None /\
  dispatcherConnects l = true.
Proof.
  rewrite main_by_argument.
  assert (Hrun : (exists h', runAsService l h = Serves h') <->
                 windowsService l <> None /\ dispatcherConnects l = true).
  { unfold runAsService.
    destruct (windowsService l) as [b |], (dispatcherConnects l);
      split; try (intros [h' E]; discriminate);
      try (intros [? ?]; congruence); eauto;
      split; congruence. }
  destruct (nth_error (args l) 1) as [arg1 |].
  - destruct (String.eqb arg1 "install") eqn:Ei.
    { apply String.eqb_eq in Ei. subst arg1. split.
      - intros [h' E]. exfalso. exact (finish_never_serves _ _ E).
      - intros [Hn _]. congruence. }
    destruct (String.eqb arg1 "uninstall") eqn:Eu.
    { apply String.eqb_eq in Eu. subst arg1. split.
      - intros [h' E]. exfalso. exact (finish_never_serves _ _ E).
      - intros (_ & Hn & _). congruence. }
    apply String.eqb_neq in Ei, Eu. rewrite Hrun. split.
    + intros [Hw Hd]. repeat split; congruence.
    + intros (_ & _ & Hw & Hd). auto.
  - rewrite Hrun. split.
    + intros [Hw Hd]. repeat split; congruence.
    + intros (_ & _ & Hw & Hd). auto.
Qed.

(** X23. The hint that the program should be run as a Windows service is
    logged exactly when [svc.IsWindowsService] returned true, that is, when
    the program is running as a service; a start from a console logs no
    hint and goes on to [svc.Run] all the same.  A run that is not an
    install or uninstall changes neither services nor event sources. *)
Theorem main_hint_is_logged_to_services
        (l : Launch) (e : Env) (h : Host) (isService : bool) :
  nth_error (args l) 1 <> Some "install" ->
  nth_error (args l) 1 <> Some "uninstall" ->
  windowsService l = Some isService ->
  hostLog (outcomeHost (main l e h)) =
    hostLog h
    ++ (if isService
        then [Println "This program should be run as a Windows service.";
              Println "Use 'install' to install the service and 'uninstall' to remove it."]
        else [])
    ++ (if dispatcherConnects l then [] else [Fatalf "Service failed"]) /\
  services (outcomeHost (main l e h)) = services h /\
  eventSources (outcomeHost (main l e h)) = eventSources h.
Proof.
  intros Hi Hu Hw. rewrite main_by_argument.
  assert (Hrun :
            hostLog (outcomeHost (runAsService l h)) =
              hostLog h
              ++ (if isService
                  then [Println "This program should be run as a Windows service.";
                        Println "Use 'install' to install the service and 'uninstall' to remove it."]
                  else [])
              ++ (if dispatcherConnects l then [] else [Fatalf "Service failed"]) /\
            services (outcomeHost (runAsService l h)) = services h /\
            eventSources (outcomeHost (runAsService l h)) = eventSources h).
  { unfold runAsService. rewrite Hw.
    destruct isService, (dispatcherConnects l); cbn;
      rewrite <- ?app_assoc, ?app_nil_r; auto. }
  destruct (nth_error (args l) 1) as [arg1 |]; [| exact Hrun].
  destruct (String.eqb arg1 "install") eqn:Ei.
  { apply String.eqb_eq in Ei. congruence. }
  destruct (String.eqb arg1 "uninstall") eqn:Eu.
  { apply String.eqb_eq in Eu. congruence. }
  exact Hrun.
Qed.

End MainFacts.

(** ** Concrete runs *)

Section ExecuteRuns.
Import GoInt Calendar Zone GoTime Sys Reboot Service Plan Examples.

(** Started at 10:00 with the time of day 10:01; an Interrogate is
    answered, then a Stop arrives. *)
Lemma status_reports_follow_protocol_witness :
  let s0 := initial (fsWithConfig (configText "0" "10:01"))
                    (unixNano (utc 2024 1 1 10 0 0)) in
  let ls := startup ++ [LReq Interrogate; LReq Stop; LMain] in
  exists s, run worldUTC ls s0 = Some s /\ statusProtocol (statuses s).
Proof.
  intros s0 ls.
  destruct (run worldUTC ls s0) as [s |] eqn:E;
    [| vm_compute in E; discriminate].
  exists s. split; [reflexivity |].
  exact (proj1 (status_reports_follow_protocol worldUTC _ _ _ _ E)).
Defined.

(** The timer fires after a minute and the shutdown command is run. *)
Lemma no_reboot_before_the_wait_is_over_witness :
  let t0 := unixNano (utc 2024 1 1 10 0 0) in
  let s0 := initial (fsWithConfig (configText "0" "10:01")) t0 in
  let ls := startup ++ [LTick (60 * second); LFire; LReboot true] in
  exists s tc d,
    run worldUTC ls s0 = Some s /\
    t0 <= tc <= clock s /\
    plannedWait worldUTC (config (sys s)) tc = Some d /\
    tc + d <= clock s.
Proof.
  intros t0 s0 ls.
  destruct (run worldUTC ls s0) as [s |] eqn:E;
    [| vm_compute in E; discriminate].
  assert (Hs : timerpc s = G_Reboot \/ (0 < rebootCalls s)%nat).
  { right. pose proof E as E'. vm_compute in E'. injection E' as <-.
    cbn. lia. }
  destruct (no_reboot_before_the_wait_is_over worldUTC _ _ _ _ E Hs)
    as (tc & d & hour & min & H1 & _ & H3 & H4 & _).
  exists s, tc, d. auto.
Defined.

(** A Stop request in the loop. *)
Lemma stop_request_ends_service_witness :
  let s0 := initial (fsWithConfig (configText "0" "10:01"))
                    (unixNano (utc 2024 1 1 10 0 0)) in
  exists s s',
    run worldUTC startup s0 = Some s /\
    run worldUTC [LReq Stop; LMain; LMain; LExit] s = Some s' /\
    exited s' = Some 0 /\ rebootCalls s' = rebootCalls s.
Proof.
  intros s0.
  destruct (run worldUTC startup s0) as [s |] eqn:E;
    [| vm_compute in E; discriminate].
  assert (Hs : exited s = None /\ mainpc s = M_Loop).
  { vm_compute in E. injection E as <-. split; reflexivity. }
  destruct Hs as [H1 H2].
  destruct (stop_request_ends_service worldUTC s Stop H1 H2 eq_refl)
    as (s' & Hr & He & _ & _ & _ & _ & _ & Hc).
  exists s, s'. auto.
Defined.

(** A run that ends with a Stop request. *)
Lemma exit_status_discipline_witness :
  let s0 := initial (fsWithConfig (configText "0" "10:01"))
                    (unixNano (utc 2024 1 1 10 0 0)) in
  let ls := startup ++ [LReq Stop; LMain; LMain; LExit] in
  exists s, run worldUTC ls s0 = Some s /\
            exited s = Some 0 /\
            ((0 = 0 /\ exists b e, mainpc s = M_Returned b e) \/
             (0 = 1 /\ exists msg,
                 List.last (logged (sys s)) (Println EmptyString) = Fatalf msg)).
Proof.
  intros s0 ls.
  destruct (run worldUTC ls s0) as [s |] eqn:E;
    [| vm_compute in E; discriminate].
  assert (Hs : exited s = Some 0).
  { pose proof E as E'. vm_compute in E'. injection E' as <-. reflexivity. }
  exists s. split; [reflexivity |]. split; [exact Hs |].
  exact (exit_status_discipline worldUTC _ _ _ _ 0 E Hs).
Defined.

(** The service log may not be written. *)
Lemma unopenable_service_log_is_silent_witness :
  let f := {| files := ∅; appended := ∅;
              noWrite := {[ serviceLogPath ]}; noRead := ∅ |} in
  let s0 := initial f (unixNano (utc 2024 1 1 10 0 0)) in
  exists s, run worldUTC [LMain] s0 = Some s /\
            statuses s = [] /\ timerpc s = G_NotStarted.
Proof.
  intros f s0.
  assert (Hf : serviceLogPath ∈ noWrite f)
    by (subst f; cbn [noWrite]; set_solver).
  destruct (run worldUTC [LMain] s0) as [s |] eqn:E.
  - destruct (unopenable_service_log_is_silent worldUTC _ _ _ _ Hf E)
      as (H1 & _ & H3 & _).
    exists s. auto.
  - exfalso.
    destruct (unopenable_service_log_is_silent worldUTC f
                (unixNano (utc 2024 1 1 10 0 0)) [] _ Hf eq_refl)
      as (_ & _ & _ & _ & H).
    unfold run in E. fold s0 in H. rewrite H in E. discriminate.
Defined.

(** The log file of [loadConfig] may not be written. *)
Lemma config_load_failure_ends_startup_witness :
  let f := {| files := ∅; appended := ∅;
              noWrite := {[ logFilePath ]}; noRead := ∅ |} in
  let s0 := initial f (unixNano (utc 2024 1 1 10 0 0)) in
  exists s s',
    run worldUTC [LMain; LMain; LMain] s0 = Some s /\
    step worldUTC LMain s = Some s' /\
    exited s' = Some 1 /\ statuses s' = [startPending].
Proof.
  intros f s0.
  destruct (run worldUTC [LMain; LMain; LMain] s0) as [s |] eqn:E;
    [| vm_compute in E; discriminate].
  assert (Hs : exited s = None /\ mainpc s = M_LoadConfig /\
               snd (loadConfig worldUTC (sys s))
               = Fatal "Failed to open log file").
  { pose proof E as E'. vm_compute in E'. injection E' as <-.
    repeat split. }
  destruct Hs as (H1 & H2 & H3).
  destruct (loadConfig worldUTC (sys s)) as [x r] eqn:EL.
  cbn [snd] in H3. subst r.
  destruct (config_load_failure_ends_startup worldUTC _ _ _ _ _ _
              E H1 H2 EL) as (s' & Hst & He & _ & Hss & _).
  exists s, s'. auto.
Defined.

(** Interrogate, Pause, Interrogate. *)
Lemma requests_without_stop_keep_running_witness :
  let s0 := initial (fsWithConfig (configText "0" "10:01"))
                    (unixNano (utc 2024 1 1 10 0 0)) in
  let cs := [Interrogate; Pause; Interrogate] in
  exists s s',
    run worldUTC startup s0 = Some s /\
    run worldUTC (map LReq cs) s = Some s' /\
    statuses s' = statuses s ++ [running; running].
Proof.
  intros s0 cs.
  destruct (run worldUTC startup s0) as [s |] eqn:E;
    [| vm_compute in E; discriminate].
  assert (Hs : exited s = None /\ mainpc s = M_Loop).
  { pose proof E as E'. vm_compute in E'. injection E' as <-.
    split; reflexivity. }
  destruct Hs as [H1 H2].
  destruct (requests_without_stop_keep_running worldUTC _ _ _ _ cs
              E H1 H2 eq_refl) as (s' & Hr & _ & _ & _ & _ & _ & Hst).
  exists s, s'. auto.
Defined.

(** The configuration after the start and after the timer has fired. *)
Lemma configuration_fixed_after_load_witness :
  let s0 := initial (fsWithConfig (configText "0" "10:01"))
                    (unixNano (utc 2024 1 1 10 0 0)) in
  let ls' := [LTick (60 * second); LFire; LReboot true; LReq Interrogate] in
  exists s s',
    run worldUTC startup s0 = Some s /\
    run worldUTC ls' s = Some s' /\
    config (sys s') = config (sys s) /\ fs (sys s') = fs (sys s).
Proof.
  intros s0 ls'.
  destruct (run worldUTC startup s0) as [s |] eqn:E;
    [| vm_compute in E; discriminate].
  destruct (run worldUTC ls' s) as [s' |] eqn:E'.
  - assert (Hs : configLoaded (mainpc s) = true).
    { pose proof E as E2. vm_compute in E2. injection E2 as <-.
      reflexivity. }
    destruct (configuration_fixed_after_load worldUTC _ _ _ _ _ _ E Hs E')
      as (Hc & Hf & _).
    exists s, s'. auto.
  - exfalso. vm_compute in E. injection E as <-. vm_compute in E'.
    discriminate.
Defined.

(** Started with a delay of minus one day. *)
Lemma negative_delay_reboots_at_once_witness :
  let s0 := initial (fsWithConfig (configText "-1" "10:00"))
                    (unixNano (utc 2024 1 1 10 0 0)) in
  exists s d s',
    run worldUTC [LMain; LMain; LMain; LMain; LMain; LMain] s0 = Some s /\
    plannedWait worldUTC (config (sys s)) (clock s) = Some d /\
    d < 0 /\
    run worldUTC [LTimer; LTimer; LTimer; LFire; LReboot true] s = Some s' /\
    clock s' = clock s /\ rebootCalls s' = S (rebootCalls s).
Proof.
  intros s0.
  destruct (run worldUTC [LMain; LMain; LMain; LMain; LMain; LMain] s0)
    as [s |] eqn:E; [| vm_compute in E; discriminate].
  assert (Hs : exited s = None /\ timerpc s = G_Calc /\
               parseClock (At (config (sys s))) = Some (10, 0) /\
               -100000 <= AfterDays (config (sys s)) <= -1 /\
               dateOffset (Local worldUTC)
                          (restartWall (config (sys s)) (timeNow worldUTC s)
                                       10 0)
               = offsetAt (Local worldUTC) (unixSec (timeNow worldUTC s)) /\
               dateFits (Local worldUTC)
                        (restartWall (config (sys s)) (timeNow worldUTC s)
                                     10 0)).
  { vm_compute in E. injection E as <-. vm_compute.
    repeat split; discriminate. }
  destruct Hs as (H1 & H2 & H3 & H4 & H5 & H6).
  destruct (negative_delay_reboots_at_once worldUTC s 10 0 true
              H1 H2 H3 H4 H5 H6) as (d & s' & R).
  exists s, d, s'. split; [reflexivity | exact R].
Defined.

End ExecuteRuns.

Section LoadConfigRuns.
Import GoInt Calendar Zone GoTime Sys Reboot Service Plan Examples.

(** A log file that exists, no [config.yaml], and a standard output
    that takes what is written: the text of the log file stays and the
    line about the default file is added at its end. *)
Lemma loadConfig_only_creates_its_two_files_witness :
  let f := {| files := {[ logFilePath := "earlier lines"%string ]};
              appended := ∅; noWrite := ∅; noRead := ∅ |} in
  let s' := fst (loadConfig worldUTC (sysWith f zeroConfig)) in
  files (fs s') !! logFilePath = Some "earlier lines"%string /\
  journal (fs s') logFilePath = [Println "Default config.yaml created."] /\
  files (fs s') !! configPath = Some defaultConfig.
Proof.
  intros f s'.
  destruct (loadConfig_only_creates_its_two_files worldUTC (sysWith f zeroConfig))
    as (Hkeep & _).
  split; [apply Hkeep; reflexivity |].
  split; reflexivity.
Defined.

(** Two calls on an empty disk. *)
Lemma loadConfig_twice_leaves_the_disk_witness :
  let s := sysWith emptyFS zeroConfig in
  exists s1, loadConfig worldUTC s = (s1, Ok tt) /\
             fs (fst (loadConfig worldUTC s1)) = fs s1.
Proof.
  intros s.
  destruct (loadConfig worldUTC s) as [s1 r] eqn:E.
  assert (Hr : r = Ok tt).
  { pose proof E as E'. vm_compute in E'. injection E' as _ <-.
    reflexivity. }
  subst r. exists s1. split; [reflexivity |].
  exact (proj1 (loadConfig_twice_leaves_the_disk worldUTC _ _ E)).
Defined.

(** Three days from 2024-01-01T10:00:00 to 23:50. *)
Lemma wait_is_within_a_day_of_the_delay_witness :
  let s := sysWith emptyFS {| AfterDays := 3; At := "23:50" |} in
  let now := timeAt worldUTC (unixNano (utc 2024 1 1 10 0 0)) in
  exists d, calculateSleepDuration now s = (s, Ok d) /\ 0 < d.
Proof.
  intros s now.
  assert (Hp : parseClock (At (config s)) = Some (23, 50)) by reflexivity.
  assert (Hk : -100000 <= AfterDays (config s) <= 100000) by (cbn; lia).
  assert (Ho : dateOffset (Local worldUTC)
                          (restartWall (config s) now 23 50)
               = offsetAt (Local worldUTC) (unixSec now))
    by (vm_compute; reflexivity).
  assert (Hf : dateFits (Local worldUTC) (restartWall (config s) now 23 50))
    by (vm_compute; repeat split; discriminate).
  destruct (wait_is_within_a_day_of_the_delay worldUTC s
              (unixNano (utc 2024 1 1 10 0 0)) 23 50 Hp Hk Ho Hf)
    as (d & Hd & _ & _ & Hpos & _).
  exists d. split; [exact Hd |]. apply Hpos. cbn. lia.
Defined.

End LoadConfigRuns.

Section InstallerRuns.
Import Sys Installer InstallerExamples.

(** Installing twice on a clean machine. *)
Lemma install_twice_changes_nothing_witness :
  exists h1 h2,
    installService okEnv cleanHost = (h1, Ok tt) /\
    installService okEnv h1 = (h2, Ok tt) /\
    services h2 = services h1 /\ eventSources h2 = eventSources h1.
Proof.
  destruct (installService okEnv cleanHost) as [h1 r] eqn:E.
  assert (Hr : r = Ok tt).
  { pose proof E as E'. vm_compute in E'. injection E' as _ <-.
    reflexivity. }
  subst r.
  destruct (install_twice_changes_nothing okEnv cleanHost h1 E eq_refl)
    as (h2 & H2 & Hs & He & _).
  exists h1, h2. auto.
Defined.

Lemma install_on_clean_machine_witness :
  exists h',
    installService okEnv cleanHost = (h', Ok tt) /\
    services h' !! serviceName = Some (newEntry "C:\reboot\reboot.exe") /\
    eventSources h' !! serviceName = Some 7.
Proof.
  destruct (install_on_clean_machine okEnv cleanHost "C:\reboot\reboot.exe"
              eq_refl eq_refl eq_refl eq_refl eq_refl eq_refl)
    as (h' & Hi & Hs & _ & _ & He & _).
  exists h'. split; [exact Hi |]. rewrite Hs, He.
  split; apply lookup_insert_eq.
Defined.

(** The event source cannot be registered. *)
Lemma failed_install_is_rolled_back_witness :
  exists h' msg,
    installService noEventLogEnv cleanHost = (h', Fatal msg) /\
    services h' = services cleanHost /\
    eventSources h' = eventSources cleanHost.
Proof.
  destruct (installService noEventLogEnv cleanHost) as [h' r] eqn:E.
  assert (Hr : r = Fatal "Failed to set up event log source").
  { pose proof E as E'. vm_compute in E'. injection E' as _ <-.
    reflexivity. }
  subst r. exists h', "Failed to set up event log source"%string.
  split; [reflexivity |].
  exact (failed_install_is_rolled_back noEventLogEnv cleanHost h' _
           E eq_refl).
Defined.

Lemma install_then_uninstall_restores_witness :
  exists h1 h2,
    installService okEnv cleanHost = (h1, Ok tt) /\
    uninstallService okEnv h1 = (h2, Ok tt) /\
    services h2 = services cleanHost.
Proof.
  destruct (install_then_uninstall_restores okEnv cleanHost
              "C:\reboot\reboot.exe"
              eq_refl eq_refl eq_refl eq_refl eq_refl eq_refl eq_refl
              eq_refl eq_refl)
    as (h1 & h2 & H1 & H2 & Hs & _).
  exists h1, h2. auto.
Defined.

Lemma uninstall_without_service_is_fatal_witness :
  exists h',
    uninstallService okEnv cleanHost = (h', Fatal "Service does not exist.") /\
    services h' = services cleanHost.
Proof.
  destruct (uninstall_without_service_is_fatal okEnv cleanHost eq_refl
              (or_introl eq_refl))
    as (h' & H1 & H2 & _).
  exists h'. auto.
Defined.

(** The service is registered, its event source is not. *)
Lemma uninstall_stops_after_deleting_service_witness :
  exists h',
    uninstallService okEnv halfInstalledHost
    = (h', Fatal "Failed to remove event log source") /\
    services h' !! serviceName = None.
Proof.
  assert (Hs : services halfInstalledHost !! serviceName
               = Some (newEntry "C:\reboot\reboot.exe"))
    by apply lookup_singleton_eq.
  destruct (uninstall_stops_after_deleting_service okEnv halfInstalledHost _
              eq_refl eq_refl eq_refl Hs (or_introl eq_refl))
    as (h' & H1 & _ & H3 & _).
  exists h'. auto.
Defined.

(** Another service on the machine. *)
Lemma installer_touches_only_its_service_witness :
  services (fst (installService okEnv halfInstalledHost)) !! "Spooler"
  = services halfInstalledHost !! "Spooler" /\
  services (fst (uninstallService okEnv halfInstalledHost)) !! "Spooler"
  = services halfInstalledHost !! "Spooler".
Proof.
  assert (Hne : "Spooler"%string <> serviceName) by discriminate.
  destruct (installer_touches_only_its_service okEnv halfInstalledHost
              "Spooler" Hne) as (H1 & _ & H3 & _).
  split; [exact H1 | exact H3].
Defined.

(** Started by the service control manager. *)
Lemma main_hint_is_logged_to_services_witness :
  hostLog (outcomeHost (main asService okEnv cleanHost)) =
    [Println "This program should be run as a Windows service.";
     Println "Use 'install' to install the service and 'uninstall' to remove it."].
Proof.
  assert (Hi : nth_error (args asService) 1 <> Some "install"%string)
    by discriminate.
  assert (Hu : nth_error (args asService) 1 <> Some "uninstall"%string)
    by discriminate.
  destruct (main_hint_is_logged_to_services asService okEnv cleanHost true
              Hi Hu eq_refl) as [H _].
  exact H.
Defined.

End InstallerRuns.

